(** * Avoidance by lane change: the scene module of the behavior path planner

    A shallow embedding of
    [planning/behavior_path_planner/src/scene_module/avoidance_by_lc/module.cpp]
    and the properties its design document states about it.

    Conventions of the embedding.
    - A C++ [double] that the module is given (a member, a parameter, the
      result of a library function) is finite and is the rational number
      ([Q]) it denotes; comparisons of such numbers are exact.  A [double]
      that the module computes is a [double.t]: the exact result rounded as
      IEEE 754 binary64 arithmetic rounds it, an infinity on overflow.
      [size_t] counts are [nat] where they only count elements, and [Z]
      modulo 2^64 where the code subtracts.
    - A member function is a computation in the monad [M]: it reads and
      writes the object [AvoidanceByLCModule] and either returns or stops at
      a [Fault] (a null pointer dereferenced, [front()] or [back()] of an
      empty vector, [at()] out of range).  The pointers [parameters_],
      [planner_data_] and those inside them are taken to be set; the paths of
      the previous module's output and [abort_path_] may be null.
    - Functions the module calls but does not define (the [util] helpers, the
      lanelet library, the approval interface of the base class) are
      operations of type classes: every theorem holds for all of them. *)

From Stdlib Require Import QArith Lqa Sorted Permutation.
From stdpp Require Import base option list strings gmap.

Open Scope Q_scope.

(** ** Faults and results *)

Inductive Fault :=
| null_dereference (pointer : string)
| empty_vector (container : string)
| out_of_range (container : string).

Inductive Result (A : Type) :=
| Ok (a : A)
| Raise (f : Fault).

Arguments Ok {A} a.
Arguments Raise {A} f.

(** A computation over an object of type [S]. *)
Definition StateM (S A : Type) : Type := S -> Result (A * S).

Section StateM.
Context {S : Type}.

Definition ret {A} (a : A) : StateM S A := fun s => Ok (a, s).

Definition bind {A B} (c : StateM S A) (k : A -> StateM S B) : StateM S B :=
  fun s => match c s with
           | Ok (a, s') => k a s'
           | Raise f => Raise f
           end.

Definition get : StateM S S := fun s => Ok (s, s).
Definition gets {A} (f : S -> A) : StateM S A := fun s => Ok (f s, s).
Definition modify (f : S -> S) : StateM S unit := fun s => Ok (tt, f s).
Definition raise {A} (f : Fault) : StateM S A := fun _ => Raise f.

(** [*p] for a [shared_ptr] or [optional] [p]. *)
Definition deref {A} (pointer : string) (p : option A) : StateM S A :=
  match p with
  | Some a => ret a
  | None => raise (null_dereference pointer)
  end.

(** [v.front()], [v.back()] and [v.at(i)] of a [std::vector]. *)
Definition front {A} (container : string) (v : list A) : StateM S A :=
  match head v with
  | Some a => ret a
  | None => raise (empty_vector container)
  end.

Definition back {A} (container : string) (v : list A) : StateM S A :=
  match last v with
  | Some a => ret a
  | None => raise (empty_vector container)
  end.

Definition at_ {A} (container : string) (v : list A) (i : nat) : StateM S A :=
  match v !! i with
  | Some a => ret a
  | None => raise (out_of_range container)
  end.

End StateM.

Declare Scope cxx_scope.
Delimit Scope cxx_scope with cxx.
Notation "x <- c ;; k" := (bind c (fun x => k))
  (at level 100, c at next level, right associativity) : cxx_scope.
Notation "c ;; k" := (bind c (fun _ => k))
  (at level 100, right associativity) : cxx_scope.
Open Scope cxx_scope.

(** ** [std::sort]

    The standard only promises a permutation ordered by the comparison;
    insertion is the executable stand-in.  [comp a b] is the lambda's
    "a goes before b". *)
Fixpoint sort_insert {A} (comp : A -> A -> bool) (a : A) (v : list A) : list A :=
  match v with
  | [] => [a]
  | b :: v' => if comp a b then a :: b :: v' else b :: sort_insert comp a v'
  end.

Fixpoint std_sort {A} (comp : A -> A -> bool) (v : list A) : list A :=
  match v with
  | [] => []
  | a :: v' => sort_insert comp a (std_sort comp v')
  end.

(** Comparisons of [double]s. *)
Definition Qltb (a b : Q) : bool := negb (Qle_bool b a).
Definition Qgtb (a b : Q) : bool := Qltb b a.

(** ** Arithmetic of [double]

    The operations on binary64 numbers: the exact result is rounded to the
    nearest number of the format, to the even one of two equally near;
    a result of magnitude [2 ^ 1024] or more is an infinity, and the
    difference of equal infinities or the product of an infinity and zero
    is NaN.  The two zeros are one number: the module never looks at the
    sign of a zero. *)
Module double.

Inductive t := finite (q : Q) | infinity (negative : bool) | nan.

(** The format: 53 bits of precision; [emin] is the exponent of the least
    subnormal number and [2 ^ emax] the least magnitude that overflows. *)
Definition precision : Z := 53.
Definition emin : Z := -1074.
Definition emax : Z := 1024.

Definition pow2 (e : Z) : Q :=
  if (0 <=? e)%Z then inject_Z (2 ^ e) else 1 # Z.to_pos (2 ^ (- e)).

(** The integer part of the binary logarithm of [n / d]. *)
Definition ilog2 (n d : positive) : Z :=
  let k := (Z.log2 (Zpos n) - Z.log2 (Zpos d))%Z in
  if Qle_bool (pow2 k) (Zpos n # d) then k else (k - 1)%Z.

(** The integer nearest to [n / d], the even one of two equally near. *)
Definition nearest_integer (n : Z) (d : positive) : Z :=
  let q := (n / Zpos d)%Z in
  let r := (n mod Zpos d)%Z in
  match (2 * r ?= Zpos d)%Z with
  | Lt => q
  | Gt => (q + 1)%Z
  | Eq => if Z.even q then q else (q + 1)%Z
  end.

(** The number [m * 2 ^ e] with at most 53 bits in [m] and [emin <= e] that
    is nearest to [x]: the value of a literal, and the result of an
    operation before overflow is looked at. *)
Definition nearest (x : Q) : Q :=
  match Qnum x with
  | Z0 => 0
  | Zpos n | Zneg n =>
      let e := Z.max emin (ilog2 n (Qden x) - (precision - 1)) in
      let scaled := Qred (x * pow2 (- e)) in
      Qred (inject_Z (nearest_integer (Qnum scaled) (Qden scaled)) * pow2 e)
  end.

Definition round (x : Q) : t :=
  let r := nearest x in
  if Qle_bool (pow2 emax) r then infinity false
  else if Qle_bool r (- pow2 emax) then infinity true
  else finite r.

Definition opp (a : t) : t :=
  match a with
  | finite x => finite (- x)
  | infinity negative => infinity (negb negative)
  | nan => nan
  end.

Definition add (a b : t) : t :=
  match a, b with
  | nan, _ | _, nan => nan
  | finite x, finite y => round (x + y)
  | infinity negative, finite _ | finite _, infinity negative => infinity negative
  | infinity negative, infinity negative' =>
      if Bool.eqb negative negative' then infinity negative else nan
  end.

Definition sub (a b : t) : t := add a (opp b).

Definition mul (a b : t) : t :=
  match a, b with
  | nan, _ | _, nan => nan
  | finite x, finite y => round (x * y)
  | infinity negative, finite y | finite y, infinity negative =>
      if Qeq_bool y 0 then nan else infinity (xorb negative (Qltb y 0))
  | infinity negative, infinity negative' => infinity (xorb negative negative')
  end.

(** [a < b]: false whenever one of them is NaN. *)
Definition ltb (a b : t) : bool :=
  match a, b with
  | nan, _ | _, nan => false
  | finite x, finite y => Qltb x y
  | finite _, infinity negative => negb negative
  | infinity negative, finite _ => negative
  | infinity negative, infinity negative' => negative && negb negative'
  end.

Definition gtb (a b : t) : bool := ltb b a.

(** [std::max (a, b)] is [(a < b) ? b : a]. *)
Definition max (a b : t) : t := if ltb a b then b else a.

End double.

(** A given [double] is used where a computed one is expected. *)
Coercion double.finite : Q >-> double.t.

Arguments double.nearest : simpl never.
Arguments double.round : simpl never.
Arguments double.add : simpl never.
Arguments double.sub : simpl never.
Arguments double.mul : simpl never.
Arguments double.ltb : simpl never.
Arguments double.gtb : simpl never.
Arguments double.max : simpl never.

(** The literal [0.1]. *)
Definition double_0_1 : Q := Eval vm_compute in double.nearest (1 # 10).

(** [M_PI] as the [double] it is. *)
Definition M_PI : Q := 884279719003555 # 281474976710656.

(** [size_t] subtraction. *)
Definition size_t_max : Z := 2 ^ 64.
Definition size_t_sub (a b : Z) : Z := ((a - b) mod size_t_max)%Z.

(** ** Messages and planner data *)

Definition UUID := N.

Record Header := mkHeader { frame_id : string; stamp : Z }.

Record Point := mkPoint { point_x : Q; point_y : Q; point_z : Q }.
Record Point2d := mkPoint2d { point2d_x : Q; point2d_y : Q }.
Definition Polygon2d := list Point2d.
Record Quaternion := mkQuaternion { quat_x : Q; quat_y : Q; quat_z : Q; quat_w : Q }.
Record Pose := mkPose { position : Point; orientation : Quaternion }.
Record Vector3 := mkVector3 { vector_x : Q; vector_y : Q; vector_z : Q }.
Record Twist := mkTwist { linear : Vector3; angular : Vector3 }.

Record Odometry := mkOdometry { odometry_pose : Pose; odometry_twist : Twist }.

Record PredictedObject := mkPredictedObject {
  object_id : UUID;
  classification : nat;
  initial_pose : Pose;   (* kinematics.initial_pose_with_covariance.pose *)
  initial_twist : Twist
}.

Record PredictedObjects := mkPredictedObjects { objects : list PredictedObject }.

Record ConstLanelet := mkLanelet { lanelet_id : Z }.
Definition ConstLanelets := list ConstLanelet.

Record DrivableLanes := mkDrivableLanes {
  right_lane : ConstLanelet;
  left_lane : ConstLanelet;
  middle_lanes : ConstLanelets
}.

Record PathPoint := mkPathPoint { pose : Pose; longitudinal_velocity_mps : Q }.
Record PathPointWithLaneId := mkPathPointWithLaneId {
  point : PathPoint;
  lane_ids : list Z
}.

Record PathWithLaneId := mkPathWithLaneId {
  header : Header;
  points : list PathPointWithLaneId;
  left_bound : list Point;
  right_bound : list Point
}.

Definition set_header (v : Header) (r : PathWithLaneId) : PathWithLaneId :=
  {| header := v; points := points r; left_bound := left_bound r;
     right_bound := right_bound r |}.

Record ShiftLine := mkShiftLine { start : Pose; end_ : Pose }.
Record ShiftedPath := mkShiftedPath {
  shifted_points : PathWithLaneId;
  shift_length : list Q
}.

Record LaneChangePhaseInfo := mkLaneChangePhaseInfo { prepare : Q; lane_changing : Q }.
Definition sum (i : LaneChangePhaseInfo) : double.t :=
  double.add (prepare i) (lane_changing i).

Record LaneChangePath := mkLaneChangePath {
  path : PathWithLaneId;
  shifted_path : ShiftedPath;
  shift_line : ShiftLine;
  acceleration : Q;
  length_ : LaneChangePhaseInfo;
  reference_lanelets : ConstLanelets;
  target_lanelets : ConstLanelets
}.
Definition LaneChangePaths := list LaneChangePath.

Definition set_path (v : PathWithLaneId) (r : LaneChangePath) : LaneChangePath :=
  {| path := v; shifted_path := shifted_path r; shift_line := shift_line r;
     acceleration := acceleration r; length_ := length_ r;
     reference_lanelets := reference_lanelets r;
     target_lanelets := target_lanelets r |}.

Record LaneChangeStatus := mkLaneChangeStatus {
  lane_change_path : LaneChangePath;
  current_lanes : ConstLanelets;
  lane_change_lanes : ConstLanelets;
  lane_follow_lane_ids : list Z;
  lane_change_lane_ids : list Z;
  is_safe : bool;
  is_valid_path : bool;
  start_distance : Q
}.

Definition set_lane_change_path (v : LaneChangePath) (r : LaneChangeStatus) : LaneChangeStatus :=
  {| lane_change_path := v; current_lanes := current_lanes r;
     lane_change_lanes := lane_change_lanes r; lane_follow_lane_ids :=
     lane_follow_lane_ids r; lane_change_lane_ids := lane_change_lane_ids
     r; is_safe := is_safe r; is_valid_path := is_valid_path r;
     start_distance := start_distance r |}.
Definition set_current_lanes (v : ConstLanelets) (r : LaneChangeStatus) : LaneChangeStatus :=
  {| lane_change_path := lane_change_path r; current_lanes := v;
     lane_change_lanes := lane_change_lanes r; lane_follow_lane_ids :=
     lane_follow_lane_ids r; lane_change_lane_ids := lane_change_lane_ids
     r; is_safe := is_safe r; is_valid_path := is_valid_path r;
     start_distance := start_distance r |}.
Definition set_lane_change_lanes (v : ConstLanelets) (r : LaneChangeStatus) : LaneChangeStatus :=
  {| lane_change_path := lane_change_path r; current_lanes :=
     current_lanes r; lane_change_lanes := v; lane_follow_lane_ids :=
     lane_follow_lane_ids r; lane_change_lane_ids := lane_change_lane_ids
     r; is_safe := is_safe r; is_valid_path := is_valid_path r;
     start_distance := start_distance r |}.
Definition set_lane_follow_lane_ids (v : list Z) (r : LaneChangeStatus) : LaneChangeStatus :=
  {| lane_change_path := lane_change_path r; current_lanes :=
     current_lanes r; lane_change_lanes := lane_change_lanes r;
     lane_follow_lane_ids := v; lane_change_lane_ids :=
     lane_change_lane_ids r; is_safe := is_safe r; is_valid_path :=
     is_valid_path r; start_distance := start_distance r |}.
Definition set_lane_change_lane_ids (v : list Z) (r : LaneChangeStatus) : LaneChangeStatus :=
  {| lane_change_path := lane_change_path r; current_lanes :=
     current_lanes r; lane_change_lanes := lane_change_lanes r;
     lane_follow_lane_ids := lane_follow_lane_ids r; lane_change_lane_ids
     := v; is_safe := is_safe r; is_valid_path := is_valid_path r;
     start_distance := start_distance r |}.
Definition set_is_safe (v : bool) (r : LaneChangeStatus) : LaneChangeStatus :=
  {| lane_change_path := lane_change_path r; current_lanes :=
     current_lanes r; lane_change_lanes := lane_change_lanes r;
     lane_follow_lane_ids := lane_follow_lane_ids r; lane_change_lane_ids
     := lane_change_lane_ids r; is_safe := v; is_valid_path :=
     is_valid_path r; start_distance := start_distance r |}.
Definition set_is_valid_path (v : bool) (r : LaneChangeStatus) : LaneChangeStatus :=
  {| lane_change_path := lane_change_path r; current_lanes :=
     current_lanes r; lane_change_lanes := lane_change_lanes r;
     lane_follow_lane_ids := lane_follow_lane_ids r; lane_change_lane_ids
     := lane_change_lane_ids r; is_safe := is_safe r; is_valid_path := v;
     start_distance := start_distance r |}.
Definition set_start_distance (v : Q) (r : LaneChangeStatus) : LaneChangeStatus :=
  {| lane_change_path := lane_change_path r; current_lanes :=
     current_lanes r; lane_change_lanes := lane_change_lanes r;
     lane_follow_lane_ids := lane_follow_lane_ids r; lane_change_lane_ids
     := lane_change_lane_ids r; is_safe := is_safe r; is_valid_path :=
     is_valid_path r; start_distance := v |}.

Inductive TurnIndicatorsCommand := NO_COMMAND | DISABLE | ENABLE_LEFT | ENABLE_RIGHT.
Record TurnIndicatorsCommandMsg := mkTurnCommand { command : TurnIndicatorsCommand }.
Record TurnSignalInfo := mkTurnSignalInfo {
  turn_signal : TurnIndicatorsCommandMsg;
  signal_section : list Pose   (* desired and required start and end points *)
}.

Module BehaviorModuleOutput.
Record t := mk {
  path : option PathWithLaneId;
  reference_path : option PathWithLaneId;
  turn_signal_info : TurnSignalInfo
}.
(** [BehaviorModuleOutput{}]: both pointers null. *)
Definition empty : t :=
  {| path := None; reference_path := None;
     turn_signal_info := mkTurnSignalInfo (mkTurnCommand NO_COMMAND) [] |}.
Definition set_path (v : option PathWithLaneId) (r : t) : t :=
  {| path := v; reference_path := reference_path r;
     turn_signal_info := turn_signal_info r |}.
Definition set_reference_path (v : option PathWithLaneId) (r : t) : t :=
  {| path := path r; reference_path := v;
     turn_signal_info := turn_signal_info r |}.
Definition set_turn_signal_info (v : TurnSignalInfo) (r : t) : t :=
  {| path := path r; reference_path := reference_path r;
     turn_signal_info := v |}.
End BehaviorModuleOutput.

Record CandidateOutput := mkCandidateOutput {
  path_candidate : PathWithLaneId;
  lateral_shift : Q;
  start_distance_to_path_change : Q;
  finish_distance_to_path_change : Q
}.

Record ObjectData := mkObjectData {
  object : PredictedObject;
  lateral : Q;
  longitudinal : Q;
  overhang_dist : Q;
  overhang_pose : Pose;
  envelope_poly : Polygon2d;
  centroid : Point2d;
  avoid_required : bool;
  reason : string
}.
Definition ObjectDataArray := list ObjectData.

Definition set_object (v : PredictedObject) (r : ObjectData) : ObjectData :=
  {| object := v; lateral := lateral r; longitudinal := longitudinal r;
     overhang_dist := overhang_dist r; overhang_pose := overhang_pose r;
     envelope_poly := envelope_poly r; centroid := centroid r;
     avoid_required := avoid_required r; reason := reason r |}.
Definition set_lateral (v : Q) (r : ObjectData) : ObjectData :=
  {| object := object r; lateral := v; longitudinal := longitudinal r;
     overhang_dist := overhang_dist r; overhang_pose := overhang_pose r;
     envelope_poly := envelope_poly r; centroid := centroid r;
     avoid_required := avoid_required r; reason := reason r |}.
Definition set_longitudinal (v : Q) (r : ObjectData) : ObjectData :=
  {| object := object r; lateral := lateral r; longitudinal := v;
     overhang_dist := overhang_dist r; overhang_pose := overhang_pose r;
     envelope_poly := envelope_poly r; centroid := centroid r;
     avoid_required := avoid_required r; reason := reason r |}.
Definition set_overhang_dist (v : Q) (r : ObjectData) : ObjectData :=
  {| object := object r; lateral := lateral r; longitudinal :=
     longitudinal r; overhang_dist := v; overhang_pose := overhang_pose r;
     envelope_poly := envelope_poly r; centroid := centroid r;
     avoid_required := avoid_required r; reason := reason r |}.
Definition set_overhang_pose (v : Pose) (r : ObjectData) : ObjectData :=
  {| object := object r; lateral := lateral r; longitudinal :=
     longitudinal r; overhang_dist := overhang_dist r; overhang_pose := v;
     envelope_poly := envelope_poly r; centroid := centroid r;
     avoid_required := avoid_required r; reason := reason r |}.
Definition set_centroid (v : Point2d) (r : ObjectData) : ObjectData :=
  {| object := object r; lateral := lateral r; longitudinal :=
     longitudinal r; overhang_dist := overhang_dist r; overhang_pose :=
     overhang_pose r; envelope_poly := envelope_poly r; centroid := v;
     avoid_required := avoid_required r; reason := reason r |}.
Definition set_avoid_required (v : bool) (r : ObjectData) : ObjectData :=
  {| object := object r; lateral := lateral r; longitudinal :=
     longitudinal r; overhang_dist := overhang_dist r; overhang_pose :=
     overhang_pose r; envelope_poly := envelope_poly r; centroid :=
     centroid r; avoid_required := v; reason := reason r |}.
Definition set_reason (v : string) (r : ObjectData) : ObjectData :=
  {| object := object r; lateral := lateral r; longitudinal :=
     longitudinal r; overhang_dist := overhang_dist r; overhang_pose :=
     overhang_pose r; envelope_poly := envelope_poly r; centroid :=
     centroid r; avoid_required := avoid_required r; reason := v |}.

Module AvoidancePlanningData.
Record t := mk {
  reference_pose : Pose;
  reference_path : PathWithLaneId;
  ego_closest_path_index : Z;
  arclength_from_ego : list Q;
  current_lanelets : ConstLanelets;
  target_objects : ObjectDataArray;
  other_objects : ObjectDataArray
}.
Definition set_target_objects (v : ObjectDataArray) (r : t) : t :=
  {| reference_pose := reference_pose r; reference_path := reference_path r;
     ego_closest_path_index := ego_closest_path_index r;
     arclength_from_ego := arclength_from_ego r;
     current_lanelets := current_lanelets r; target_objects := v;
     other_objects := other_objects r |}.
Definition set_other_objects (v : ObjectDataArray) (r : t) : t :=
  {| reference_pose := reference_pose r; reference_path := reference_path r;
     ego_closest_path_index := ego_closest_path_index r;
     arclength_from_ego := arclength_from_ego r;
     current_lanelets := current_lanelets r;
     target_objects := target_objects r; other_objects := v |}.
End AvoidancePlanningData.

Record DebugData := mkDebugData { unavoidable_notes : list string }.

Record CollisionCheckDebug := mkCollisionCheckDebug {
  allow_lane_change : bool;
  is_front : bool;
  relative_to_ego : Q;
  failed_reason : string;
  object_twist : Twist
}.
Definition CollisionCheckDebugMap := gmap string CollisionCheckDebug.

Record Marker := mkMarker { marker_ns : string; marker_id : Z }.
Record MarkerArray := mkMarkerArray { markers : list Marker }.

Inductive Direction := NONE | LEFT | RIGHT.

(** ** Parameters *)

Record AvoidanceParameters := mkAvoidanceParameters {
  resample_interval_for_planning : Q;
  detection_area_left_expand_dist : Q;
  detection_area_right_expand_dist : Q;
  lateral_passable_safety_buffer : Q
}.

Record LaneChangeParameters := mkLaneChangeParameters {
  prepare_duration : Q;
  lane_change_finish_judge_buffer : Q;
  enable_cancel_lane_change : bool;
  enable_abort_lane_change : bool;
  publish_debug_marker : bool;
  drivable_area_left_bound_offset : Q;
  drivable_area_right_bound_offset : Q;
  drivable_area_types_to_skip : list string
}.

Record AvoidanceByLCParameters := mkAvoidanceByLCParameters {
  avoidance : AvoidanceParameters;
  lane_change : LaneChangeParameters;
  execute_object_num : nat;
  execute_object_longitudinal_margin : Q;
  execute_only_when_lane_change_finish_before_object : bool
}.

Record BehaviorPathPlannerParameters := mkCommonParameters {
  vehicle_width : Q;
  vehicle_length : Q;
  minimum_lane_changing_length : Q;
  backward_path_length : Q;
  forward_path_length : Q;
  expected_front_deceleration_for_abort : Q;
  expected_rear_deceleration_for_abort : Q
}.

(** The route handler is an object of another package: its methods are the
    fields. *)
Record RouteHandler := mkRouteHandler {
  getRouteHeader_ : Header;
  getLaneletSequence : ConstLanelet -> Pose -> Q -> double.t -> ConstLanelets;
  routing_left : ConstLanelet -> option ConstLanelet;
  routing_right : ConstLanelet -> option ConstLanelet;
  getNumLaneToPreferredLane : ConstLanelet -> Z
}.

Record PlannerData := mkPlannerData {
  self_odometry : Odometry;
  dynamic_object : PredictedObjects;
  route_handler : RouteHandler;
  parameters : BehaviorPathPlannerParameters
}.

(** ** The module object *)

Inductive ModuleStatus := IDLE | RUNNING | SUCCESS | FAILURE.
Inductive LaneChangeStates := Normal | Cancel | Abort | Stop.

(** What the approval interface (RTC) keeps of one registered request. *)
Record CooperateStatus := mkCooperateStatus {
  request_uuid : UUID;
  request_safe : bool;
  request_start_distance : Q;
  request_finish_distance : Q;
  command_activate : bool
}.
Definition RTCInterface := list CooperateStatus.

Inductive SteeringDirection := SteeringLEFT | SteeringRIGHT | SteeringUNKNOWN.
Inductive SteeringStatus := APPROACHING | TURNING.
Record SteeringFactor := mkSteeringFactor {
  factor_pose : Pose * Pose;
  factor_distance : Q * Q;
  factor_direction : SteeringDirection;
  factor_status : SteeringStatus
}.

(** The members of the base class [SceneModuleInterface] that the module
    reads or assigns.  The class itself is declared in another file;
    [random_engine_] stands for the generator behind [generateUUID]. *)
Record SceneModuleInterface := mkSceneModuleInterface {
  current_state_ : ModuleStatus;
  is_waiting_approval_ : bool;
  planner_data_ : PlannerData;
  previous_module_output_ : BehaviorModuleOutput.t;
  path_candidate_ : option PathWithLaneId;
  path_reference_ : option PathWithLaneId;
  uuid_map_ : gmap string UUID;
  rtc_interface_ptr_map_ : gmap string RTCInterface;
  steering_factor_interface_ptr_ : option SteeringFactor;
  random_engine_ : N
}.

Definition set_current_state_ (v : ModuleStatus) (r : SceneModuleInterface) : SceneModuleInterface :=
  {| current_state_ := v; is_waiting_approval_ := is_waiting_approval_ r;
     planner_data_ := planner_data_ r; previous_module_output_ :=
     previous_module_output_ r; path_candidate_ := path_candidate_ r;
     path_reference_ := path_reference_ r; uuid_map_ := uuid_map_ r;
     rtc_interface_ptr_map_ := rtc_interface_ptr_map_ r;
     steering_factor_interface_ptr_ := steering_factor_interface_ptr_ r;
     random_engine_ := random_engine_ r |}.
Definition set_is_waiting_approval_ (v : bool) (r : SceneModuleInterface) : SceneModuleInterface :=
  {| current_state_ := current_state_ r; is_waiting_approval_ := v;
     planner_data_ := planner_data_ r; previous_module_output_ :=
     previous_module_output_ r; path_candidate_ := path_candidate_ r;
     path_reference_ := path_reference_ r; uuid_map_ := uuid_map_ r;
     rtc_interface_ptr_map_ := rtc_interface_ptr_map_ r;
     steering_factor_interface_ptr_ := steering_factor_interface_ptr_ r;
     random_engine_ := random_engine_ r |}.
Definition set_planner_data_ (v : PlannerData) (r : SceneModuleInterface) : SceneModuleInterface :=
  {| current_state_ := current_state_ r; is_waiting_approval_ :=
     is_waiting_approval_ r; planner_data_ := v; previous_module_output_
     := previous_module_output_ r; path_candidate_ := path_candidate_ r;
     path_reference_ := path_reference_ r; uuid_map_ := uuid_map_ r;
     rtc_interface_ptr_map_ := rtc_interface_ptr_map_ r;
     steering_factor_interface_ptr_ := steering_factor_interface_ptr_ r;
     random_engine_ := random_engine_ r |}.
Definition set_previous_module_output_ (v : BehaviorModuleOutput.t) (r : SceneModuleInterface) : SceneModuleInterface :=
  {| current_state_ := current_state_ r; is_waiting_approval_ :=
     is_waiting_approval_ r; planner_data_ := planner_data_ r;
     previous_module_output_ := v; path_candidate_ := path_candidate_ r;
     path_reference_ := path_reference_ r; uuid_map_ := uuid_map_ r;
     rtc_interface_ptr_map_ := rtc_interface_ptr_map_ r;
     steering_factor_interface_ptr_ := steering_factor_interface_ptr_ r;
     random_engine_ := random_engine_ r |}.
Definition set_path_candidate_ (v : option PathWithLaneId) (r : SceneModuleInterface) : SceneModuleInterface :=
  {| current_state_ := current_state_ r; is_waiting_approval_ :=
     is_waiting_approval_ r; planner_data_ := planner_data_ r;
     previous_module_output_ := previous_module_output_ r; path_candidate_
     := v; path_reference_ := path_reference_ r; uuid_map_ := uuid_map_ r;
     rtc_interface_ptr_map_ := rtc_interface_ptr_map_ r;
     steering_factor_interface_ptr_ := steering_factor_interface_ptr_ r;
     random_engine_ := random_engine_ r |}.
Definition set_path_reference_ (v : option PathWithLaneId) (r : SceneModuleInterface) : SceneModuleInterface :=
  {| current_state_ := current_state_ r; is_waiting_approval_ :=
     is_waiting_approval_ r; planner_data_ := planner_data_ r;
     previous_module_output_ := previous_module_output_ r; path_candidate_
     := path_candidate_ r; path_reference_ := v; uuid_map_ := uuid_map_ r;
     rtc_interface_ptr_map_ := rtc_interface_ptr_map_ r;
     steering_factor_interface_ptr_ := steering_factor_interface_ptr_ r;
     random_engine_ := random_engine_ r |}.
Definition set_uuid_map_ (v : gmap string UUID) (r : SceneModuleInterface) : SceneModuleInterface :=
  {| current_state_ := current_state_ r; is_waiting_approval_ :=
     is_waiting_approval_ r; planner_data_ := planner_data_ r;
     previous_module_output_ := previous_module_output_ r; path_candidate_
     := path_candidate_ r; path_reference_ := path_reference_ r; uuid_map_
     := v; rtc_interface_ptr_map_ := rtc_interface_ptr_map_ r;
     steering_factor_interface_ptr_ := steering_factor_interface_ptr_ r;
     random_engine_ := random_engine_ r |}.
Definition set_rtc_interface_ptr_map_ (v : gmap string RTCInterface) (r : SceneModuleInterface) : SceneModuleInterface :=
  {| current_state_ := current_state_ r; is_waiting_approval_ :=
     is_waiting_approval_ r; planner_data_ := planner_data_ r;
     previous_module_output_ := previous_module_output_ r; path_candidate_
     := path_candidate_ r; path_reference_ := path_reference_ r; uuid_map_
     := uuid_map_ r; rtc_interface_ptr_map_ := v;
     steering_factor_interface_ptr_ := steering_factor_interface_ptr_ r;
     random_engine_ := random_engine_ r |}.
Definition set_steering_factor_interface_ptr_ (v : option SteeringFactor) (r : SceneModuleInterface) : SceneModuleInterface :=
  {| current_state_ := current_state_ r; is_waiting_approval_ :=
     is_waiting_approval_ r; planner_data_ := planner_data_ r;
     previous_module_output_ := previous_module_output_ r; path_candidate_
     := path_candidate_ r; path_reference_ := path_reference_ r; uuid_map_
     := uuid_map_ r; rtc_interface_ptr_map_ := rtc_interface_ptr_map_ r;
     steering_factor_interface_ptr_ := v; random_engine_ := random_engine_
     r |}.
Definition set_random_engine_ (v : N) (r : SceneModuleInterface) : SceneModuleInterface :=
  {| current_state_ := current_state_ r; is_waiting_approval_ :=
     is_waiting_approval_ r; planner_data_ := planner_data_ r;
     previous_module_output_ := previous_module_output_ r; path_candidate_
     := path_candidate_ r; path_reference_ := path_reference_ r; uuid_map_
     := uuid_map_ r; rtc_interface_ptr_map_ := rtc_interface_ptr_map_ r;
     steering_factor_interface_ptr_ := steering_factor_interface_ptr_ r;
     random_engine_ := v |}.

(** The members of [AvoidanceByLCModule]; [object_debug_], [debug_valid_path_]
    and [debug_marker_] are [mutable]. *)
Record AvoidanceByLCModule := mkAvoidanceByLCModule {
  base : SceneModuleInterface;
  parameters_ : AvoidanceByLCParameters;
  status_ : LaneChangeStatus;
  prev_approved_path_ : PathWithLaneId;
  avoidance_data_ : AvoidancePlanningData.t;
  debug_data_ : DebugData;
  registered_objects_ : ObjectDataArray;
  stopped_objects_ : ObjectDataArray;
  abort_path_ : option LaneChangePath;
  current_lane_change_state_ : LaneChangeStates;
  is_abort_path_approved_ : bool;
  is_abort_approval_requested_ : bool;
  is_abort_condition_satisfied_ : bool;
  is_activated_ : bool;
  lane_change_lane_length_ : Q;
  check_distance_ : Q;
  object_debug_ : CollisionCheckDebugMap;
  debug_valid_path_ : LaneChangePaths;
  debug_marker_ : MarkerArray
}.

Definition set_parameters_ (v : AvoidanceByLCParameters) (r : AvoidanceByLCModule) : AvoidanceByLCModule :=
  {| base := base r; parameters_ := v; status_ := status_ r;
     prev_approved_path_ := prev_approved_path_ r; avoidance_data_ :=
     avoidance_data_ r; debug_data_ := debug_data_ r; registered_objects_
     := registered_objects_ r; stopped_objects_ := stopped_objects_ r;
     abort_path_ := abort_path_ r; current_lane_change_state_ :=
     current_lane_change_state_ r; is_abort_path_approved_ :=
     is_abort_path_approved_ r; is_abort_approval_requested_ :=
     is_abort_approval_requested_ r; is_abort_condition_satisfied_ :=
     is_abort_condition_satisfied_ r; is_activated_ := is_activated_ r;
     lane_change_lane_length_ := lane_change_lane_length_ r;
     check_distance_ := check_distance_ r; object_debug_ := object_debug_
     r; debug_valid_path_ := debug_valid_path_ r; debug_marker_ :=
     debug_marker_ r |}.
Definition set_base (v : SceneModuleInterface) (r : AvoidanceByLCModule) : AvoidanceByLCModule :=
  {| base := v; parameters_ := parameters_ r; status_ := status_ r;
     prev_approved_path_ := prev_approved_path_ r; avoidance_data_ :=
     avoidance_data_ r; debug_data_ := debug_data_ r; registered_objects_
     := registered_objects_ r; stopped_objects_ := stopped_objects_ r;
     abort_path_ := abort_path_ r; current_lane_change_state_ :=
     current_lane_change_state_ r; is_abort_path_approved_ :=
     is_abort_path_approved_ r; is_abort_approval_requested_ :=
     is_abort_approval_requested_ r; is_abort_condition_satisfied_ :=
     is_abort_condition_satisfied_ r; is_activated_ := is_activated_ r;
     lane_change_lane_length_ := lane_change_lane_length_ r;
     check_distance_ := check_distance_ r; object_debug_ := object_debug_
     r; debug_valid_path_ := debug_valid_path_ r; debug_marker_ :=
     debug_marker_ r |}.
Definition set_status_ (v : LaneChangeStatus) (r : AvoidanceByLCModule) : AvoidanceByLCModule :=
  {| base := base r; parameters_ := parameters_ r; status_ := v;
     prev_approved_path_ := prev_approved_path_ r; avoidance_data_ :=
     avoidance_data_ r; debug_data_ := debug_data_ r; registered_objects_
     := registered_objects_ r; stopped_objects_ := stopped_objects_ r;
     abort_path_ := abort_path_ r; current_lane_change_state_ :=
     current_lane_change_state_ r; is_abort_path_approved_ :=
     is_abort_path_approved_ r; is_abort_approval_requested_ :=
     is_abort_approval_requested_ r; is_abort_condition_satisfied_ :=
     is_abort_condition_satisfied_ r; is_activated_ := is_activated_ r;
     lane_change_lane_length_ := lane_change_lane_length_ r;
     check_distance_ := check_distance_ r; object_debug_ := object_debug_
     r; debug_valid_path_ := debug_valid_path_ r; debug_marker_ :=
     debug_marker_ r |}.
Definition set_prev_approved_path_ (v : PathWithLaneId) (r : AvoidanceByLCModule) : AvoidanceByLCModule :=
  {| base := base r; parameters_ := parameters_ r; status_ := status_ r;
     prev_approved_path_ := v; avoidance_data_ := avoidance_data_ r;
     debug_data_ := debug_data_ r; registered_objects_ :=
     registered_objects_ r; stopped_objects_ := stopped_objects_ r;
     abort_path_ := abort_path_ r; current_lane_change_state_ :=
     current_lane_change_state_ r; is_abort_path_approved_ :=
     is_abort_path_approved_ r; is_abort_approval_requested_ :=
     is_abort_approval_requested_ r; is_abort_condition_satisfied_ :=
     is_abort_condition_satisfied_ r; is_activated_ := is_activated_ r;
     lane_change_lane_length_ := lane_change_lane_length_ r;
     check_distance_ := check_distance_ r; object_debug_ := object_debug_
     r; debug_valid_path_ := debug_valid_path_ r; debug_marker_ :=
     debug_marker_ r |}.
Definition set_avoidance_data_ (v : AvoidancePlanningData.t) (r : AvoidanceByLCModule) : AvoidanceByLCModule :=
  {| base := base r; parameters_ := parameters_ r; status_ := status_ r;
     prev_approved_path_ := prev_approved_path_ r; avoidance_data_ := v;
     debug_data_ := debug_data_ r; registered_objects_ :=
     registered_objects_ r; stopped_objects_ := stopped_objects_ r;
     abort_path_ := abort_path_ r; current_lane_change_state_ :=
     current_lane_change_state_ r; is_abort_path_approved_ :=
     is_abort_path_approved_ r; is_abort_approval_requested_ :=
     is_abort_approval_requested_ r; is_abort_condition_satisfied_ :=
     is_abort_condition_satisfied_ r; is_activated_ := is_activated_ r;
     lane_change_lane_length_ := lane_change_lane_length_ r;
     check_distance_ := check_distance_ r; object_debug_ := object_debug_
     r; debug_valid_path_ := debug_valid_path_ r; debug_marker_ :=
     debug_marker_ r |}.
Definition set_debug_data_ (v : DebugData) (r : AvoidanceByLCModule) : AvoidanceByLCModule :=
  {| base := base r; parameters_ := parameters_ r; status_ := status_ r;
     prev_approved_path_ := prev_approved_path_ r; avoidance_data_ :=
     avoidance_data_ r; debug_data_ := v; registered_objects_ :=
     registered_objects_ r; stopped_objects_ := stopped_objects_ r;
     abort_path_ := abort_path_ r; current_lane_change_state_ :=
     current_lane_change_state_ r; is_abort_path_approved_ :=
     is_abort_path_approved_ r; is_abort_approval_requested_ :=
     is_abort_approval_requested_ r; is_abort_condition_satisfied_ :=
     is_abort_condition_satisfied_ r; is_activated_ := is_activated_ r;
     lane_change_lane_length_ := lane_change_lane_length_ r;
     check_distance_ := check_distance_ r; object_debug_ := object_debug_
     r; debug_valid_path_ := debug_valid_path_ r; debug_marker_ :=
     debug_marker_ r |}.
Definition set_registered_objects_ (v : ObjectDataArray) (r : AvoidanceByLCModule) : AvoidanceByLCModule :=
  {| base := base r; parameters_ := parameters_ r; status_ := status_ r;
     prev_approved_path_ := prev_approved_path_ r; avoidance_data_ :=
     avoidance_data_ r; debug_data_ := debug_data_ r; registered_objects_
     := v; stopped_objects_ := stopped_objects_ r; abort_path_ :=
     abort_path_ r; current_lane_change_state_ :=
     current_lane_change_state_ r; is_abort_path_approved_ :=
     is_abort_path_approved_ r; is_abort_approval_requested_ :=
     is_abort_approval_requested_ r; is_abort_condition_satisfied_ :=
     is_abort_condition_satisfied_ r; is_activated_ := is_activated_ r;
     lane_change_lane_length_ := lane_change_lane_length_ r;
     check_distance_ := check_distance_ r; object_debug_ := object_debug_
     r; debug_valid_path_ := debug_valid_path_ r; debug_marker_ :=
     debug_marker_ r |}.
Definition set_stopped_objects_ (v : ObjectDataArray) (r : AvoidanceByLCModule) : AvoidanceByLCModule :=
  {| base := base r; parameters_ := parameters_ r; status_ := status_ r;
     prev_approved_path_ := prev_approved_path_ r; avoidance_data_ :=
     avoidance_data_ r; debug_data_ := debug_data_ r; registered_objects_
     := registered_objects_ r; stopped_objects_ := v; abort_path_ :=
     abort_path_ r; current_lane_change_state_ :=
     current_lane_change_state_ r; is_abort_path_approved_ :=
     is_abort_path_approved_ r; is_abort_approval_requested_ :=
     is_abort_approval_requested_ r; is_abort_condition_satisfied_ :=
     is_abort_condition_satisfied_ r; is_activated_ := is_activated_ r;
     lane_change_lane_length_ := lane_change_lane_length_ r;
     check_distance_ := check_distance_ r; object_debug_ := object_debug_
     r; debug_valid_path_ := debug_valid_path_ r; debug_marker_ :=
     debug_marker_ r |}.
Definition set_abort_path_ (v : option LaneChangePath) (r : AvoidanceByLCModule) : AvoidanceByLCModule :=
  {| base := base r; parameters_ := parameters_ r; status_ := status_ r;
     prev_approved_path_ := prev_approved_path_ r; avoidance_data_ :=
     avoidance_data_ r; debug_data_ := debug_data_ r; registered_objects_
     := registered_objects_ r; stopped_objects_ := stopped_objects_ r;
     abort_path_ := v; current_lane_change_state_ :=
     current_lane_change_state_ r; is_abort_path_approved_ :=
     is_abort_path_approved_ r; is_abort_approval_requested_ :=
     is_abort_approval_requested_ r; is_abort_condition_satisfied_ :=
     is_abort_condition_satisfied_ r; is_activated_ := is_activated_ r;
     lane_change_lane_length_ := lane_change_lane_length_ r;
     check_distance_ := check_distance_ r; object_debug_ := object_debug_
     r; debug_valid_path_ := debug_valid_path_ r; debug_marker_ :=
     debug_marker_ r |}.
Definition set_current_lane_change_state_ (v : LaneChangeStates) (r : AvoidanceByLCModule) : AvoidanceByLCModule :=
  {| base := base r; parameters_ := parameters_ r; status_ := status_ r;
     prev_approved_path_ := prev_approved_path_ r; avoidance_data_ :=
     avoidance_data_ r; debug_data_ := debug_data_ r; registered_objects_
     := registered_objects_ r; stopped_objects_ := stopped_objects_ r;
     abort_path_ := abort_path_ r; current_lane_change_state_ := v;
     is_abort_path_approved_ := is_abort_path_approved_ r;
     is_abort_approval_requested_ := is_abort_approval_requested_ r;
     is_abort_condition_satisfied_ := is_abort_condition_satisfied_ r;
     is_activated_ := is_activated_ r; lane_change_lane_length_ :=
     lane_change_lane_length_ r; check_distance_ := check_distance_ r;
     object_debug_ := object_debug_ r; debug_valid_path_ :=
     debug_valid_path_ r; debug_marker_ := debug_marker_ r |}.
Definition set_is_abort_path_approved_ (v : bool) (r : AvoidanceByLCModule) : AvoidanceByLCModule :=
  {| base := base r; parameters_ := parameters_ r; status_ := status_ r;
     prev_approved_path_ := prev_approved_path_ r; avoidance_data_ :=
     avoidance_data_ r; debug_data_ := debug_data_ r; registered_objects_
     := registered_objects_ r; stopped_objects_ := stopped_objects_ r;
     abort_path_ := abort_path_ r; current_lane_change_state_ :=
     current_lane_change_state_ r; is_abort_path_approved_ := v;
     is_abort_approval_requested_ := is_abort_approval_requested_ r;
     is_abort_condition_satisfied_ := is_abort_condition_satisfied_ r;
     is_activated_ := is_activated_ r; lane_change_lane_length_ :=
     lane_change_lane_length_ r; check_distance_ := check_distance_ r;
     object_debug_ := object_debug_ r; debug_valid_path_ :=
     debug_valid_path_ r; debug_marker_ := debug_marker_ r |}.
Definition set_is_abort_approval_requested_ (v : bool) (r : AvoidanceByLCModule) : AvoidanceByLCModule :=
  {| base := base r; parameters_ := parameters_ r; status_ := status_ r;
     prev_approved_path_ := prev_approved_path_ r; avoidance_data_ :=
     avoidance_data_ r; debug_data_ := debug_data_ r; registered_objects_
     := registered_objects_ r; stopped_objects_ := stopped_objects_ r;
     abort_path_ := abort_path_ r; current_lane_change_state_ :=
     current_lane_change_state_ r; is_abort_path_approved_ :=
     is_abort_path_approved_ r; is_abort_approval_requested_ := v;
     is_abort_condition_satisfied_ := is_abort_condition_satisfied_ r;
     is_activated_ := is_activated_ r; lane_change_lane_length_ :=
     lane_change_lane_length_ r; check_distance_ := check_distance_ r;
     object_debug_ := object_debug_ r; debug_valid_path_ :=
     debug_valid_path_ r; debug_marker_ := debug_marker_ r |}.
Definition set_is_abort_condition_satisfied_ (v : bool) (r : AvoidanceByLCModule) : AvoidanceByLCModule :=
  {| base := base r; parameters_ := parameters_ r; status_ := status_ r;
     prev_approved_path_ := prev_approved_path_ r; avoidance_data_ :=
     avoidance_data_ r; debug_data_ := debug_data_ r; registered_objects_
     := registered_objects_ r; stopped_objects_ := stopped_objects_ r;
     abort_path_ := abort_path_ r; current_lane_change_state_ :=
     current_lane_change_state_ r; is_abort_path_approved_ :=
     is_abort_path_approved_ r; is_abort_approval_requested_ :=
     is_abort_approval_requested_ r; is_abort_condition_satisfied_ := v;
     is_activated_ := is_activated_ r; lane_change_lane_length_ :=
     lane_change_lane_length_ r; check_distance_ := check_distance_ r;
     object_debug_ := object_debug_ r; debug_valid_path_ :=
     debug_valid_path_ r; debug_marker_ := debug_marker_ r |}.
Definition set_is_activated_ (v : bool) (r : AvoidanceByLCModule) : AvoidanceByLCModule :=
  {| base := base r; parameters_ := parameters_ r; status_ := status_ r;
     prev_approved_path_ := prev_approved_path_ r; avoidance_data_ :=
     avoidance_data_ r; debug_data_ := debug_data_ r; registered_objects_
     := registered_objects_ r; stopped_objects_ := stopped_objects_ r;
     abort_path_ := abort_path_ r; current_lane_change_state_ :=
     current_lane_change_state_ r; is_abort_path_approved_ :=
     is_abort_path_approved_ r; is_abort_approval_requested_ :=
     is_abort_approval_requested_ r; is_abort_condition_satisfied_ :=
     is_abort_condition_satisfied_ r; is_activated_ := v;
     lane_change_lane_length_ := lane_change_lane_length_ r;
     check_distance_ := check_distance_ r; object_debug_ := object_debug_
     r; debug_valid_path_ := debug_valid_path_ r; debug_marker_ :=
     debug_marker_ r |}.
Definition set_object_debug_ (v : CollisionCheckDebugMap) (r : AvoidanceByLCModule) : AvoidanceByLCModule :=
  {| base := base r; parameters_ := parameters_ r; status_ := status_ r;
     prev_approved_path_ := prev_approved_path_ r; avoidance_data_ :=
     avoidance_data_ r; debug_data_ := debug_data_ r; registered_objects_
     := registered_objects_ r; stopped_objects_ := stopped_objects_ r;
     abort_path_ := abort_path_ r; current_lane_change_state_ :=
     current_lane_change_state_ r; is_abort_path_approved_ :=
     is_abort_path_approved_ r; is_abort_approval_requested_ :=
     is_abort_approval_requested_ r; is_abort_condition_satisfied_ :=
     is_abort_condition_satisfied_ r; is_activated_ := is_activated_ r;
     lane_change_lane_length_ := lane_change_lane_length_ r;
     check_distance_ := check_distance_ r; object_debug_ := v;
     debug_valid_path_ := debug_valid_path_ r; debug_marker_ :=
     debug_marker_ r |}.
Definition set_debug_valid_path_ (v : LaneChangePaths) (r : AvoidanceByLCModule) : AvoidanceByLCModule :=
  {| base := base r; parameters_ := parameters_ r; status_ := status_ r;
     prev_approved_path_ := prev_approved_path_ r; avoidance_data_ :=
     avoidance_data_ r; debug_data_ := debug_data_ r; registered_objects_
     := registered_objects_ r; stopped_objects_ := stopped_objects_ r;
     abort_path_ := abort_path_ r; current_lane_change_state_ :=
     current_lane_change_state_ r; is_abort_path_approved_ :=
     is_abort_path_approved_ r; is_abort_approval_requested_ :=
     is_abort_approval_requested_ r; is_abort_condition_satisfied_ :=
     is_abort_condition_satisfied_ r; is_activated_ := is_activated_ r;
     lane_change_lane_length_ := lane_change_lane_length_ r;
     check_distance_ := check_distance_ r; object_debug_ := object_debug_
     r; debug_valid_path_ := v; debug_marker_ := debug_marker_ r |}.
Definition set_debug_marker_ (v : MarkerArray) (r : AvoidanceByLCModule) : AvoidanceByLCModule :=
  {| base := base r; parameters_ := parameters_ r; status_ := status_ r;
     prev_approved_path_ := prev_approved_path_ r; avoidance_data_ :=
     avoidance_data_ r; debug_data_ := debug_data_ r; registered_objects_
     := registered_objects_ r; stopped_objects_ := stopped_objects_ r;
     abort_path_ := abort_path_ r; current_lane_change_state_ :=
     current_lane_change_state_ r; is_abort_path_approved_ :=
     is_abort_path_approved_ r; is_abort_approval_requested_ :=
     is_abort_approval_requested_ r; is_abort_condition_satisfied_ :=
     is_abort_condition_satisfied_ r; is_activated_ := is_activated_ r;
     lane_change_lane_length_ := lane_change_lane_length_ r;
     check_distance_ := check_distance_ r; object_debug_ := object_debug_
     r; debug_valid_path_ := debug_valid_path_ r; debug_marker_ := v |}.

(** ** Operations the module calls and does not define

    Each is a function of exactly the arguments the call passes; an
    argument passed by non-const reference comes back in the result. *)

Record ArcCoordinates := mkArcCoordinates { arc_length : Q; arc_distance : Q }.

Module util.
Class ops := {
  getCurrentLanes : PlannerData -> ConstLanelets;
  getCurrentLanesFromPath : PathWithLaneId -> PlannerData -> ConstLanelets;
  resamplePathWithSpline : PathWithLaneId -> Q -> PathWithLaneId;
  calcPathArcLengthArray : PathWithLaneId -> Z -> Z -> Q -> list Q;
  separateObjectsByLanelets :
    PredictedObjects -> ConstLanelets -> PredictedObjects * PredictedObjects;
  filterTargetObjects :
    ObjectDataArray -> AvoidancePlanningData.t -> DebugData -> PlannerData ->
    AvoidanceParameters -> AvoidancePlanningData.t * DebugData;
  fillObjectEnvelopePolygon :
    ObjectData -> ObjectDataArray -> Pose -> AvoidanceParameters -> ObjectData;
  fillLongitudinalAndLengthByClosestEnvelopeFootprint :
    PathWithLaneId -> Point -> ObjectData -> ObjectData;
  fillObjectMovingTime :
    ObjectData -> ObjectDataArray -> AvoidanceParameters ->
    ObjectData * ObjectDataArray;
  calcEnvelopeOverhangDistance : ObjectData -> Pose -> Point -> Q * Point;
  isOnRight : ObjectData -> bool;
  updateRegisteredObject :
    ObjectDataArray -> ObjectDataArray -> AvoidanceParameters -> ObjectDataArray;
  compensateDetectionLost :
    ObjectDataArray -> ObjectDataArray -> ObjectDataArray ->
    ObjectDataArray * ObjectDataArray;
  insertStopPoint : Q -> PathWithLaneId -> PathPointWithLaneId * PathWithLaneId;
  insertDecelPoint :
    Point -> double.t -> Q -> PathWithLaneId -> option Pose ->
    PathWithLaneId * option Pose;
  getCenterLinePathFromRootLanelet : ConstLanelet -> PlannerData -> PathWithLaneId;
  getCenterLinePath :
    RouteHandler -> ConstLanelets -> Pose -> Q -> Q ->
    BehaviorPathPlannerParameters -> option Q -> PathWithLaneId;
  calcLaneChangeBuffer : BehaviorPathPlannerParameters -> Z -> Q -> Q;
  setDecelerationVelocity :
    RouteHandler -> PathWithLaneId -> ConstLanelets -> Q -> Q -> PathWithLaneId;
  generateDrivableLanes : ConstLanelets -> list DrivableLanes;
  cutOverlappedLanes :
    PathWithLaneId -> list DrivableLanes -> list DrivableLanes * PathWithLaneId;
  expandLanelets :
    list DrivableLanes -> Q -> Q -> list string -> list DrivableLanes;
  generateDrivableArea :
    PathWithLaneId -> list DrivableLanes -> Q -> PlannerData -> PathWithLaneId;
  extendLanes : RouteHandler -> ConstLanelets -> ConstLanelets;
  transformToLanelets : list DrivableLanes -> ConstLanelets;
  checkPathRelativeAngle : PathWithLaneId -> Q -> bool;
  calcTotalLaneChangeLength : BehaviorPathPlannerParameters -> Q;
  getDistanceToEndOfLane : Pose -> ConstLanelets -> Q;
  l2Norm : Vector3 -> Q;
  getIds : ConstLanelets -> list Z;
  getPathTurnSignal :
    ConstLanelets -> ShiftedPath -> ShiftLine -> Pose -> Q ->
    BehaviorPathPlannerParameters -> TurnIndicatorsCommandMsg * Q
}.
End util.

Module util_lane_change.
Class ops := {
  (** The overload compiled with [USE_OLD_ARCHITECTURE]. *)
  getLaneChangePaths_old :
    RouteHandler -> ConstLanelets -> ConstLanelets -> Pose -> Twist ->
    PredictedObjects -> BehaviorPathPlannerParameters -> LaneChangeParameters ->
    Q -> CollisionCheckDebugMap ->
    bool * LaneChangePaths * CollisionCheckDebugMap;
  getLaneChangePaths :
    PathWithLaneId -> RouteHandler -> ConstLanelets -> ConstLanelets -> Pose ->
    Twist -> PredictedObjects -> BehaviorPathPlannerParameters ->
    LaneChangeParameters -> Q -> Direction -> CollisionCheckDebugMap ->
    bool * LaneChangePaths * CollisionCheckDebugMap;
  getLateralShift : LaneChangePath -> Q;
  isEgoWithinOriginalLane :
    ConstLanelets -> Pose -> BehaviorPathPlannerParameters -> bool;
  getAbortPaths :
    PlannerData -> LaneChangePath -> Pose -> BehaviorPathPlannerParameters ->
    LaneChangeParameters -> option LaneChangePath;
  generateDrivableLanes :
    RouteHandler -> ConstLanelets -> ConstLanelets -> list DrivableLanes;
  getExtendedTargetLanesForCollisionCheck :
    RouteHandler -> ConstLanelet -> Pose -> Q -> ConstLanelets;
  calcLateralBufferForFiltering : Q -> Q;
  filterObjectIndices :
    LaneChangePaths -> PredictedObjects -> ConstLanelets -> Pose -> Q ->
    LaneChangeParameters -> Q -> list nat;
  isLaneChangePathSafe :
    LaneChangePath -> PredictedObjects -> list nat -> Pose -> Twist ->
    BehaviorPathPlannerParameters -> LaneChangeParameters -> Q -> Q -> Pose ->
    CollisionCheckDebugMap -> Q -> bool * Pose * CollisionCheckDebugMap;
  get_turn_signal_info : LaneChangePath -> TurnSignalInfo -> TurnSignalInfo
}.
End util_lane_change.

Module lanelet_utils.
Class ops := {
  getExpandedLanelets : ConstLanelets -> Q -> double.t -> ConstLanelets;
  getClosestLanelet : ConstLanelets -> Pose -> ConstLanelet -> bool * ConstLanelet;
  getArcCoordinates : ConstLanelets -> Pose -> ArcCoordinates;
  isInLanelet : Pose -> ConstLanelet -> bool
}.
End lanelet_utils.

Module motion_utils.
Class ops := {
  calcSignedArcLength : list PathPointWithLaneId -> Point -> Point -> Q;
  calcSignedArcLength_from_index : list PathPointWithLaneId -> Point -> Z -> Q;
  findNearestSegmentIndex : list PathPointWithLaneId -> Point -> Z;
  findNearestIndex : list PathPointWithLaneId -> Point -> nat;
  calcLateralDeviation : Pose -> Point -> Q;
  return_centroid : Polygon2d -> Point2d
}.
End motion_utils.

Module marker_utils.
Class ops := {
  showObjectInfo : CollisionCheckDebugMap -> string -> MarkerArray;
  showLerpedPose : CollisionCheckDebugMap -> string -> MarkerArray;
  showPolygonPose : CollisionCheckDebugMap -> string -> MarkerArray;
  showPolygon : CollisionCheckDebugMap -> string -> MarkerArray;
  showAllValidLaneChangePath : LaneChangePaths -> string -> MarkerArray
}.
End marker_utils.

(** The approval interface of the base class.  Its member functions are
    defined with the base class, in a file that is not at hand; each is taken
    here as an arbitrary function of the members it works on: the
    identifiers [uuid_map_] and the interface objects
    [rtc_interface_ptr_map_]. *)
Module rtc.
Class ops := {
  isActivated : gmap string UUID -> gmap string RTCInterface -> bool;
  removeRTCStatus : gmap string RTCInterface -> gmap string RTCInterface;
  removePreviousRTCStatusLeft :
    gmap string UUID -> gmap string RTCInterface -> gmap string RTCInterface;
  removePreviousRTCStatusRight :
    gmap string UUID -> gmap string RTCInterface -> gmap string RTCInterface;
  updateRTCStatus :
    CandidateOutput -> gmap string UUID -> gmap string RTCInterface ->
    gmap string RTCInterface;
  waitApprovalLeft :
    Q -> Q -> gmap string UUID -> gmap string RTCInterface ->
    gmap string RTCInterface;
  waitApprovalRight :
    Q -> Q -> gmap string UUID -> gmap string RTCInterface ->
    gmap string RTCInterface;
  generateUUID : N -> UUID * N
}.
End rtc.

(** The build: [USE_OLD_ARCHITECTURE] is a compile definition. *)
Class Build := { USE_OLD_ARCHITECTURE : bool }.

(** ** Default-constructed values *)

Definition Point_zero : Point := mkPoint 0 0 0.
Definition Pose_zero : Pose := mkPose Point_zero (mkQuaternion 0 0 0 1).
Definition Twist_zero : Twist := mkTwist (mkVector3 0 0 0) (mkVector3 0 0 0).
Definition Header_empty : Header := mkHeader EmptyString 0.
Definition PathWithLaneId_empty : PathWithLaneId := mkPathWithLaneId Header_empty [] [] [].
Definition ConstLanelet_default : ConstLanelet := mkLanelet 0.

Definition LaneChangePath_default : LaneChangePath :=
  {| path := PathWithLaneId_empty;
     shifted_path := mkShiftedPath PathWithLaneId_empty [];
     shift_line := mkShiftLine Pose_zero Pose_zero;
     acceleration := 0;
     length_ := mkLaneChangePhaseInfo 0 0;
     reference_lanelets := [];
     target_lanelets := [] |}.

Definition ObjectData_default : ObjectData :=
  {| object := mkPredictedObject 0%N 0%nat Pose_zero Twist_zero;
     lateral := 0; longitudinal := 0; overhang_dist := 0;
     overhang_pose := Pose_zero; envelope_poly := []; centroid := mkPoint2d 0 0;
     avoid_required := false; reason := EmptyString |}.

Definition DebugData_default : DebugData := mkDebugData [].

Definition CandidateOutput_default : CandidateOutput :=
  {| path_candidate := PathWithLaneId_empty; lateral_shift := 0;
     start_distance_to_path_change := 0; finish_distance_to_path_change := 0 |}.

Definition empty {A} (v : list A) : bool :=
  match v with [] => true | _ :: _ => false end.

(** [std::max] and [std::abs] on [double]. *)
Definition std_max (a b : Q) : Q := if Qltb a b then b else a.
Definition std_abs (a : Q) : Q := if Qltb a 0 then - a else a.

#[global] Instance ModuleStatus_eq_dec : EqDecision ModuleStatus.
Proof. solve_decision. Defined.
#[global] Instance LaneChangeStates_eq_dec : EqDecision LaneChangeStates.
Proof. solve_decision. Defined.
#[global] Instance TurnIndicatorsCommand_eq_dec : EqDecision TurnIndicatorsCommand.
Proof. solve_decision. Defined.

(** ** The member functions *)

Definition M : Type -> Type := StateM AvoidanceByLCModule.

Fixpoint mapM {A B} (f : A -> M B) (v : list A) : M (list B) :=
  match v with
  | [] => ret []
  | a :: v' => b <- f a ;; bs <- mapM f v' ;; ret (b :: bs)
  end.

Section Members.
Context `{Build, util.ops, util_lane_change.ops, lanelet_utils.ops,
          motion_utils.ops, marker_utils.ops, rtc.ops}.

(** *** Members inherited from [SceneModuleInterface]

    The accessors are read off their names.  The approval functions apply
    the operations of [rtc.ops]; [waitApprovalLeft] and [waitApprovalRight]
    also raise the waiting flag, as [waitApproval] does. *)

Definition on_base (f : SceneModuleInterface -> SceneModuleInterface) : M unit :=
  modify (fun s => set_base (f (base s)) s).

Definition waitApproval : M unit := on_base (set_is_waiting_approval_ true).
Definition clearWaitingApproval : M unit := on_base (set_is_waiting_approval_ false).
Definition isWaitingApproval : M bool := gets (fun s => is_waiting_approval_ (base s)).
Definition resetPathCandidate : M unit := on_base (set_path_candidate_ None).
Definition resetPathReference : M unit := on_base (set_path_reference_ None).
Definition getPreviousModuleOutput : M BehaviorModuleOutput.t :=
  gets (fun s => previous_module_output_ (base s)).
Definition getPlannerData : M PlannerData := gets (fun s => planner_data_ (base s)).
Definition getEgoPose : M Pose :=
  gets (fun s => odometry_pose (self_odometry (planner_data_ (base s)))).
Definition getEgoPosition : M Point := p <- getEgoPose ;; ret (position p).

Definition on_rtc
    (f : gmap string UUID -> gmap string RTCInterface -> gmap string RTCInterface)
    : M unit :=
  on_base (fun b =>
    set_rtc_interface_ptr_map_ (f (uuid_map_ b) (rtc_interface_ptr_map_ b)) b).

Definition isActivated : M bool :=
  gets (fun s =>
    rtc.isActivated (uuid_map_ (base s)) (rtc_interface_ptr_map_ (base s))).
Definition removeRTCStatus : M unit := on_rtc (fun _ => rtc.removeRTCStatus).
Definition removePreviousRTCStatusLeft : M unit :=
  on_rtc rtc.removePreviousRTCStatusLeft.
Definition removePreviousRTCStatusRight : M unit :=
  on_rtc rtc.removePreviousRTCStatusRight.
Definition updateRTCStatus (candidate : CandidateOutput) : M unit :=
  on_rtc (rtc.updateRTCStatus candidate).
Definition waitApprovalLeft (start_distance finish_distance : Q) : M unit :=
  on_rtc (rtc.waitApprovalLeft start_distance finish_distance) ;;
  waitApproval.
Definition waitApprovalRight (start_distance finish_distance : Q) : M unit :=
  on_rtc (rtc.waitApprovalRight start_distance finish_distance) ;;
  waitApproval.
Definition generateUUID : M UUID :=
  s <- get ;;
  let r := rtc.generateUUID (random_engine_ (base s)) in
  on_base (set_random_engine_ (snd r)) ;;
  ret (fst r).

(** [uuid_map_.at(key) = uuid]. *)
Definition assign_uuid (key : string) (uuid : UUID) : M unit :=
  s <- get ;;
  match uuid_map_ (base s) !! key with
  | Some _ => on_base (fun b => set_uuid_map_ (<[key := uuid]> (uuid_map_ b)) b)
  | None => raise (out_of_range "uuid_map_")
  end.

(** [steering_factor_interface_ptr_->updateSteeringFactor(...)]. *)
Definition updateSteeringFactor (f : SteeringFactor) : M unit :=
  on_base (set_steering_factor_interface_ptr_ (Some f)).

(** *** Accessors of the module *)

Definition getEgoTwist : M Twist :=
  gets (fun s => odometry_twist (self_odometry (planner_data_ (base s)))).

Definition getRouteHeader : M Header :=
  gets (fun s => getRouteHeader_ (route_handler (planner_data_ (base s)))).

(** The block every caller repeats: [util::getCurrentLanes] of the planner
    data under [USE_OLD_ARCHITECTURE], and otherwise
    [util::getCurrentLanesFromPath] of the reference path that the previous
    module's output points to. *)
Definition current_lanes_of_build : M ConstLanelets :=
  planner_data <- getPlannerData ;;
  if USE_OLD_ARCHITECTURE then ret (util.getCurrentLanes planner_data)
  else
    out <- getPreviousModuleOutput ;;
    reference_path <- deref "reference_path" (BehaviorModuleOutput.reference_path out) ;;
    ret (util.getCurrentLanesFromPath reference_path planner_data).

Definition isSafe : M bool := gets (fun s => is_safe (status_ s)).

Definition isValidPath : M bool := gets (fun s => is_valid_path (status_ s)).

(** The two loops of [getLaneChangeLanes]: the lanes of the first
    lanelet that has a neighbour on the given side. *)
Fixpoint lanes_of_first_neighbour
    (neighbour : ConstLanelet -> option ConstLanelet)
    (sequence : ConstLanelet -> ConstLanelets)
    (current_check_lanes : ConstLanelets) (lane_change_lanes : ConstLanelets)
    : ConstLanelets :=
  match current_check_lanes with
  | [] => lane_change_lanes
  | lanelet :: rest =>
      match neighbour lanelet with
      | Some lane => sequence lane
      | None => lanes_of_first_neighbour neighbour sequence rest lane_change_lanes
      end
  end.

Definition getLaneChangeLanes
    (current_lanes : ConstLanelets) (lane_change_lane_length : Q)
    : M ConstLanelets :=
  s <- get ;;
  let lane_change_lanes : ConstLanelets := [] in
  let route_handler := route_handler (planner_data_ (base s)) in
  let minimum_lane_changing_length :=
    minimum_lane_changing_length (parameters (planner_data_ (base s))) in
  let prepare_duration := prepare_duration (lane_change (parameters_ s)) in
  current_pose <- getEgoPose ;;
  current_twist <- getEgoTwist ;;
  if empty current_lanes then ret lane_change_lanes
  else
    let object_num := length (AvoidancePlanningData.target_objects (avoidance_data_ s)) in
    if (object_num <? execute_object_num (parameters_ s))%nat then ret lane_change_lanes
    else
      o_front <- front "target_objects"
                   (AvoidancePlanningData.target_objects (avoidance_data_ s)) ;;
      let current_lane :=
        snd (lanelet_utils.getClosestLanelet current_lanes current_pose
               ConstLanelet_default) in
      let lane_change_prepare_length :=
        double.max (double.mul (vector_x (linear current_twist)) prepare_duration)
                   minimum_lane_changing_length in
      let current_check_lanes :=
        getLaneletSequence route_handler current_lane current_pose 0
          lane_change_prepare_length in
      let sequence lane :=
        getLaneletSequence route_handler lane current_pose
          lane_change_lane_length lane_change_lane_length in
      if util.isOnRight o_front then
        ret (lanes_of_first_neighbour (routing_left route_handler) sequence
               current_check_lanes lane_change_lanes)
      else
        ret (lanes_of_first_neighbour (routing_right route_handler) sequence
               current_check_lanes lane_change_lanes).

Definition appendMarkerArray (added : MarkerArray) (m : MarkerArray) : MarkerArray :=
  mkMarkerArray (markers m ++ markers added).

Definition setObjectDebugVisualization : M unit :=
  modify (set_debug_marker_ (mkMarkerArray [])) ;;
  let add (show : AvoidanceByLCModule -> MarkerArray) : M unit :=
    modify (fun s => set_debug_marker_ (appendMarkerArray (show s) (debug_marker_ s)) s) in
  add (fun s => marker_utils.showObjectInfo (object_debug_ s) "object_debug_info") ;;
  add (fun s => marker_utils.showLerpedPose (object_debug_ s) "lerp_pose_before_true") ;;
  add (fun s => marker_utils.showPolygonPose (object_debug_ s) "expected_pose") ;;
  add (fun s => marker_utils.showPolygon (object_debug_ s) "lerped_polygon") ;;
  add (fun s => marker_utils.showAllValidLaneChangePath (debug_valid_path_ s)
                  "lane_change_valid_paths").

(** The call of [util::lane_change::getLaneChangePaths] in [getSafePath]:
    the safety flag and the candidate list [valid_paths] it fills;
    [object_debug_] is written through the pointer passed. *)
Definition find_candidate_paths
    (current_lanes lane_change_lanes : ConstLanelets) (check_distance : Q)
    : M (bool * LaneChangePaths) :=
  s <- get ;;
  let planner_data := planner_data_ (base s) in
  let route_handler := route_handler planner_data in
  let common_parameters := parameters planner_data in
  current_pose <- getEgoPose ;;
  current_twist <- getEgoTwist ;;
  if USE_OLD_ARCHITECTURE then
    let r := util_lane_change.getLaneChangePaths_old
               route_handler current_lanes lane_change_lanes current_pose
               current_twist (dynamic_object planner_data) common_parameters
               (lane_change (parameters_ s)) check_distance (object_debug_ s) in
    modify (set_object_debug_ (snd r)) ;;
    ret (fst r)
  else
    o_front <- front "target_objects"
                 (AvoidancePlanningData.target_objects (avoidance_data_ s)) ;;
    let direction := if util.isOnRight o_front then LEFT else RIGHT in
    out <- getPreviousModuleOutput ;;
    previous_path <- deref "path" (BehaviorModuleOutput.path out) ;;
    let r := util_lane_change.getLaneChangePaths
               previous_path route_handler current_lanes lane_change_lanes
               current_pose current_twist (dynamic_object planner_data)
               common_parameters (lane_change (parameters_ s)) check_distance
               direction (object_debug_ s) in
    modify (set_object_debug_ (snd r)) ;;
    ret (fst r).

(** Returns the pair and the final value of the reference [safe_path]. *)
Definition getSafePath
    (lane_change_lanes : ConstLanelets) (check_distance : Q)
    (safe_path : LaneChangePath) : M (bool * bool * LaneChangePath) :=
  current_lanes <- current_lanes_of_build ;;
  if empty lane_change_lanes then ret (false, false, safe_path)
  else
    s <- get ;;
    if empty (AvoidancePlanningData.target_objects (avoidance_data_ s))
    then ret (false, false, safe_path)
    else
      found <- find_candidate_paths current_lanes lane_change_lanes check_distance ;;
      let found_safe_path := fst found in
      let valid_paths := snd found in
      modify (set_debug_valid_path_ valid_paths) ;;
      (if publish_debug_marker (lane_change (parameters_ s))
       then setObjectDebugVisualization
       else modify (set_debug_marker_ (mkMarkerArray []))) ;;
      if empty valid_paths then ret (false, false, safe_path)
      else if found_safe_path then
        p <- back "valid_paths" valid_paths ;;
        ret (true, found_safe_path, p)
      else
        (* force candidate *)
        p <- front "valid_paths" valid_paths ;;
        ret (true, found_safe_path, p).

Definition isExecutionRequested : M bool :=
  s <- get ;;
  if decide (current_state_ (base s) = RUNNING) then ret true
  else
    current_lanes <- current_lanes_of_build ;;
    lane_change_lanes <- getLaneChangeLanes current_lanes (lane_change_lane_length_ s) ;;
    r <- getSafePath lane_change_lanes (check_distance_ s) LaneChangePath_default ;;
    let found_valid_path := fst (fst r) in
    let selected_path := snd r in
    if negb found_valid_path then ret false
    else
      let target_objects := AvoidancePlanningData.target_objects (avoidance_data_ s) in
      let object_num := length target_objects in
      if (object_num <? execute_object_num (parameters_ s))%nat then ret false
      else
        o_front <- front "target_objects" target_objects ;;
        let to_front_object_distance := longitudinal o_front in
        if Qgtb (execute_object_longitudinal_margin (parameters_ s))
                to_front_object_distance
        then ret false
        else
          ego_pose <- getEgoPose ;;
          let to_lane_change_end_distance :=
            motion_utils.calcSignedArcLength (points (path selected_path))
              (position ego_pose) (position (end_ (shift_line selected_path))) in
          let lane_change_finish_before_object :=
            Qgtb to_front_object_distance to_lane_change_end_distance in
          if negb lane_change_finish_before_object &&
             execute_only_when_lane_change_finish_before_object (parameters_ s)
          then ret false
          else ret true.

Definition isExecutionReady : M bool :=
  s <- get ;;
  if decide (current_state_ (base s) = RUNNING) then ret true
  else
    current_lanes <- current_lanes_of_build ;;
    lane_change_lanes <- getLaneChangeLanes current_lanes (lane_change_lane_length_ s) ;;
    r <- getSafePath lane_change_lanes (check_distance_ s) LaneChangePath_default ;;
    let found_safe_path := snd (fst r) in
    ret found_safe_path.

(** *** Object data *)

Definition createObjectData
    (data : AvoidancePlanningData.t) (object : PredictedObject) : M ObjectData :=
  s <- get ;;
  let avoidance_parameters := avoidance (parameters_ s) in
  let path_points := points (AvoidancePlanningData.reference_path data) in
  let object_pose := initial_pose object in
  let object_closest_index :=
    motion_utils.findNearestIndex path_points (position object_pose) in
  closest_point <- at_ "path_points" path_points object_closest_index ;;
  let object_closest_pose := pose (point closest_point) in
  let object_data := set_object object ObjectData_default in
  (* Calc envelop polygon. *)
  let object_data :=
    util.fillObjectEnvelopePolygon object_data (registered_objects_ s)
      object_closest_pose avoidance_parameters in
  (* calc object centroid. *)
  let object_data :=
    set_centroid (motion_utils.return_centroid (envelope_poly object_data))
      object_data in
  (* calc longitudinal distance from ego to closest target object footprint point. *)
  ego_position <- getEgoPosition ;;
  let object_data :=
    util.fillLongitudinalAndLengthByClosestEnvelopeFootprint
      (AvoidancePlanningData.reference_path data) ego_position object_data in
  (* Calc moving time. *)
  let moving :=
    util.fillObjectMovingTime object_data (stopped_objects_ s) avoidance_parameters in
  modify (set_stopped_objects_ (snd moving)) ;;
  let object_data := fst moving in
  (* Calc lateral deviation from path to target object. *)
  let object_data :=
    set_lateral
      (motion_utils.calcLateralDeviation object_closest_pose (position object_pose))
      object_data in
  (* Find the footprint point closest to the path. *)
  let overhang :=
    util.calcEnvelopeOverhangDistance object_data object_closest_pose
      (position (overhang_pose object_data)) in
  let object_data :=
    set_overhang_dist (fst overhang)
      (set_overhang_pose
         (mkPose (snd overhang) (orientation (overhang_pose object_data)))
         object_data) in
  (* Check whether the the ego should avoid the object. *)
  let vehicle_width := vehicle_width (parameters (planner_data_ (base s))) in
  let safety_margin :=
    double.add (double.mul (1 # 2) vehicle_width)
               (lateral_passable_safety_buffer avoidance_parameters) in
  let object_data :=
    set_avoid_required
      ((util.isOnRight object_data &&
        double.ltb (std_abs (overhang_dist object_data)) safety_margin) ||
       (negb (util.isOnRight object_data) &&
        double.ltb (overhang_dist object_data) safety_margin))
      object_data in
  ret object_data.

(** Returns the final values of the references [data] and [debug]. *)
Definition fillAvoidanceTargetObjects
    (data : AvoidancePlanningData.t) (debug : DebugData)
    : M (AvoidancePlanningData.t * DebugData) :=
  s <- get ;;
  let avoidance_parameters := avoidance (parameters_ s) in
  let planner_data := planner_data_ (base s) in
  let expanded_lanelets :=
    lanelet_utils.getExpandedLanelets (AvoidancePlanningData.current_lanelets data)
      (detection_area_left_expand_dist avoidance_parameters)
      (double.mul (detection_area_right_expand_dist avoidance_parameters) (- (1))) in
  let separated :=
    util.separateObjectsByLanelets (dynamic_object planner_data) expanded_lanelets in
  let object_within_target_lane := fst separated in
  let object_outside_target_lane := snd separated in
  let other_object (object : PredictedObject) : ObjectData :=
    set_reason "OutOfTargetArea" (set_object object ObjectData_default) in
  let data :=
    AvoidancePlanningData.set_other_objects
      (AvoidancePlanningData.other_objects data ++
       map other_object (objects object_outside_target_lane))
      data in
  objects <- mapM (createObjectData data) (objects object_within_target_lane) ;;
  ret (util.filterTargetObjects objects data debug planner_data avoidance_parameters).

Definition calcAvoidancePlanningData (debug : DebugData)
    : M (AvoidancePlanningData.t * DebugData) :=
  s <- get ;;
  let planner_data := planner_data_ (base s) in
  (* reference pose *)
  reference_pose <- getEgoPose ;;
  out <- getPreviousModuleOutput ;;
  previous_path <- deref "path" (BehaviorModuleOutput.path out) ;;
  let reference_path :=
    util.resamplePathWithSpline previous_path
      (resample_interval_for_planning (avoidance (parameters_ s))) in
  let size := Z.of_nat (length (points reference_path)) in
  let nearest_segment_index :=
    motion_utils.findNearestSegmentIndex (points reference_path)
      (position reference_pose) in
  let ego_closest_path_index :=
    Z.min ((nearest_segment_index + 1) mod size_t_max)%Z (size_t_sub size 1) in
  (* arclength from ego pose (used in many functions) *)
  ego_position <- getEgoPosition ;;
  let arclength_from_ego :=
    util.calcPathArcLengthArray reference_path 0 size
      (motion_utils.calcSignedArcLength_from_index (points reference_path)
         ego_position 0) in
  (* lanelet info *)
  current_lanelets <- current_lanes_of_build ;;
  let data :=
    {| AvoidancePlanningData.reference_pose := reference_pose;
       AvoidancePlanningData.reference_path := reference_path;
       AvoidancePlanningData.ego_closest_path_index := ego_closest_path_index;
       AvoidancePlanningData.arclength_from_ego := arclength_from_ego;
       AvoidancePlanningData.current_lanelets := current_lanelets;
       AvoidancePlanningData.target_objects := [];
       AvoidancePlanningData.other_objects := [] |} in
  (* target objects for avoidance *)
  fillAvoidanceTargetObjects data debug.

Definition updateData : M unit :=
  modify (set_debug_data_ DebugData_default) ;;
  s <- get ;;
  r <- calcAvoidancePlanningData (debug_data_ s) ;;
  modify (set_debug_data_ (snd r)) ;;
  modify (set_avoidance_data_ (fst r)) ;;
  modify (fun s =>
    set_registered_objects_
      (util.updateRegisteredObject (registered_objects_ s)
         (AvoidancePlanningData.target_objects (avoidance_data_ s))
         (avoidance (parameters_ s))) s) ;;
  modify (fun s =>
    let compensated :=
      util.compensateDetectionLost (registered_objects_ s)
        (AvoidancePlanningData.target_objects (avoidance_data_ s))
        (AvoidancePlanningData.other_objects (avoidance_data_ s)) in
    set_avoidance_data_
      (AvoidancePlanningData.set_other_objects (snd compensated)
         (AvoidancePlanningData.set_target_objects (fst compensated)
            (avoidance_data_ s))) s) ;;
  modify (fun s =>
    set_avoidance_data_
      (AvoidancePlanningData.set_target_objects
         (std_sort (fun a b => Qltb (longitudinal a) (longitudinal b))
            (AvoidancePlanningData.target_objects (avoidance_data_ s)))
         (avoidance_data_ s)) s).

(** *** Checks on the committed path *)

(** [isValidPath(const PathWithLaneId &)].  The two nested loops are
    [forallb] over the points and [existsb] over the lanelets. *)
Definition drivable_lanelets (s : AvoidanceByLCModule) : ConstLanelets :=
  let route_handler := route_handler (planner_data_ (base s)) in
  (* check lane departure *)
  let drivable_lanes :=
    util_lane_change.generateDrivableLanes route_handler
      (util.extendLanes route_handler (current_lanes (status_ s)))
      (util.extendLanes route_handler (lane_change_lanes (status_ s))) in
  let expanded_lanes :=
    util.expandLanelets drivable_lanes
      (drivable_area_left_bound_offset (lane_change (parameters_ s)))
      (drivable_area_right_bound_offset (lane_change (parameters_ s))) [] in
  util.transformToLanelets expanded_lanes.

Definition is_in_lanelet (lanelets : ConstLanelets) (p : PathPointWithLaneId) : bool :=
  existsb (fun lanelet => lanelet_utils.isInLanelet (pose (point p)) lanelet) lanelets.

Definition isValidPath_of (path : PathWithLaneId) : M bool :=
  s <- get ;;
  let lanelets := drivable_lanelets s in
  (* check path points are in any lanelets *)
  if negb (forallb (is_in_lanelet lanelets) (points path)) then ret false
  (* check relative angle *)
  else if negb (util.checkPathRelativeAngle path M_PI) then ret false
  else ret true.

Definition isNearEndOfLane : M bool :=
  s <- get ;;
  current_pose <- getEgoPose ;;
  let threshold := util.calcTotalLaneChangeLength (parameters (planner_data_ (base s))) in
  ret (Qltb (std_max 0 (util.getDistanceToEndOfLane current_pose
                          (current_lanes (status_ s))))
            threshold).

(** The constant expression [10.0 * 1000 / 3600] of [isCurrentVelocityLow]:
    the product is exact and the quotient is rounded. *)
Definition threshold_ms : double.t :=
  Eval vm_compute in double.round (10 * 1000 / 3600).

Definition isCurrentVelocityLow : M bool :=
  twist <- getEgoTwist ;;
  ret (double.ltb (util.l2Norm (linear twist)) threshold_ms).

Definition hasFinishedLaneChange : M bool :=
  s <- get ;;
  current_pose <- getEgoPose ;;
  let arclength_current :=
    lanelet_utils.getArcCoordinates (lane_change_lanes (status_ s)) current_pose in
  let travel_distance :=
    double.sub (arc_length arclength_current) (start_distance (status_ s)) in
  let finish_distance :=
    double.add (sum (length_ (lane_change_path (status_ s))))
               (lane_change_finish_judge_buffer (lane_change (parameters_ s))) in
  ret (double.gtb travel_distance finish_distance).

(** Returns the flag and the final value of [ego_pose_before_collision]. *)
Definition isApprovedPathSafe (ego_pose_before_collision : Pose) : M (bool * Pose) :=
  s <- get ;;
  current_pose <- getEgoPose ;;
  current_twist <- getEgoTwist ;;
  let dynamic_objects := dynamic_object (planner_data_ (base s)) in
  let common_parameters := parameters (planner_data_ (base s)) in
  let lane_change_parameters := lane_change (parameters_ s) in
  let route_handler := route_handler (planner_data_ (base s)) in
  let path := lane_change_path (status_ s) in
  (* get lanes used for detection *)
  target <- front "target_lanelets" (target_lanelets path) ;;
  let check_lanes :=
    util_lane_change.getExtendedTargetLanesForCollisionCheck route_handler target
      current_pose (check_distance_ s) in
  let debug_data : CollisionCheckDebugMap := ∅ in
  let lateral_buffer :=
    util_lane_change.calcLateralBufferForFiltering (vehicle_width common_parameters) in
  let dynamic_object_indices :=
    util_lane_change.filterObjectIndices [path] dynamic_objects check_lanes
      current_pose (forward_path_length common_parameters) lane_change_parameters
      lateral_buffer in
  let r :=
    util_lane_change.isLaneChangePathSafe path dynamic_objects
      dynamic_object_indices current_pose current_twist common_parameters
      lane_change_parameters
      (expected_front_deceleration_for_abort common_parameters)
      (expected_rear_deceleration_for_abort common_parameters)
      ego_pose_before_collision debug_data
      (acceleration (lane_change_path (status_ s))) in
  ret (fst (fst r), snd (fst r)).

(** *** The sub-state machine *)

Definition isAbortConditionSatisfied : M bool :=
  modify (set_is_abort_condition_satisfied_ false) ;;
  modify (set_current_lane_change_state_ Normal) ;;
  s <- get ;;
  if negb (enable_cancel_lane_change (lane_change (parameters_ s))) then ret false
  else if negb (is_activated_ s) then ret false
  else
    r <- isApprovedPathSafe Pose_zero ;;
    let is_path_safe := fst r in
    let ego_pose_before_collision := snd r in
    if negb is_path_safe then
      let common_parameters := parameters (planner_data_ (base s)) in
      ego_pose <- getEgoPose ;;
      let is_within_original_lane :=
        util_lane_change.isEgoWithinOriginalLane (current_lanes (status_ s))
          ego_pose common_parameters in
      if is_within_original_lane then
        modify (set_current_lane_change_state_ Cancel) ;;
        ret true
      (* check abort enable flag *)
      else if negb (enable_abort_lane_change (lane_change (parameters_ s))) then
        modify (set_current_lane_change_state_ Stop) ;;
        ret false
      else
        let found_abort_path :=
          util_lane_change.getAbortPaths (planner_data_ (base s))
            (lane_change_path (status_ s)) ego_pose_before_collision
            common_parameters (lane_change (parameters_ s)) in
        if negb (bool_decide (is_Some found_abort_path)) &&
           negb (is_abort_path_approved_ s)
        then
          modify (set_current_lane_change_state_ Stop) ;;
          ret true
        else
          modify (set_current_lane_change_state_ Abort) ;;
          (if negb (is_abort_path_approved_ s) then
             abort_path <- deref "found_abort_path" found_abort_path ;;
             modify (set_abort_path_ (Some abort_path))
           else ret tt) ;;
          ret true
    else ret false.

Definition isAbortState : M bool :=
  s <- get ;;
  if negb (enable_abort_lane_change (lane_change (parameters_ s))) then ret false
  else if negb (bool_decide (current_lane_change_state_ s = Abort)) then ret false
  else if negb (bool_decide (is_Some (abort_path_ s))) then ret false
  else ret true.

(** *** The state update *)

Definition set_current_state (v : ModuleStatus) : M ModuleStatus :=
  on_base (set_current_state_ v) ;;
  gets (fun s => current_state_ (base s)).

Definition updateState : M ModuleStatus :=
  valid <- isValidPath ;;
  if negb valid then set_current_state SUCCESS
  else
    waiting <- isWaitingApproval ;;
    s <- get ;;
    let target_objects := AvoidancePlanningData.target_objects (avoidance_data_ s) in
    let continue : M ModuleStatus :=
      ego_pose <- getEgoPose ;;
      let is_within_current_lane :=
        util_lane_change.isEgoWithinOriginalLane (current_lanes (status_ s))
          ego_pose (parameters (planner_data_ (base s))) in
      abort_state <- isAbortState ;;
      if abort_state && negb is_within_current_lane then set_current_state RUNNING
      else
        abort_condition <- isAbortConditionSatisfied ;;
        if abort_condition then
          near_end <- isNearEndOfLane ;;
          low <- isCurrentVelocityLow ;;
          if (near_end && low) || negb is_within_current_lane
          then set_current_state RUNNING
          else set_current_state FAILURE
        else
          finished <- hasFinishedLaneChange ;;
          if finished then set_current_state SUCCESS
          else set_current_state RUNNING in
    if waiting then
      let object_num := length target_objects in
      if (object_num <? execute_object_num (parameters_ s))%nat
      then set_current_state SUCCESS
      else
        o_front <- front "target_objects" target_objects ;;
        let to_front_object_distance := longitudinal o_front in
        if Qgtb (execute_object_longitudinal_margin (parameters_ s))
                to_front_object_distance
        then set_current_state FAILURE
        else
          ego_pose <- getEgoPose ;;
          let to_lane_change_end_distance :=
            motion_utils.calcSignedArcLength
              (points (path (lane_change_path (status_ s)))) (position ego_pose)
              (position (end_ (shift_line (lane_change_path (status_ s))))) in
          let lane_change_finish_before_object :=
            Qgtb to_front_object_distance to_lane_change_end_distance in
          if negb lane_change_finish_before_object &&
             execute_only_when_lane_change_finish_before_object (parameters_ s)
          then set_current_state FAILURE
          else continue
    else continue.

(** *** Planning *)

(** Returns the final value of the reference [path]. *)
Definition generateExtendedDrivableArea (path : PathWithLaneId) : M PathWithLaneId :=
  s <- get ;;
  let common_parameters := parameters (planner_data_ (base s)) in
  let route_handler := route_handler (planner_data_ (base s)) in
  let drivable_lanes :=
    util_lane_change.generateDrivableLanes route_handler
      (current_lanes (status_ s)) (lane_change_lanes (status_ s)) in
  let shorten := util.cutOverlappedLanes path drivable_lanes in
  let shorten_lanes := fst shorten in
  let path := snd shorten in
  let expanded_lanes :=
    util.expandLanelets shorten_lanes
      (drivable_area_left_bound_offset (lane_change (parameters_ s)))
      (drivable_area_right_bound_offset (lane_change (parameters_ s))) [] in
  ret (util.generateDrivableArea path expanded_lanes
         (vehicle_length common_parameters) (planner_data_ (base s))).

(** Returns the final value of the reference [output]. *)
Definition updateOutputTurnSignal (output : BehaviorModuleOutput.t)
    : M BehaviorModuleOutput.t :=
  s <- get ;;
  ego_pose <- getEgoPose ;;
  ego_twist <- getEgoTwist ;;
  let turn_signal_info :=
    util.getPathTurnSignal (current_lanes (status_ s))
      (shifted_path (lane_change_path (status_ s)))
      (shift_line (lane_change_path (status_ s))) ego_pose
      (vector_x (linear ego_twist)) (parameters (planner_data_ (base s))) in
  let info := BehaviorModuleOutput.turn_signal_info output in
  let info :=
    mkTurnSignalInfo (mkTurnCommand (command (fst turn_signal_info)))
      (signal_section info) in
  let info :=
    util_lane_change.get_turn_signal_info (lane_change_path (status_ s)) info in
  ret (BehaviorModuleOutput.set_turn_signal_info info output).

(** [updateSteeringFactorPtr(const BehaviorModuleOutput &)]. *)
Definition updateSteeringFactorPtr (output : BehaviorModuleOutput.t) : M unit :=
  s <- get ;;
  let turn_signal_info := BehaviorModuleOutput.turn_signal_info output in
  current_pose <- getEgoPose ;;
  output_path <- deref "output.path" (BehaviorModuleOutput.path output) ;;
  let shift_line := shift_line (lane_change_path (status_ s)) in
  let start_distance :=
    motion_utils.calcSignedArcLength (points output_path) (position current_pose)
      (position (start shift_line)) in
  let finish_distance :=
    motion_utils.calcSignedArcLength (points output_path) (position current_pose)
      (position (end_ shift_line)) in
  steering_factor_direction <-
    (if decide (command (turn_signal turn_signal_info) = ENABLE_LEFT) then
       waitApprovalLeft start_distance finish_distance ;;
       ret SteeringLEFT
     else if decide (command (turn_signal turn_signal_info) = ENABLE_RIGHT) then
       waitApprovalRight start_distance finish_distance ;;
       ret SteeringRIGHT
     else ret SteeringUNKNOWN) ;;
  updateSteeringFactor
    {| factor_pose := (start shift_line, end_ shift_line);
       factor_distance := (start_distance, finish_distance);
       factor_direction := steering_factor_direction;
       factor_status := TURNING |}.

(** [updateSteeringFactorPtr(const CandidateOutput &, const LaneChangePath &)]. *)
Definition updateSteeringFactorPtr_candidate
    (output : CandidateOutput) (selected_path : LaneChangePath) : M unit :=
  let steering_factor_direction :=
    if Qgtb (lateral_shift output) 0 then SteeringLEFT else SteeringRIGHT in
  updateSteeringFactor
    {| factor_pose := (start (shift_line selected_path), end_ (shift_line selected_path));
       factor_distance := (start_distance_to_path_change output,
                           finish_distance_to_path_change output);
       factor_direction := steering_factor_direction;
       factor_status := APPROACHING |}.

Definition resetPathIfAbort : M unit :=
  s <- get ;;
  if negb (is_abort_approval_requested_ s) then
    (if USE_OLD_ARCHITECTURE then
       abort_path <- deref "abort_path_" (abort_path_ s) ;;
       let lateral_shift := util_lane_change.getLateralShift abort_path in
       if Qgtb lateral_shift 0 then
         removePreviousRTCStatusRight ;;
         uuid <- generateUUID ;;
         assign_uuid "right" uuid
       else if Qltb lateral_shift 0 then
         removePreviousRTCStatusLeft ;;
         uuid <- generateUUID ;;
         assign_uuid "left" uuid
       else ret tt
     else removeRTCStatus) ;;
    modify (set_is_abort_approval_requested_ true) ;;
    modify (set_is_abort_path_approved_ false)
  else
    activated <- isActivated ;;
    if activated then
      modify (set_is_abort_path_approved_ true) ;;
      clearWaitingApproval
    else
      modify (set_is_abort_path_approved_ false) ;;
      waitApproval.

Definition plan : M BehaviorModuleOutput.t :=
  resetPathCandidate ;;
  resetPathReference ;;
  activated <- isActivated ;;
  modify (set_is_activated_ activated) ;;
  s <- get ;;
  let path' := path (lane_change_path (status_ s)) in
  valid <- isValidPath_of path' ;;
  if negb valid then
    modify (fun s => set_status_ (set_is_valid_path false (status_ s)) s) ;;
    ret BehaviorModuleOutput.empty
  else
    modify (fun s => set_status_ (set_is_valid_path true (status_ s)) s) ;;
    near_end <- isNearEndOfLane ;;
    low <- isCurrentVelocityLow ;;
    let path' :=
      if is_abort_condition_satisfied_ s && near_end && low
      then snd (util.insertStopPoint double_0_1 path')
      else path' in
    abort_state <- isAbortState ;;
    path' <-
      (if abort_state then
         resetPathIfAbort ;;
         s <- get ;;
         if is_activated_ s then
           abort_path <- deref "abort_path_" (abort_path_ s) ;;
           ret (path abort_path)
         else ret path'
       else ret path') ;;
    path' <- generateExtendedDrivableArea path' ;;
    let output :=
      BehaviorModuleOutput.set_path (Some path') BehaviorModuleOutput.empty in
    output <-
      (if USE_OLD_ARCHITECTURE then
         out <- getPreviousModuleOutput ;;
         on_base (set_path_reference_ (BehaviorModuleOutput.reference_path out)) ;;
         modify (set_prev_approved_path_ path') ;;
         ret output
       else
         s <- get ;;
         root <- front "lane_change_lanes" (lane_change_lanes (status_ s)) ;;
         let reference_path :=
           util.getCenterLinePathFromRootLanelet root (planner_data_ (base s)) in
         let output :=
           BehaviorModuleOutput.set_reference_path (Some reference_path) output in
         on_base (set_path_reference_ (Some reference_path)) ;;
         out <- getPreviousModuleOutput ;;
         previous_path <- deref "path" (BehaviorModuleOutput.path out) ;;
         modify (set_prev_approved_path_ previous_path) ;;
         ret output) ;;
    output <- updateOutputTurnSignal output ;;
    updateSteeringFactorPtr output ;;
    clearWaitingApproval ;;
    ret output.

Definition planCandidate : M CandidateOutput :=
  let output := CandidateOutput_default in
  (* Get lane change lanes *)
  current_lanes <- current_lanes_of_build ;;
  s <- get ;;
  lane_change_lanes <- getLaneChangeLanes current_lanes (lane_change_lane_length_ s) ;;
  if empty lane_change_lanes then ret output
  else
    selected_path <-
      (if USE_OLD_ARCHITECTURE then
         r <- getSafePath lane_change_lanes (check_distance_ s) LaneChangePath_default ;;
         ret (snd r)
       else ret (lane_change_path (status_ s))) ;;
    route_header <- getRouteHeader ;;
    let selected_path :=
      set_path (set_header route_header (path selected_path)) selected_path in
    abort_state <- isAbortState ;;
    selected_path <-
      (if abort_state then
         s <- get ;;
         deref "abort_path_" (abort_path_ s)
       else ret selected_path) ;;
    if empty (points (path selected_path)) then ret output
    else
      ego_pose <- getEgoPose ;;
      let output :=
        {| path_candidate := path selected_path;
           lateral_shift := util_lane_change.getLateralShift selected_path;
           start_distance_to_path_change :=
             motion_utils.calcSignedArcLength (points (path selected_path))
               (position ego_pose) (position (start (shift_line selected_path)));
           finish_distance_to_path_change :=
             motion_utils.calcSignedArcLength (points (path selected_path))
               (position ego_pose) (position (end_ (shift_line selected_path))) |} in
      updateSteeringFactorPtr_candidate output selected_path ;;
      ret output.

Definition getReferencePath : M PathWithLaneId :=
  s <- get ;;
  let route_handler := route_handler (planner_data_ (base s)) in
  current_pose <- getEgoPose ;;
  let common_parameters := parameters (planner_data_ (base s)) in
  (* Set header *)
  route_header <- getRouteHeader ;;
  let reference_path := set_header route_header PathWithLaneId_empty in
  current_lanes <- current_lanes_of_build ;;
  if empty current_lanes then ret reference_path
  else
    let reference_path :=
      if empty (points reference_path) then
        util.getCenterLinePath route_handler current_lanes current_pose
          (backward_path_length common_parameters)
          (forward_path_length common_parameters) common_parameters None
      else reference_path in
    last_lane <- back "current_lanes" current_lanes ;;
    let num_lane_change := Z.abs (getNumLaneToPreferredLane route_handler last_lane) in
    let reference_path :=
      util.getCenterLinePath route_handler current_lanes current_pose
        (backward_path_length common_parameters)
        (forward_path_length common_parameters) common_parameters (Some 0) in
    let lane_change_buffer :=
      util.calcLaneChangeBuffer common_parameters num_lane_change 0 in
    let reference_path :=
      util.setDecelerationVelocity route_handler reference_path current_lanes
        (prepare_duration (lane_change (parameters_ s))) lane_change_buffer in
    let drivable_lanes := util.generateDrivableLanes current_lanes in
    let shorten := util.cutOverlappedLanes reference_path drivable_lanes in
    let expanded_lanes :=
      util.expandLanelets (fst shorten)
        (drivable_area_left_bound_offset (lane_change (parameters_ s)))
        (drivable_area_right_bound_offset (lane_change (parameters_ s)))
        (drivable_area_types_to_skip (lane_change (parameters_ s))) in
    ret (util.generateDrivableArea (snd shorten) expanded_lanes
           (vehicle_length common_parameters) (planner_data_ (base s))).

Definition updateLaneChangeStatus : M unit :=
  lanes <- current_lanes_of_build ;;
  modify (fun s => set_status_ (set_current_lanes lanes (status_ s)) s) ;;
  s <- get ;;
  lanes <- getLaneChangeLanes (current_lanes (status_ s)) (lane_change_lane_length_ s) ;;
  modify (fun s => set_status_ (set_lane_change_lanes lanes (status_ s)) s) ;;
  (* Find lane change path *)
  s <- get ;;
  r <- getSafePath (lane_change_lanes (status_ s)) (check_distance_ s)
         LaneChangePath_default ;;
  let found_safe_path := snd (fst r) in
  let selected_path := snd r in
  (* Update status *)
  modify (fun s => set_status_ (set_is_safe found_safe_path (status_ s)) s) ;;
  modify (fun s => set_status_ (set_lane_change_path selected_path (status_ s)) s) ;;
  modify (fun s =>
    set_status_
      (set_lane_follow_lane_ids (util.getIds (current_lanes (status_ s))) (status_ s))
      s) ;;
  modify (fun s =>
    set_status_
      (set_lane_change_lane_ids (util.getIds (lane_change_lanes (status_ s)))
         (status_ s))
      s) ;;
  ego_pose <- getEgoPose ;;
  s <- get ;;
  let arclength_start :=
    lanelet_utils.getArcCoordinates (lane_change_lanes (status_ s)) ego_pose in
  modify (fun s => set_status_ (set_start_distance (arc_length arclength_start) (status_ s)) s) ;;
  route_header <- getRouteHeader ;;
  modify (fun s =>
    let lcp := lane_change_path (status_ s) in
    set_status_
      (set_lane_change_path (set_path (set_header route_header (path lcp)) lcp)
         (status_ s))
      s).

Definition planWaitingApproval : M BehaviorModuleOutput.t :=
  (if USE_OLD_ARCHITECTURE then
     s <- get ;;
     ego_pose <- getEgoPose ;;
     let is_within_current_lane :=
       util_lane_change.isEgoWithinOriginalLane (current_lanes (status_ s)) ego_pose
         (parameters (planner_data_ (base s))) in
     if is_within_current_lane then
       reference_path <- getReferencePath ;;
       modify (set_prev_approved_path_ reference_path)
     else ret tt
   else
     out <- getPreviousModuleOutput ;;
     previous_path <- deref "path" (BehaviorModuleOutput.path out) ;;
     modify (set_prev_approved_path_ previous_path)) ;;
  s <- get ;;
  previous <- getPreviousModuleOutput ;;
  let out_path := prev_approved_path_ s in
  let target_objects := AvoidancePlanningData.target_objects (avoidance_data_ s) in
  out_path <-
    (if negb (empty target_objects) then
       o_front <- front "target_objects" target_objects ;;
       let to_front_object_distance := longitudinal o_front in
       let lane_change_buffer :=
         minimum_lane_changing_length (parameters (planner_data_ (base s))) in
       ego_position <- getEgoPosition ;;
       ret (fst (util.insertDecelPoint ego_position
                   (double.sub to_front_object_distance lane_change_buffer)
                   0 out_path None))
     else ret out_path) ;;
  let out :=
    {| BehaviorModuleOutput.path := Some out_path;
       BehaviorModuleOutput.reference_path := BehaviorModuleOutput.reference_path previous;
       BehaviorModuleOutput.turn_signal_info :=
         BehaviorModuleOutput.turn_signal_info previous |} in
  (if USE_OLD_ARCHITECTURE then ret tt else updateLaneChangeStatus) ;;
  candidate <- planCandidate ;;
  on_base (set_path_candidate_ (Some (path_candidate candidate))) ;;
  on_base (set_path_reference_ (BehaviorModuleOutput.reference_path previous)) ;;
  updateRTCStatus candidate ;;
  waitApproval ;;
  modify (set_is_abort_path_approved_ false) ;;
  ret out.

(** *** Entry and exit *)

Definition resetParameters : M unit :=
  modify (set_is_abort_path_approved_ false) ;;
  modify (set_is_abort_approval_requested_ false) ;;
  modify (set_current_lane_change_state_ Normal) ;;
  modify (set_abort_path_ None) ;;
  modify (set_object_debug_ ∅) ;;
  modify (set_debug_marker_ (mkMarkerArray [])) ;;
  resetPathCandidate ;;
  resetPathReference.

Definition processOnEntry : M unit :=
  (if USE_OLD_ARCHITECTURE then ret tt else waitApproval) ;;
  modify (set_current_lane_change_state_ Normal) ;;
  updateLaneChangeStatus.

Definition processOnExit : M unit := resetParameters.
End Members.

(** ** The module in its environment

    Between two calls of the module the planner manager and the base class
    act on the base object (new planner data, the previous module's output,
    the status set when the module is run, approval commands that arrive),
    and the parameters may be reconfigured. *)

Inductive Call :=
| call_processOnEntry
| call_processOnExit
| call_updateData
| call_updateState
| call_plan
| call_planWaitingApproval
| call_planCandidate
| call_isExecutionRequested
| call_isExecutionReady
| framework (b : SceneModuleInterface)
| reconfigure (p : AvoidanceByLCParameters).

Section Environment.
Context `{Build, util.ops, util_lane_change.ops, lanelet_utils.ops,
          motion_utils.ops, marker_utils.ops, rtc.ops}.

Definition discard {A} (c : M A) : M unit := _ <- c ;; ret tt.

Definition perform (c : Call) : M unit :=
  match c with
  | call_processOnEntry => processOnEntry
  | call_processOnExit => processOnExit
  | call_updateData => updateData
  | call_updateState => discard updateState
  | call_plan => discard plan
  | call_planWaitingApproval => discard planWaitingApproval
  | call_planCandidate => discard planCandidate
  | call_isExecutionRequested => discard isExecutionRequested
  | call_isExecutionReady => discard isExecutionReady
  | framework b => modify (set_base b)
  | reconfigure p => modify (set_parameters_ p)
  end.

Fixpoint run (calls : list Call) : M unit :=
  match calls with
  | [] => ret tt
  | c :: calls' => perform c ;; run calls'
  end.

(** The object after construction, as far as the abort logic reads it: a
    null [abort_path_], the abort flags false, the sub-state [Normal].
    Every other member is arbitrary. *)
Definition constructed (s : AvoidanceByLCModule) : Prop :=
  abort_path_ s = None /\
  is_abort_path_approved_ s = false /\
  is_abort_approval_requested_ s = false /\
  current_lane_change_state_ s = Normal.

Inductive reachable : AvoidanceByLCModule -> Prop :=
| reachable_constructed s : constructed s -> reachable s
| reachable_call s c s' :
    reachable s -> perform c s = Ok (tt, s') -> reachable s'.
End Environment.

(** ** Weakest preconditions

    [wp c Q F s]: from [s] the computation [c] either returns a value and an
    object that satisfy [Q], or stops at a fault that satisfies [F]. *)
Definition wp {S A} (c : StateM S A) (Q : A -> S -> Prop) (F : Fault -> Prop)
    (s : S) : Prop :=
  match c s with
  | Ok (a, s') => Q a s'
  | Raise f => F f
  end.

(** The members the abort logic is about. *)
Definition abort_view (s : AvoidanceByLCModule)
    : option LaneChangePath * LaneChangeStates * bool * bool :=
  (abort_path_ s, current_lane_change_state_ s, is_abort_path_approved_ s,
   is_abort_approval_requested_ s).

(** The fault of dereferencing a null [abort_path_]. *)
Definition abort_path_fault : Fault := null_dereference "abort_path_".

(** Distances in non-decreasing order. *)
Definition longitudinal_le (a b : ObjectData) : Prop :=
  longitudinal a <= longitudinal b.

(** The members no function of the module changes but the abort logic,
    together with the parameters. *)
Definition frame_view (s : AvoidanceByLCModule) :=
  (abort_view s, parameters_ s).

(** [keeps c]: [c] leaves [frame_view] as it was and never dereferences a
    null [abort_path_]. *)
Definition keeps {A} (c : M A) : Prop :=
  forall s, wp c (fun _ s' => frame_view s' = frame_view s)
               (fun f => f <> abort_path_fault) s.

(** The lambda passed to [std::sort] in [updateData]. *)
Definition by_longitudinal (a b : ObjectData) : bool :=
  Qltb (longitudinal a) (longitudinal b).

Definition is_reconfigure (c : Call) : bool :=
  match c with reconfigure _ => true | _ => false end.

(** A reconfiguration that leaves [enable_abort_lane_change] off. *)
Definition keeps_abort_disabled (c : Call) : Prop :=
  match c with
  | reconfigure p => enable_abort_lane_change (lane_change p) = false
  | _ => True
  end.

Definition abort_disabled (s : AvoidanceByLCModule) : Prop :=
  enable_abort_lane_change (lane_change (parameters_ s)) = false.

(** What [isAbortState] returns. *)
Definition in_abort_state (s : AvoidanceByLCModule) : bool :=
  enable_abort_lane_change (lane_change (parameters_ s)) &&
  bool_decide (current_lane_change_state_ s = Abort) &&
  bool_decide (is_Some (abort_path_ s)).

Definition abort_invariant (s : AvoidanceByLCModule) : Prop :=
  (is_abort_path_approved_ s = true -> is_Some (abort_path_ s)) /\
  (current_lane_change_state_ s = Abort -> is_Some (abort_path_ s)).

(** How a call may move the abort logic from [s] to [s']. *)
Definition abort_step (s s' : AvoidanceByLCModule) : Prop :=
  parameters_ s' = parameters_ s /\
  (current_lane_change_state_ s' = Abort ->
   current_lane_change_state_ s = Abort \/
   enable_abort_lane_change (lane_change (parameters_ s)) = true) /\
  (abort_invariant s -> abort_invariant s').

Definition orderly {A} (c : M A) : Prop :=
  forall s, wp c (fun _ s' => abort_step s s') (fun f => f <> abort_path_fault) s.

(** What the rest of [plan] reads is left as it was. *)
Definition same_inputs (s s' : AvoidanceByLCModule) : Prop :=
  planner_data_ (base s') = planner_data_ (base s) /\
  previous_module_output_ (base s') = previous_module_output_ (base s) /\
  status_ s' = status_ s /\
  parameters_ s' = parameters_ s /\
  abort_path_ s' = abort_path_ s /\
  is_activated_ s' = is_activated_ s.

Section Vocabulary.
Context `{Build, util.ops, util_lane_change.ops, lanelet_utils.ops,
          motion_utils.ops, marker_utils.ops, rtc.ops}.

(** Without [USE_OLD_ARCHITECTURE] the module dereferences both paths of
    the previous module's output. *)
Definition previous_output_ready (s : AvoidanceByLCModule) : Prop :=
  USE_OLD_ARCHITECTURE = true \/
  (is_Some (BehaviorModuleOutput.path (previous_module_output_ (base s))) /\
   is_Some (BehaviorModuleOutput.reference_path (previous_module_output_ (base s)))).

(** What [isValidPath(path)] returns. *)
Definition path_valid (s : AvoidanceByLCModule) (p : PathWithLaneId) : bool :=
  forallb (is_in_lanelet (drivable_lanelets s)) (points p) &&
  util.checkPathRelativeAngle p M_PI.

(** What [plan] needs to reach its end: the keys of [uuid_map_] that
    [resetPathIfAbort] assigns, or the lane and the path that the branch
    without [USE_OLD_ARCHITECTURE] reads. *)
Definition plan_ready (s : AvoidanceByLCModule) : Prop :=
  if USE_OLD_ARCHITECTURE then
    is_Some (uuid_map_ (base s) !! "left") /\ is_Some (uuid_map_ (base s) !! "right")
  else
    lane_change_lanes (status_ s) <> [] /\
    is_Some (BehaviorModuleOutput.path (previous_module_output_ (base s))).

(** The approval registration after the first [resetPathIfAbort] of an
    abort, from the base object [b] to [b']. *)
Definition invalidated (abort_path : LaneChangePath) (b b' : SceneModuleInterface)
    : Prop :=
  if USE_OLD_ARCHITECTURE then
    let lateral_shift := util_lane_change.getLateralShift abort_path in
    if Qgtb lateral_shift 0 then
      rtc_interface_ptr_map_ b' =
        rtc.removePreviousRTCStatusRight (uuid_map_ b) (rtc_interface_ptr_map_ b) /\
      uuid_map_ b' = <["right" := fst (rtc.generateUUID (random_engine_ b))]> (uuid_map_ b)
    else if Qltb lateral_shift 0 then
      rtc_interface_ptr_map_ b' =
        rtc.removePreviousRTCStatusLeft (uuid_map_ b) (rtc_interface_ptr_map_ b) /\
      uuid_map_ b' = <["left" := fst (rtc.generateUUID (random_engine_ b))]> (uuid_map_ b)
    else
      rtc_interface_ptr_map_ b' = rtc_interface_ptr_map_ b /\
      uuid_map_ b' = uuid_map_ b
  else
    rtc_interface_ptr_map_ b' = rtc.removeRTCStatus (rtc_interface_ptr_map_ b) /\
    uuid_map_ b' = uuid_map_ b.
End Vocabulary.

(** ** Vocabulary of the further properties *)

(** The target objects and the ego pose a member function reads. *)
Definition target_objects_of (s : AvoidanceByLCModule) : ObjectDataArray :=
  AvoidancePlanningData.target_objects (avoidance_data_ s).

Definition ego_pose_of (s : AvoidanceByLCModule) : Pose :=
  odometry_pose (self_odometry (planner_data_ (base s))).

(** [stable P c]: when [c] returns, it has kept the property [P] of the
    object. *)
Definition stable (P : AvoidanceByLCModule -> Prop) {A} (c : M A) : Prop :=
  forall s a s', P s -> c s = Ok (a, s') -> P s'.

(** The object with the three [mutable] debug members cleared: two objects
    with the same image differ in [object_debug_], [debug_valid_path_] and
    [debug_marker_] at most. *)
Definition without_debug (s : AvoidanceByLCModule) : AvoidanceByLCModule :=
  set_object_debug_ ∅ (set_debug_valid_path_ [] (set_debug_marker_ (mkMarkerArray []) s)).

Section Terms.
Context `{Build, util.ops, util_lane_change.ops, lanelet_utils.ops,
          motion_utils.ops, marker_utils.ops, rtc.ops}.

(** The objects that [fillAvoidanceTargetObjects] hands to
    [createObjectData]: those that [util::separateObjectsByLanelets] finds
    within the expanded lanelets of [data]. *)
Definition objects_within_target_lane
    (data : AvoidancePlanningData.t) (s : AvoidanceByLCModule) : list PredictedObject :=
  objects
    (fst (util.separateObjectsByLanelets (dynamic_object (planner_data_ (base s)))
            (lanelet_utils.getExpandedLanelets
               (AvoidancePlanningData.current_lanelets data)
               (detection_area_left_expand_dist (avoidance (parameters_ s)))
               (double.mul (detection_area_right_expand_dist (avoidance (parameters_ s)))
                           (- (1)))))).

(** The index of the path point nearest to an object lies beyond the path. *)
Definition nearest_index_out_of_range
    (data : AvoidancePlanningData.t) (object : PredictedObject) : Prop :=
  let path_points := points (AvoidancePlanningData.reference_path data) in
  (length path_points
   <= motion_utils.findNearestIndex path_points (position (initial_pose object)))%nat.

(** [util::filterTargetObjects] classifies the objects and leaves the
    reference path and the ego index of [data] alone. *)
Definition filter_keeps_path : Prop :=
  forall objects data debug planner_data parameters,
    let filtered :=
      fst (util.filterTargetObjects objects data debug planner_data parameters) in
    AvoidancePlanningData.reference_path filtered
    = AvoidancePlanningData.reference_path data /\
    AvoidancePlanningData.ego_closest_path_index filtered
    = AvoidancePlanningData.ego_closest_path_index data.
End Terms.

(** A lane change path under the header of the route, as
    [updateLaneChangeStatus] and [planCandidate] stamp it. *)
Definition with_header (h : Header) (p : LaneChangePath) : LaneChangePath :=
  set_path (set_header h (path p)) p.

Definition route_header_of (s : AvoidanceByLCModule) : Header :=
  getRouteHeader_ (route_handler (planner_data_ (base s))).

(** ** The debug message array

    [get_debug_msg_array] writes the [mutable] member
    [lane_change_debug_msg_array_], which no other function of the module
    uses, and reads the clock of the base class: it is a computation over
    the module object together with the two. *)

Module LaneChangeDebugMsg.
Record t := mk {
  object_id : string;
  allow_lane_change : bool;
  is_front : bool;
  relative_distance : Q;
  failed_reason : string;
  velocity : Q
}.
End LaneChangeDebugMsg.

Module LaneChangeDebugMsgArray.
Record t := mk {
  header : Header;
  lane_change_info : list LaneChangeDebugMsg.t
}.
(** A default-constructed array. *)
Definition empty : t := {| header := Header_empty; lane_change_info := [] |}.
Definition set_stamp (now : Z) (r : t) : t :=
  {| header := mkHeader (frame_id (header r)) now;
     lane_change_info := lane_change_info r |}.
End LaneChangeDebugMsgArray.

Record DebugMsgState := mkDebugMsgState {
  module_ : AvoidanceByLCModule;
  lane_change_debug_msg_array_ : LaneChangeDebugMsgArray.t;
  clock_ : Z   (* what [clock_->now()] returns *)
}.

Definition set_lane_change_debug_msg_array_
    (v : LaneChangeDebugMsgArray.t) (r : DebugMsgState) : DebugMsgState :=
  {| module_ := module_ r; lane_change_debug_msg_array_ := v; clock_ := clock_ r |}.

Section DebugMsg.
Context `{util.ops}.

(** The body of the loop over [object_debug_]. *)
Definition debug_msg_of (entry : string * CollisionCheckDebug) : LaneChangeDebugMsg.t :=
  let uuid := fst entry in
  let debug_data := snd entry in
  {| LaneChangeDebugMsg.object_id := uuid;
     LaneChangeDebugMsg.allow_lane_change := allow_lane_change debug_data;
     LaneChangeDebugMsg.is_front := is_front debug_data;
     LaneChangeDebugMsg.relative_distance := relative_to_ego debug_data;
     LaneChangeDebugMsg.failed_reason := failed_reason debug_data;
     LaneChangeDebugMsg.velocity := util.l2Norm (linear (object_twist debug_data)) |}.

(** The loop visits the entries of the [unordered_map] in an order the
    standard leaves open; [map_to_list] fixes one. *)
Definition get_debug_msg_array : StateM DebugMsgState LaneChangeDebugMsgArray.t :=
  s <- get ;;
  let debug_msg_array :=
    {| LaneChangeDebugMsgArray.header :=
         LaneChangeDebugMsgArray.header LaneChangeDebugMsgArray.empty;
       LaneChangeDebugMsgArray.lane_change_info :=
         LaneChangeDebugMsgArray.lane_change_info LaneChangeDebugMsgArray.empty ++
         map debug_msg_of (map_to_list (object_debug_ (module_ s))) |} in
  modify (set_lane_change_debug_msg_array_ debug_msg_array) ;;
  modify (fun s =>
    set_lane_change_debug_msg_array_
      (LaneChangeDebugMsgArray.set_stamp (clock_ s) (lane_change_debug_msg_array_ s)) s) ;;
  gets lane_change_debug_msg_array_.
End DebugMsg.

(** A call of a member function, and not an act of the framework. *)
Definition is_member_call (c : Call) : Prop :=
  match c with
  | framework _ | reconfigure _ => False
  | _ => True
  end.

(** What the module is given: the planner data, the previous module's
    output, the parameters and the two lengths set at construction. *)
Definition inputs_of (s : AvoidanceByLCModule) :=
  (planner_data_ (base s), previous_module_output_ (base s), parameters_ s,
   lane_change_lane_length_ s, check_distance_ s).

(** The identifiers of the approval requests and the generator behind
    them. *)
Definition identifiers_of (s : AvoidanceByLCModule) :=
  (uuid_map_ (base s), random_engine_ (base s)).

(** An abort path is approved only once its approval has been requested. *)
Definition approval_follows_request (s : AvoidanceByLCModule) : Prop :=
  is_abort_path_approved_ s = true -> is_abort_approval_requested_ s = true.

(** ** A scenario: a straight road with two lanes

    The road runs along x; lanelet 1 is centred on y = 0 and lanelet 2, on
    its left, on y = 4, each 4 m wide.  A stopped vehicle ahead on the right
    of the path makes the module change to the left; a vehicle in the left
    lane makes the lane change unsafe.  The operations are the simplest
    functions with these properties. *)
Module Scenario.

Definition lane_1 : ConstLanelet := mkLanelet 1.
Definition lane_2 : ConstLanelet := mkLanelet 2.

Definition at_xy (x y : Q) : Pose := mkPose (mkPoint x y 0) (mkQuaternion 0 0 0 1).
Definition x_of (p : Pose) : Q := point_x (position p).
Definition y_of (p : Pose) : Q := point_y (position p).

Definition path_point (x y : Q) : PathPointWithLaneId :=
  mkPathPointWithLaneId (mkPathPoint (at_xy x y) 10) [1%Z].

Definition path_through (ps : list (Q * Q)) : PathWithLaneId :=
  mkPathWithLaneId Header_empty (map (fun p => path_point (fst p) (snd p)) ps) [] [].

(** A lane change from [(x, y)] reaching the lateral position [y'] after [len]. *)
Definition shift_path (from : Pose) (len y' : Q) (lanes : ConstLanelets)
    : LaneChangePath :=
  {| path := path_through [(x_of from, y_of from); (x_of from + len, y')];
     shifted_path :=
       mkShiftedPath (path_through [(x_of from, y_of from); (x_of from + len, y')])
         [0; y' - y_of from];
     shift_line := mkShiftLine from (at_xy (x_of from + len) y');
     acceleration := 0;
     length_ := mkLaneChangePhaseInfo 10 (len - 10);
     reference_lanelets := [lane_1];
     target_lanelets := lanes |}.

(** No object may be in the left lane for a path to be safe. *)
Definition left_lane_free (objs : PredictedObjects) : bool :=
  forallb (fun o => Qle_bool (y_of (initial_pose o)) 2) (objects objs).

Definition abs_le (a b : Q) : bool := Qle_bool (std_abs a) b.

#[export] Instance build : Build := {| USE_OLD_ARCHITECTURE := false |}.

#[export] Instance util_ops : util.ops := {|
  util.getCurrentLanes _ := [lane_1];
  util.getCurrentLanesFromPath _ _ := [lane_1];
  util.resamplePathWithSpline p _ := p;
  util.calcPathArcLengthArray p _ _ offset :=
    map (fun q => x_of (pose (point q)) + offset) (points p);
  util.separateObjectsByLanelets objs _ :=
    (mkPredictedObjects (filter (fun o => abs_le (y_of (initial_pose o)) 3 = true)
                           (objects objs)),
     mkPredictedObjects (filter (fun o => abs_le (y_of (initial_pose o)) 3 = false)
                           (objects objs)));
  util.filterTargetObjects objs data debug _ _ :=
    (AvoidancePlanningData.set_target_objects objs data, debug);
  util.fillObjectEnvelopePolygon o _ _ _ := o;
  util.fillLongitudinalAndLengthByClosestEnvelopeFootprint _ ego o :=
    set_longitudinal (x_of (initial_pose (object o)) - point_x ego) o;
  util.fillObjectMovingTime o stopped _ := (o, stopped);
  util.calcEnvelopeOverhangDistance o _ p := (lateral o, p);
  util.isOnRight o := Qltb (lateral o) 0;
  util.updateRegisteredObject _ now _ := now;
  util.compensateDetectionLost _ now other := (now, other);
  util.insertStopPoint _ p := (path_point 0 0, p);
  util.insertDecelPoint _ _ _ p out := (p, out);
  util.getCenterLinePathFromRootLanelet l _ :=
    path_through [(0, 4 * (inject_Z (lanelet_id l) - 1)); (100, 4 * (inject_Z (lanelet_id l) - 1))];
  util.getCenterLinePath _ _ _ _ _ _ _ := path_through [(0, 0); (100, 0)];
  util.calcLaneChangeBuffer _ _ _ := 5;
  util.setDecelerationVelocity _ p _ _ _ := p;
  util.generateDrivableLanes lanes := map (fun l => mkDrivableLanes l l []) lanes;
  util.cutOverlappedLanes p lanes := (lanes, p);
  util.expandLanelets lanes _ _ _ := lanes;
  util.generateDrivableArea p _ _ _ := p;
  util.extendLanes _ lanes := lanes;
  util.transformToLanelets lanes := map right_lane lanes;
  util.checkPathRelativeAngle _ _ := true;
  util.calcTotalLaneChangeLength _ := 20;
  util.getDistanceToEndOfLane p _ := 1000 - x_of p;
  util.l2Norm v := std_abs (vector_x v);
  util.getIds lanes := map lanelet_id lanes;
  util.getPathTurnSignal _ _ _ _ _ _ := (mkTurnCommand ENABLE_LEFT, 0)
|}.

#[export] Instance lane_change_ops : util_lane_change.ops := {|
  util_lane_change.getLaneChangePaths_old _ _ lanes ego _ objs _ _ _ debug :=
    (left_lane_free objs, [shift_path ego 20 4 lanes; shift_path ego 30 4 lanes], debug);
  util_lane_change.getLaneChangePaths _ _ _ lanes ego _ objs _ _ _ _ debug :=
    (left_lane_free objs, [shift_path ego 20 4 lanes; shift_path ego 30 4 lanes], debug);
  util_lane_change.getLateralShift p :=
    y_of (end_ (shift_line p)) - y_of (start (shift_line p));
  util_lane_change.isEgoWithinOriginalLane _ ego _ := abs_le (y_of ego) 1;
  util_lane_change.getAbortPaths pd p _ _ _ :=
    let ego := odometry_pose (self_odometry pd) in
    if Qle_bool (vector_x (linear (odometry_twist (self_odometry pd)))) 10
    then Some (shift_path ego 15 0 [lane_1])
    else None;
  util_lane_change.generateDrivableLanes _ current target :=
    map (fun l => mkDrivableLanes l l []) (current ++ target);
  util_lane_change.getExtendedTargetLanesForCollisionCheck _ l _ _ := [l];
  util_lane_change.calcLateralBufferForFiltering w := w;
  util_lane_change.filterObjectIndices _ objs _ _ _ _ _ := seq 0 (length (objects objs));
  util_lane_change.isLaneChangePathSafe _ objs _ ego _ _ _ _ _ _ debug _ :=
    (left_lane_free objs, ego, debug);
  util_lane_change.get_turn_signal_info _ info := info
|}.

#[export] Instance lanelet_ops : lanelet_utils.ops := {|
  lanelet_utils.getExpandedLanelets lanes _ _ := lanes;
  lanelet_utils.getClosestLanelet lanes _ l :=
    match lanes with [] => (false, l) | l' :: _ => (true, l') end;
  lanelet_utils.getArcCoordinates _ p := mkArcCoordinates (x_of p) (y_of p);
  lanelet_utils.isInLanelet p l :=
    abs_le (y_of p - 4 * (inject_Z (lanelet_id l) - 1)) 2
|}.

#[export] Instance motion_ops : motion_utils.ops := {|
  motion_utils.calcSignedArcLength _ src dst := point_x dst - point_x src;
  motion_utils.calcSignedArcLength_from_index _ src _ := - point_x src;
  motion_utils.findNearestSegmentIndex _ _ := 0%Z;
  motion_utils.findNearestIndex _ _ := 0%nat;
  motion_utils.calcLateralDeviation p q := point_y q - y_of p;
  motion_utils.return_centroid _ := mkPoint2d 0 0
|}.

#[export] Instance marker_ops : marker_utils.ops := {|
  marker_utils.showObjectInfo _ ns := mkMarkerArray [mkMarker ns 0];
  marker_utils.showLerpedPose _ ns := mkMarkerArray [mkMarker ns 0];
  marker_utils.showPolygonPose _ ns := mkMarkerArray [mkMarker ns 0];
  marker_utils.showPolygon _ ns := mkMarkerArray [mkMarker ns 0];
  marker_utils.showAllValidLaneChangePath _ ns := mkMarkerArray [mkMarker ns 0]
|}.

(** The approval interface: a request is registered under the module's
    identifier of its side and is activated when its command says so. *)
Definition registered (uuids : gmap string UUID) (rtc : gmap string RTCInterface)
    (side : string) : list CooperateStatus :=
  match uuids !! side, rtc !! side with
  | Some uuid, Some requests => filter (fun r => request_uuid r = uuid) requests
  | _, _ => []
  end.

Definition remove_request (side : string) (uuids : gmap string UUID)
    (rtc : gmap string RTCInterface) : gmap string RTCInterface :=
  match uuids !! side, rtc !! side with
  | Some uuid, Some requests =>
      <[side := filter (fun r => request_uuid r <> uuid) requests]> rtc
  | _, _ => rtc
  end.

Definition update_request (side : string) (start_distance finish_distance : Q)
    (uuids : gmap string UUID) (rtc : gmap string RTCInterface)
    : gmap string RTCInterface :=
  match uuids !! side, rtc !! side with
  | Some uuid, Some requests =>
      let activate := existsb command_activate (registered uuids rtc side) in
      <[side := mkCooperateStatus uuid true start_distance finish_distance activate
                :: filter (fun r => request_uuid r <> uuid) requests]> rtc
  | _, _ => rtc
  end.

#[export] Instance rtc_ops : rtc.ops := {|
  rtc.isActivated uuids rtc :=
    existsb command_activate (registered uuids rtc "left" ++ registered uuids rtc "right");
  rtc.removeRTCStatus rtc := (fun _ => []) <$> rtc;
  rtc.removePreviousRTCStatusLeft := remove_request "left";
  rtc.removePreviousRTCStatusRight := remove_request "right";
  rtc.updateRTCStatus candidate :=
    if Qgtb (lateral_shift candidate) 0 then
      update_request "left" (start_distance_to_path_change candidate)
        (finish_distance_to_path_change candidate)
    else if Qltb (lateral_shift candidate) 0 then
      update_request "right" (start_distance_to_path_change candidate)
        (finish_distance_to_path_change candidate)
    else fun _ rtc => rtc;
  rtc.waitApprovalLeft := update_request "left";
  rtc.waitApprovalRight := update_request "right";
  rtc.generateUUID n := ((n + 1)%N, (n + 1)%N)
|}.

(** The operator's command for every registered request. *)
Definition command (activate : bool) (rtc : gmap string RTCInterface)
    : gmap string RTCInterface :=
  map (fun r => mkCooperateStatus (request_uuid r) (request_safe r)
                  (request_start_distance r) (request_finish_distance r) activate)
    <$> rtc.

Definition route : RouteHandler :=
  {| getRouteHeader_ := mkHeader "map" 0;
     getLaneletSequence l _ _ _ := [l];
     routing_left l := if decide (lanelet_id l = 1%Z) then Some lane_2 else None;
     routing_right l := if decide (lanelet_id l = 2%Z) then Some lane_1 else None;
     getNumLaneToPreferredLane _ := 0%Z |}.

Definition common_parameters : BehaviorPathPlannerParameters :=
  {| vehicle_width := 2; vehicle_length := 5; minimum_lane_changing_length := 10;
     backward_path_length := 5; forward_path_length := 100;
     expected_front_deceleration_for_abort := -1;
     expected_rear_deceleration_for_abort := -2 |}.

Definition vehicle (x y : Q) : PredictedObject :=
  mkPredictedObject 7%N 1%nat (at_xy x y) Twist_zero.

(** The ego vehicle at [(x, y)] driving at [v], and the objects around. *)
Definition scene (x y v : Q) (objs : list PredictedObject) : PlannerData :=
  {| self_odometry := mkOdometry (at_xy x y) (mkTwist (mkVector3 v 0 0) (mkVector3 0 0 0));
     dynamic_object := mkPredictedObjects objs;
     route_handler := route;
     parameters := common_parameters |}.

Definition module_parameters (abort : bool) : AvoidanceByLCParameters :=
  {| avoidance := mkAvoidanceParameters 1 1 1 (1 # 2);
     lane_change :=
       {| prepare_duration := 2; lane_change_finish_judge_buffer := 3;
          enable_cancel_lane_change := true; enable_abort_lane_change := abort;
          publish_debug_marker := true;
          drivable_area_left_bound_offset := 0;
          drivable_area_right_bound_offset := 0;
          drivable_area_types_to_skip := [] |};
     execute_object_num := 1;
     execute_object_longitudinal_margin := 5;
     execute_only_when_lane_change_finish_before_object := true |}.

Definition upstream_output : BehaviorModuleOutput.t :=
  {| BehaviorModuleOutput.path := Some (path_through [(0, 0); (100, 0)]);
     BehaviorModuleOutput.reference_path := Some (path_through [(0, 0); (100, 0)]);
     BehaviorModuleOutput.turn_signal_info :=
       mkTurnSignalInfo (mkTurnCommand NO_COMMAND) [] |}.

(** The module after construction, with the planner data of a scene. *)
Definition constructed_base (d : PlannerData) : SceneModuleInterface :=
  {| current_state_ := IDLE; is_waiting_approval_ := false; planner_data_ := d;
     previous_module_output_ := upstream_output;
     path_candidate_ := None; path_reference_ := None;
     uuid_map_ := <["left" := 1%N]> (<["right" := 2%N]> ∅);
     rtc_interface_ptr_map_ := <["left" := []]> (<["right" := []]> ∅);
     steering_factor_interface_ptr_ := None;
     random_engine_ := 2%N |}.

Definition constructed_module (abort : bool) (d : PlannerData) : AvoidanceByLCModule :=
  {| base := constructed_base d;
     parameters_ := module_parameters abort;
     status_ :=
       {| lane_change_path := LaneChangePath_default; current_lanes := [];
          lane_change_lanes := []; lane_follow_lane_ids := [];
          lane_change_lane_ids := []; is_safe := false; is_valid_path := true;
          start_distance := 0 |};
     prev_approved_path_ := PathWithLaneId_empty;
     avoidance_data_ :=
       {| AvoidancePlanningData.reference_pose := Pose_zero;
          AvoidancePlanningData.reference_path := PathWithLaneId_empty;
          AvoidancePlanningData.ego_closest_path_index := 0;
          AvoidancePlanningData.arclength_from_ego := [];
          AvoidancePlanningData.current_lanelets := [];
          AvoidancePlanningData.target_objects := [];
          AvoidancePlanningData.other_objects := [] |};
     debug_data_ := DebugData_default;
     registered_objects_ := [];
     stopped_objects_ := [];
     abort_path_ := None;
     current_lane_change_state_ := Normal;
     is_abort_path_approved_ := false;
     is_abort_approval_requested_ := false;
     is_abort_condition_satisfied_ := false;
     is_activated_ := false;
     lane_change_lane_length_ := 200;
     check_distance_ := 100;
     object_debug_ := ∅;
     debug_valid_path_ := [];
     debug_marker_ := mkMarkerArray [] |}.

(** What the planner manager and the operator do between two calls: new
    planner data, the status [RUNNING] when the module is run, and the
    operator's command. *)
Definition manager (status : ModuleStatus) (d : PlannerData) (activate : bool)
    (s : AvoidanceByLCModule) : Call :=
  framework
    (set_rtc_interface_ptr_map_ (command activate (rtc_interface_ptr_map_ (base s)))
       (set_planner_data_ d (set_current_state_ status (base s)))).

(** The object after a sequence of calls (unchanged if one of them faults). *)
Definition after (calls : list Call) (s : AvoidanceByLCModule) : AvoidanceByLCModule :=
  match run calls s with
  | Ok (_, s') => s'
  | Raise _ => s
  end.

(** The path that a cycle of [plan] publishes. *)
Definition published (r : Result (BehaviorModuleOutput.t * AvoidanceByLCModule))
    : option PathWithLaneId :=
  match r with
  | Ok (out, _) => BehaviorModuleOutput.path out
  | Raise _ => None
  end.

Definition obstacle : PredictedObject := vehicle 40 (- (1 # 2)).
Definition intruder : PredictedObject := vehicle 20 4.

(** *** A lane change that is aborted twice

    The module is entered with the obstacle 40 m ahead and waits for
    approval. *)
Definition approaching (abort : bool) : AvoidanceByLCModule :=
  constructed_module abort (scene 0 0 10 [obstacle]).

Definition waiting (abort : bool) : AvoidanceByLCModule :=
  after [call_updateData; call_isExecutionRequested; call_isExecutionReady;
         call_processOnEntry; call_planWaitingApproval]
    (approaching abort).

(** The operator approves; the lane change runs. *)
Definition running (abort : bool) : AvoidanceByLCModule :=
  after [manager RUNNING (scene 1 0 10 [obstacle]) true (waiting abort);
         call_updateData; call_updateState; call_plan]
    (waiting abort).

(** The ego vehicle has left its lane when a vehicle appears in the left
    lane. *)
Definition endangered (abort : bool) : AvoidanceByLCModule :=
  after [manager RUNNING (scene 10 3 10 [obstacle; intruder]) true (running abort);
         call_updateData]
    (running abort).

Definition aborting : AvoidanceByLCModule := after [call_updateState] (endangered true).

Definition abort_requested : AvoidanceByLCModule := after [call_plan] aborting.

(** The left lane is free again and the ego vehicle is back in its lane:
    the lane change resumes, and the operator approves the request that is
    registered. *)
Definition resumed : AvoidanceByLCModule :=
  after [manager RUNNING (scene 12 (1 # 2) 10 [obstacle]) true abort_requested;
         call_updateData; call_updateState; call_plan]
    abort_requested.

(** Out of the lane again, the left lane is taken again. *)
Definition endangered_again : AvoidanceByLCModule :=
  after [manager RUNNING (scene 14 3 10 [obstacle; intruder]) true resumed;
         call_updateData]
    resumed.

Definition aborting_again : AvoidanceByLCModule :=
  after [call_updateState] endangered_again.

Definition republished : AvoidanceByLCModule := after [call_plan] aborting_again.

(** The path back to the lane that the first abort computes. *)
Definition return_path : LaneChangePath := shift_path (at_xy 10 3) 15 0 [lane_1].

(** *** Other situations *)

(** The objects are classified; the module is not entered yet. *)
Definition searching : AvoidanceByLCModule :=
  after [call_updateData] (approaching true).

(** The two candidates of the scenario's path generation, both safe. *)
Definition candidates : bool * LaneChangePaths :=
  (true, [shift_path (at_xy 0 0) 20 4 [lane_2]; shift_path (at_xy 0 0) 30 4 [lane_2]]).

(** Three vehicles ahead, reported in no order. *)
Definition crowded : AvoidanceByLCModule :=
  constructed_module true
    (scene 0 0 10 [vehicle 40 (- (1 # 2)); vehicle 15 (- (1 # 2)); vehicle 25 0]).

(** One target object 3 m ahead, with a margin of 5 m. *)
Definition object_at_3m (status : ModuleStatus) : AvoidanceByLCModule :=
  after [call_updateData]
    (set_base
       (set_current_state_ status
          (constructed_base (scene 0 0 10 [vehicle 3 (- (1 # 2))])))
       (constructed_module true (scene 0 0 10 [vehicle 3 (- (1 # 2))]))).

(** While the module waits for approval the obstacle drives away. *)
Definition target_lost : AvoidanceByLCModule :=
  after [manager IDLE (scene 2 0 10 []) false (waiting true); call_updateData]
    (waiting true).

(** While it waits the module has come within the margin of the object. *)
Definition target_near : AvoidanceByLCModule :=
  after [manager IDLE (scene 36 0 10 [obstacle]) false (waiting true); call_updateData]
    (waiting true).

(** A committed path that ends 100 m beside the road. *)
Definition off_road : AvoidanceByLCModule :=
  set_status_
    (set_lane_change_path (shift_path (at_xy 0 0) 30 100 [lane_2])
       (status_ (running true)))
    (running true).

(** *** Situations of the further properties *)

(** The lane change is approved and the state is updated: [plan] is next. *)
Definition approved : AvoidanceByLCModule :=
  after [manager RUNNING (scene 1 0 10 [obstacle]) true (waiting true);
         call_updateData; call_updateState]
    (waiting true).

(** The module is entered and has not planned yet. *)
Definition entered : AvoidanceByLCModule :=
  after [call_updateData; call_isExecutionRequested; call_isExecutionReady;
         call_processOnEntry]
    (approaching true).

(** The running lane change with cancelling switched off. *)
Definition without_cancel : AvoidanceByLCParameters :=
  {| avoidance := avoidance (module_parameters true);
     lane_change :=
       {| prepare_duration := 2; lane_change_finish_judge_buffer := 3;
          enable_cancel_lane_change := false; enable_abort_lane_change := true;
          publish_debug_marker := true;
          drivable_area_left_bound_offset := 0;
          drivable_area_right_bound_offset := 0;
          drivable_area_types_to_skip := [] |};
     execute_object_num := 1;
     execute_object_longitudinal_margin := 5;
     execute_only_when_lane_change_finish_before_object := true |}.

Definition committed : AvoidanceByLCModule :=
  after [reconfigure without_cancel;
         manager RUNNING (scene 20 2 10 [obstacle]) true (running true)]
    (running true).

(** A road without objects. *)
Definition empty_road : AvoidanceByLCModule :=
  constructed_module true (scene 0 0 10 []).
(** *** Numbers that are not exact in binary

    The three places where the module computes with [double]s, at numbers
    that arithmetic has to round.  A decimal numeral stands for the
    [double] nearest to it. *)
Definition decimal (digits places : Z) : Q :=
  double.nearest (digits # Z.to_pos (10 ^ places)).

(** The lane change of [committed] with phases of 0.1 m and 0.2 m, no
    buffer, started at 0, the ego vehicle having travelled [travel]. *)
Definition travelled (travel : Q) : AvoidanceByLCModule :=
  let lane_change_path :=
    {| path := path (lane_change_path (status_ committed));
       shifted_path := shifted_path (lane_change_path (status_ committed));
       shift_line := shift_line (lane_change_path (status_ committed));
       acceleration := 0;
       length_ := mkLaneChangePhaseInfo (decimal 1 1) (decimal 2 1);
       reference_lanelets := [lane_1];
       target_lanelets := [lane_2] |} in
  let lane_change :=
    {| prepare_duration := 2; lane_change_finish_judge_buffer := 0;
       enable_cancel_lane_change := false; enable_abort_lane_change := true;
       publish_debug_marker := true;
       drivable_area_left_bound_offset := 0;
       drivable_area_right_bound_offset := 0;
       drivable_area_types_to_skip := [] |} in
  set_parameters_
    {| avoidance := avoidance without_cancel; lane_change := lane_change;
       execute_object_num := 1; execute_object_longitudinal_margin := 5;
       execute_only_when_lane_change_finish_before_object := true |}
    (set_status_
       (set_start_distance 0 (set_lane_change_path lane_change_path (status_ committed)))
       (set_base (set_planner_data_ (scene travel 4 10 [obstacle]) (base committed))
          committed)).

(** Travelled: 0.30000000000000004 m, the sum of the phases in [double]. *)
Definition at_the_sum : AvoidanceByLCModule :=
  travelled (decimal 30000000000000004 17).

(** A vehicle 0.2 m wide and a lateral buffer of 0.7 m. *)
Definition narrow (s : AvoidanceByLCModule) : AvoidanceByLCModule :=
  set_parameters_
    {| avoidance := mkAvoidanceParameters 1 1 1 (decimal 7 1);
       lane_change := lane_change (parameters_ s);
       execute_object_num := 1; execute_object_longitudinal_margin := 5;
       execute_only_when_lane_change_finish_before_object := true |}
    (set_base
       (set_planner_data_
          {| self_odometry := self_odometry (planner_data_ (base s));
             dynamic_object := dynamic_object (planner_data_ (base s));
             route_handler := route;
             parameters :=
               {| vehicle_width := decimal 2 1; vehicle_length := 5;
                  minimum_lane_changing_length := 10;
                  backward_path_length := 5; forward_path_length := 100;
                  expected_front_deceleration_for_abort := -1;
                  expected_rear_deceleration_for_abort := -2 |} |}
          (base s))
       s).

Definition on_straight_path : AvoidancePlanningData.t :=
  {| AvoidancePlanningData.reference_pose := at_xy 0 0;
     AvoidancePlanningData.reference_path := path_through [(0, 0); (100, 0)];
     AvoidancePlanningData.ego_closest_path_index := 1;
     AvoidancePlanningData.arclength_from_ego := [0; 100];
     AvoidancePlanningData.current_lanelets := [lane_1];
     AvoidancePlanningData.target_objects := [];
     AvoidancePlanningData.other_objects := [] |}.
End Scenario.

(** * Properties *)

(** ** Reasoning about computations *)

Section WP.
Context {S : Type}.
Implicit Types (s : S) (F : Fault -> Prop).

Lemma wp_ret {A} (a : A) (Q : A -> S -> Prop) F s : Q a s -> wp (ret a) Q F s.
Proof. intros HQ. exact HQ. Qed.

Lemma wp_bind {A B} (c : StateM S A) (k : A -> StateM S B) Q F s :
  wp c (fun a s' => wp (k a) Q F s') F s -> wp (bind c k) Q F s.
Proof.
  unfold wp, bind. destruct (c s) as [[a s']|f]; trivial.
Qed.

Lemma wp_mono {A} (c : StateM S A) (Q Q' : A -> S -> Prop) F F' s :
  wp c Q F s -> (forall a s', Q a s' -> Q' a s') -> (forall f, F f -> F' f) ->
  wp c Q' F' s.
Proof.
  unfold wp. destruct (c s) as [[a s']|f]; auto.
Qed.

Lemma bind_ok {A B} (c : StateM S A) (k : A -> StateM S B) s a s' :
  c s = Ok (a, s') -> bind c k s = k a s'.
Proof. unfold bind. intros ->. reflexivity. Qed.

Lemma bind_raise {A B} (c : StateM S A) (k : A -> StateM S B) s f :
  c s = Raise f -> bind c k s = Raise f.
Proof. unfold bind. intros ->. reflexivity. Qed.

Lemma bind_bind {A B C} (c : StateM S A) (k : A -> StateM S B)
    (k' : B -> StateM S C) s :
  bind (bind c k) k' s = bind c (fun a => bind (k a) k') s.
Proof. unfold bind. destruct (c s) as [[a s']|f]; reflexivity. Qed.

Lemma wp_bind_ok {A B} (c : StateM S A) (k : A -> StateM S B) Q F s a s' :
  c s = Ok (a, s') -> wp (k a) Q F s' -> wp (bind c k) Q F s.
Proof. intros E Hk. unfold wp. rewrite (bind_ok _ _ _ _ _ E). exact Hk. Qed.

Lemma wp_ok {A} (c : StateM S A) Q F s a s' :
  wp c Q F s -> c s = Ok (a, s') -> Q a s'.
Proof. unfold wp. intros Hw E. rewrite E in Hw. exact Hw. Qed.

Lemma wp_raise_inv {A} (c : StateM S A) Q F s f :
  wp c Q F s -> c s = Raise f -> F f.
Proof. unfold wp. intros Hw E. rewrite E in Hw. exact Hw. Qed.
End WP.

(** ** Functions that leave the abort logic alone *)

Lemma keeps_ret {A} (a : A) : keeps (ret a).
Proof. intros s. reflexivity. Qed.
Lemma keeps_bind {A B} (c : M A) (k : A -> M B) :
  keeps c -> (forall a, keeps (k a)) -> keeps (bind c k).
Proof.
  intros Hc Hk s. apply wp_bind. eapply wp_mono; [apply Hc| |auto].
  intros a s' E. cbn beta. eapply wp_mono; [apply Hk| |auto].
  intros b s'' E'. cbn beta in *. congruence.
Qed.
Lemma keeps_get : keeps get.
Proof. intros s. reflexivity. Qed.
Lemma keeps_gets {A} (f : AvoidanceByLCModule -> A) : keeps (gets f).
Proof. intros s. reflexivity. Qed.
Lemma keeps_modify (f : AvoidanceByLCModule -> AvoidanceByLCModule) :
  (forall s, frame_view (f s) = frame_view s) -> keeps (modify f).
Proof. intros Hf s. apply Hf. Qed.
Lemma keeps_raise {A} (f : Fault) : f <> abort_path_fault -> keeps (raise (A:=A) f).
Proof. intros Hf s. exact Hf. Qed.
Lemma keeps_deref {A} (pointer : string) (p : option A) :
  pointer <> "abort_path_" -> keeps (deref pointer p).
Proof.
  intros Hp. destruct p; [apply keeps_ret|]. apply keeps_raise.
  unfold abort_path_fault. congruence.
Qed.
Lemma keeps_front {A} c (v : list A) : keeps (front c v).
Proof. unfold front. destruct (head v); [apply keeps_ret|]. apply keeps_raise. discriminate. Qed.
Lemma keeps_back {A} c (v : list A) : keeps (back c v).
Proof. unfold back. destruct (last v); [apply keeps_ret|]. apply keeps_raise. discriminate. Qed.
Lemma keeps_at {A} c (v : list A) i : keeps (at_ c v i).
Proof. unfold at_. destruct (v !! i); [apply keeps_ret|]. apply keeps_raise. discriminate. Qed.
Lemma keeps_on_base f : keeps (on_base f).
Proof. apply keeps_modify. reflexivity. Qed.

Create HintDb keeps.
#[export] Hint Resolve keeps_ret keeps_get keeps_gets keeps_front keeps_back keeps_at keeps_on_base : keeps.

Ltac keeps_step :=
  lazy zeta;
  lazymatch goal with
  | |- keeps (bind _ _) => apply keeps_bind; [|intros ?]
  | |- keeps (ret _) => apply keeps_ret
  | |- keeps get => apply keeps_get
  | |- keeps (gets _) => apply keeps_gets
  | |- keeps (modify _) => apply keeps_modify; intros ?; reflexivity
  | |- keeps (raise _) => apply keeps_raise; discriminate
  | |- keeps (deref _ _) => apply keeps_deref; discriminate
  | |- keeps (front _ _) => apply keeps_front
  | |- keeps (back _ _) => apply keeps_back
  | |- keeps (at_ _ _ _) => apply keeps_at
  | |- keeps (on_base _) => apply keeps_on_base
  | |- keeps (if ?b then _ else _) => destruct b
  | |- keeps (match ?x with _ => _ end) => destruct x
  | |- keeps _ => solve [eauto with keeps]
  end.
Ltac keeps_all := repeat keeps_step.

Section Frame.
Context `{Build, util.ops, util_lane_change.ops, lanelet_utils.ops,
          motion_utils.ops, marker_utils.ops, rtc.ops}.

Lemma keeps_getEgoPose : keeps getEgoPose.
Proof. unfold getEgoPose. keeps_all. Qed.
Lemma keeps_getEgoTwist : keeps getEgoTwist.
Proof. unfold getEgoTwist. keeps_all. Qed.
Hint Resolve keeps_getEgoPose keeps_getEgoTwist : keeps.
Lemma keeps_getEgoPosition : keeps getEgoPosition.
Proof. unfold getEgoPosition. keeps_all. Qed.
Lemma keeps_current_lanes_of_build : keeps current_lanes_of_build.
Proof. unfold current_lanes_of_build, getPlannerData, getPreviousModuleOutput. keeps_all. Qed.
Hint Resolve keeps_getEgoPosition keeps_current_lanes_of_build : keeps.
Lemma keeps_getLaneChangeLanes cl len : keeps (getLaneChangeLanes cl len).
Proof. unfold getLaneChangeLanes. keeps_all. Qed.
Lemma keeps_setObjectDebugVisualization : keeps setObjectDebugVisualization.
Proof. unfold setObjectDebugVisualization. keeps_all. Qed.
Hint Resolve keeps_getLaneChangeLanes keeps_setObjectDebugVisualization : keeps.
Lemma keeps_find_candidate_paths a b c : keeps (find_candidate_paths a b c).
Proof. unfold find_candidate_paths, getPreviousModuleOutput. keeps_all. Qed.
Hint Resolve keeps_find_candidate_paths : keeps.
Lemma keeps_getSafePath a b c : keeps (getSafePath a b c).
Proof. unfold getSafePath. keeps_all. Qed.
Hint Resolve keeps_getSafePath : keeps.
Lemma keeps_isExecutionRequested : keeps isExecutionRequested.
Proof. unfold isExecutionRequested. keeps_all. Qed.

Lemma keeps_isExecutionReady : keeps isExecutionReady.
Proof. unfold isExecutionReady. keeps_all. Qed.

Lemma keeps_createObjectData data object : keeps (createObjectData data object).
Proof. unfold createObjectData. keeps_all. Qed.
Hint Resolve keeps_createObjectData : keeps.

Lemma keeps_mapM {A B} (f : A -> M B) v : (forall a, keeps (f a)) -> keeps (mapM f v).
Proof. intros Hf. induction v as [|a v IH]; cbn [mapM]; keeps_all; auto.  Qed.

Lemma keeps_fillAvoidanceTargetObjects data debug :
  keeps (fillAvoidanceTargetObjects data debug).
Proof.
  unfold fillAvoidanceTargetObjects. keeps_step. keeps_step. keeps_step.
  - apply keeps_mapM. intros object. apply keeps_createObjectData.
  - keeps_all.
Qed.
Hint Resolve keeps_fillAvoidanceTargetObjects : keeps.

Lemma keeps_calcAvoidancePlanningData debug : keeps (calcAvoidancePlanningData debug).
Proof. unfold calcAvoidancePlanningData, getPreviousModuleOutput. keeps_all. Qed.
Hint Resolve keeps_calcAvoidancePlanningData : keeps.

Lemma keeps_updateData : keeps updateData.
Proof. unfold updateData. keeps_all. Qed.

Lemma keeps_isValidPath_of p : keeps (isValidPath_of p).
Proof. unfold isValidPath_of. keeps_all. Qed.
Lemma keeps_isNearEndOfLane : keeps isNearEndOfLane.
Proof. unfold isNearEndOfLane. keeps_all. Qed.
Lemma keeps_isCurrentVelocityLow : keeps isCurrentVelocityLow.
Proof. unfold isCurrentVelocityLow. keeps_all. Qed.
Lemma keeps_hasFinishedLaneChange : keeps hasFinishedLaneChange.
Proof. unfold hasFinishedLaneChange. keeps_all. Qed.
Lemma keeps_isApprovedPathSafe p : keeps (isApprovedPathSafe p).
Proof. unfold isApprovedPathSafe. keeps_all. Qed.
Lemma keeps_isAbortState : keeps isAbortState.
Proof. unfold isAbortState. keeps_all. Qed.
Lemma keeps_generateExtendedDrivableArea p : keeps (generateExtendedDrivableArea p).
Proof. unfold generateExtendedDrivableArea. keeps_all. Qed.
Lemma keeps_updateOutputTurnSignal o : keeps (updateOutputTurnSignal o).
Proof. unfold updateOutputTurnSignal. keeps_all. Qed.
Lemma keeps_waitApprovalLeft a b : keeps (waitApprovalLeft a b).
Proof. unfold waitApprovalLeft, on_rtc, waitApproval. keeps_all. Qed.
Lemma keeps_waitApprovalRight a b : keeps (waitApprovalRight a b).
Proof. unfold waitApprovalRight, on_rtc, waitApproval. keeps_all. Qed.
Hint Resolve keeps_isValidPath_of keeps_isNearEndOfLane keeps_isCurrentVelocityLow
  keeps_hasFinishedLaneChange keeps_isApprovedPathSafe keeps_isAbortState
  keeps_generateExtendedDrivableArea keeps_updateOutputTurnSignal
  keeps_waitApprovalLeft keeps_waitApprovalRight : keeps.
Lemma keeps_updateSteeringFactorPtr o : keeps (updateSteeringFactorPtr o).
Proof. unfold updateSteeringFactorPtr, updateSteeringFactor. keeps_all. Qed.
Lemma keeps_updateSteeringFactorPtr_candidate o p :
  keeps (updateSteeringFactorPtr_candidate o p).
Proof. unfold updateSteeringFactorPtr_candidate, updateSteeringFactor. keeps_all. Qed.
Lemma keeps_getReferencePath : keeps getReferencePath.
Proof. unfold getReferencePath, getRouteHeader. keeps_all. Qed.
Lemma keeps_updateLaneChangeStatus : keeps updateLaneChangeStatus.
Proof. unfold updateLaneChangeStatus, getRouteHeader. keeps_all. Qed.
Lemma keeps_generateUUID : keeps generateUUID.
Proof. unfold generateUUID. keeps_all. Qed.
Lemma keeps_assign_uuid k u : keeps (assign_uuid k u).
Proof. unfold assign_uuid. keeps_all. Qed.
Lemma keeps_discard {A} (c : M A) : keeps c -> keeps (discard c).
Proof. intros Hc. unfold discard. keeps_all. Qed.
End Frame.

#[export] Hint Resolve keeps_getEgoPose keeps_getEgoTwist keeps_getEgoPosition
  keeps_current_lanes_of_build keeps_getLaneChangeLanes
  keeps_setObjectDebugVisualization keeps_find_candidate_paths keeps_getSafePath
  keeps_isExecutionRequested keeps_isExecutionReady keeps_createObjectData
  keeps_fillAvoidanceTargetObjects keeps_calcAvoidancePlanningData keeps_updateData
  keeps_isValidPath_of keeps_isNearEndOfLane keeps_isCurrentVelocityLow
  keeps_hasFinishedLaneChange keeps_isApprovedPathSafe keeps_isAbortState
  keeps_generateExtendedDrivableArea keeps_updateOutputTurnSignal
  keeps_waitApprovalLeft keeps_waitApprovalRight keeps_updateSteeringFactorPtr
  keeps_updateSteeringFactorPtr_candidate keeps_getReferencePath
  keeps_updateLaneChangeStatus keeps_generateUUID keeps_assign_uuid : keeps.

(** ** Sorting by distance *)

Lemma Qltb_lt a b : Qltb a b = true <-> a < b.
Proof.
  unfold Qltb. rewrite negb_true_iff, <- not_true_iff_false, Qle_bool_iff.
  split; [apply Qnot_le_lt | apply Qlt_not_le].
Qed.

Lemma Qltb_ge a b : Qltb a b = false <-> b <= a.
Proof.
  unfold Qltb. rewrite negb_false_iff, Qle_bool_iff. reflexivity.
Qed.

Lemma sort_insert_HdRel a b v :
  longitudinal_le b a -> HdRel longitudinal_le b v ->
  HdRel longitudinal_le b (sort_insert by_longitudinal a v).
Proof.
  intros Hba Hv. destruct v as [|c v]; cbn.
  - constructor. exact Hba.
  - destruct (by_longitudinal a c); constructor; [exact Hba|].
    inversion Hv; assumption.
Qed.

Lemma sort_insert_Sorted a v :
  Sorted longitudinal_le v -> Sorted longitudinal_le (sort_insert by_longitudinal a v).
Proof.
  induction 1 as [|b v Hs IH Hb]; cbn.
  - repeat constructor.
  - destruct (by_longitudinal a b) eqn:E.
    + constructor; [constructor; assumption|]. constructor.
      apply Qltb_lt in E. unfold longitudinal_le. lra.
    + constructor; [exact IH|]. apply sort_insert_HdRel; [|exact Hb].
      apply Qltb_ge in E. exact E.
Qed.

Lemma std_sort_Sorted v : Sorted longitudinal_le (std_sort by_longitudinal v).
Proof.
  induction v as [|a v IH]; cbn; [constructor|]. apply sort_insert_Sorted, IH.
Qed.

Lemma sort_insert_Permutation {A} (comp : A -> A -> bool) a v :
  Permutation (a :: v) (sort_insert comp a v).
Proof.
  induction v as [|b v IH]; cbn; [reflexivity|].
  destruct (comp a b); [reflexivity|].
  rewrite perm_swap. apply perm_skip, IH.
Qed.

Lemma std_sort_Permutation {A} (comp : A -> A -> bool) v :
  Permutation v (std_sort comp v).
Proof.
  induction v as [|a v IH]; cbn; [reflexivity|].
  rewrite <- sort_insert_Permutation. apply perm_skip, IH.
Qed.

Lemma Sorted_head_le o o0 v :
  Sorted longitudinal_le (o0 :: v) -> In o (o0 :: v) -> longitudinal o0 <= longitudinal o.
Proof.
  intros Hs Hin. apply Sorted_StronglySorted in Hs.
  - inversion Hs as [|? ? _ Hall]; subst. destruct Hin as [->|Hin]; [lra|].
    rewrite List.Forall_forall in Hall. apply Hall, Hin.
  - intros x y z. unfold longitudinal_le. lra.
Qed.

(** ** The claims *)

Ltac mstep := erewrite bind_ok by first [eassumption | reflexivity].
Ltac msimpl :=
  cbv beta iota zeta delta
    [bind ret get gets modify raise deref front back at_ discard
     on_base on_rtc getPreviousModuleOutput getPlannerData getEgoPose getEgoTwist
     getEgoPosition getRouteHeader isWaitingApproval waitApproval
     clearWaitingApproval resetPathCandidate resetPathReference isActivated
     isValidPath isSafe set_current_state updateSteeringFactor].
Tactic Notation "msimpl" "in" hyp(H) :=
  cbv beta iota zeta delta
    [bind ret get gets modify raise deref front back at_ discard
     on_base on_rtc getPreviousModuleOutput getPlannerData getEgoPose getEgoTwist
     getEgoPosition getRouteHeader isWaitingApproval waitApproval
     clearWaitingApproval resetPathCandidate resetPathReference isActivated
     isValidPath isSafe set_current_state updateSteeringFactor] in H.

Section Claims.
Context `{Build, util.ops, util_lane_change.ops, lanelet_utils.ops,
          motion_utils.ops, marker_utils.ops, rtc.ops}.

(** C2: when [updateData] completes, with the registry updated and lost
    detections compensated, the target objects of the avoidance planning
    data are in non-decreasing order of longitudinal distance. *)
Theorem updateData_sorts_target_objects s s' :
  updateData s = Ok (tt, s') ->
  Sorted longitudinal_le (AvoidancePlanningData.target_objects (avoidance_data_ s')).
Proof.
  unfold updateData, bind, modify, get. 
  destruct (calcAvoidancePlanningData _ _) as [[r s1]|f]; [|discriminate].
  intros E. injection E as <-. cbn. apply std_sort_Sorted.
Qed.

Lemma current_lanes_of_build_ready s :
  previous_output_ready s -> exists lanes, current_lanes_of_build s = Ok (lanes, s).
Proof.
  unfold previous_output_ready, current_lanes_of_build.
  intros [E|[_ [p E]]].
  - rewrite E. eexists. reflexivity.
  - destruct USE_OLD_ARCHITECTURE; [eexists; reflexivity|].
    msimpl. rewrite E. eexists. reflexivity.
Qed.

Lemma getLaneChangeLanes_ok s current len o v :
  AvoidancePlanningData.target_objects (avoidance_data_ s) = o :: v ->
  exists lanes, getLaneChangeLanes current len s = Ok (lanes, s).
Proof.
  intros E. unfold getLaneChangeLanes. msimpl.
  destruct (empty current); [eexists; reflexivity|].
  destruct (_ <? _)%nat; [eexists; reflexivity|].
  rewrite E. cbn. destruct (util.isOnRight o); eexists; reflexivity.
Qed.

Lemma setObjectDebugVisualization_ok s :
  exists m, setObjectDebugVisualization s = Ok (tt, set_debug_marker_ m s).
Proof.
  unfold setObjectDebugVisualization, bind, modify. cbn.
  eexists. reflexivity.
Qed.

Lemma find_candidate_paths_ok s current lanes d o v :
  previous_output_ready s ->
  AvoidancePlanningData.target_objects (avoidance_data_ s) = o :: v ->
  exists found m, find_candidate_paths current lanes d s = Ok (found, set_object_debug_ m s).
Proof.
  intros Hr E.
  unfold find_candidate_paths.
  destruct Hr as [Hold|[[p Hp] _]].
  - rewrite Hold. msimpl. do 2 eexists. reflexivity.
  - destruct USE_OLD_ARCHITECTURE; msimpl; [do 2 eexists; reflexivity|].
    rewrite E. cbn [head]. msimpl. rewrite Hp. do 2 eexists. reflexivity.
Qed.

Lemma getSafePath_without_search s lanes check_distance safe_path current :
  current_lanes_of_build s = Ok (current, s) ->
  lanes = [] \/ AvoidancePlanningData.target_objects (avoidance_data_ s) = [] ->
  getSafePath lanes check_distance safe_path s = Ok (false, false, safe_path, s).
Proof.
  intros Hcur Hnone. unfold getSafePath. mstep.
  destruct lanes as [|l lanes]; [reflexivity|]. cbn [empty]. mstep.
  destruct Hnone as [?|E]; [done|]. rewrite E. reflexivity.
Qed.

(** C1: when [getSafePath] searches candidates ([valid_paths], the list that
    [getLaneChangePaths] fills) and the list is not empty, the path it
    selects is the last candidate if the safety flag it returns is true and
    the first one if the flag is false; when the list is empty, and when the
    search is not reached, the validity flag is false. *)
Theorem getSafePath_selects_last_or_first
    s lanes check_distance safe_path current :
  current_lanes_of_build s = Ok (current, s) ->
  (lanes = [] \/ AvoidancePlanningData.target_objects (avoidance_data_ s) = [] ->
   getSafePath lanes check_distance safe_path s = Ok (false, false, safe_path, s)) /\
  (forall found s1,
     lanes <> [] ->
     AvoidancePlanningData.target_objects (avoidance_data_ s) <> [] ->
     find_candidate_paths current lanes check_distance s = Ok (found, s1) ->
     exists valid safe selected s',
       getSafePath lanes check_distance safe_path s = Ok (valid, safe, selected, s') /\
       debug_valid_path_ s' = snd found /\
       (snd found = [] -> valid = false) /\
       (snd found <> [] ->
        valid = true /\ safe = fst found /\
        (safe = true -> last (snd found) = Some selected) /\
        (safe = false -> head (snd found) = Some selected))).
Proof.
  intros Hcur. split; [intros Hnone; eapply getSafePath_without_search; eassumption|].
  intros found s1 Hlanes Htargets Hfind.
  unfold getSafePath. mstep.
  destruct lanes as [|l lanes]; [done|]. cbn [empty]. mstep.
  destruct (AvoidancePlanningData.target_objects (avoidance_data_ s))
    as [|o v]; [done|]. cbn [empty]. mstep.
  destruct found as [found_safe_path valid_paths]. cbn [fst snd]. mstep.
  assert (exists m, (if publish_debug_marker (lane_change (parameters_ s))
                     then setObjectDebugVisualization
                     else modify (set_debug_marker_ (mkMarkerArray [])))
                      (set_debug_valid_path_ valid_paths s1)
                    = Ok (tt, set_debug_marker_ m (set_debug_valid_path_ valid_paths s1)))
    as [m Hm].
  { destruct (publish_debug_marker _);
      [apply setObjectDebugVisualization_ok | eexists; reflexivity]. }
  mstep.
  destruct valid_paths as [|p ps].
  - exists false, false, safe_path. eexists. cbn. repeat split; done.
  - cbn [empty]. destruct found_safe_path.
    + destruct (last (p :: ps)) as [q|] eqn:Hlast.
      * exists true, true, q. eexists. unfold back. rewrite Hlast. msimpl.
        repeat split; try done.
      * apply last_None in Hlast. discriminate.
    + exists true, false, p. eexists. cbn. repeat split; done.
Qed.

Lemma getSafePath_ok s lanes check_distance safe_path :
  previous_output_ready s ->
  exists r s', getSafePath lanes check_distance safe_path s = Ok (r, s').
Proof.
  intros Hr. destruct (current_lanes_of_build_ready s Hr) as [current Hcur].
  unfold getSafePath. mstep.
  destruct lanes as [|l lanes]; [do 2 eexists; reflexivity|]. cbn [empty]. mstep.
  destruct (AvoidancePlanningData.target_objects (avoidance_data_ s))
    as [|o v] eqn:E; [do 2 eexists; reflexivity|]. cbn [empty].
  destruct (find_candidate_paths_ok s current (l :: lanes) check_distance o v Hr E)
    as ([found_safe_path valid_paths] & m & Hfind).
  mstep. cbn [fst snd]. mstep.
  assert (exists m', (if publish_debug_marker (lane_change (parameters_ s))
                     then setObjectDebugVisualization
                     else modify (set_debug_marker_ (mkMarkerArray [])))
                      (set_debug_valid_path_ valid_paths (set_object_debug_ m s))
                    = Ok (tt, set_debug_marker_ m'
                                (set_debug_valid_path_ valid_paths (set_object_debug_ m s))))
    as [m' Hm].
  { destruct (publish_debug_marker _);
      [apply setObjectDebugVisualization_ok | eexists; reflexivity]. }
  mstep.
  destruct valid_paths as [|p ps]; [do 2 eexists; reflexivity|]. cbn [empty].
  destruct found_safe_path; [|do 2 eexists; reflexivity].
  unfold back. destruct (last (p :: ps)) eqn:Hlast; [do 2 eexists; reflexivity|].
  apply last_None in Hlast. discriminate.
Qed.

(** C3, amended: while the module is not [RUNNING], if the nearest target
    object (the list is sorted, so any object) is closer than
    [execute_object_longitudinal_margin], [isExecutionRequested] returns
    false. *)
Theorem isExecutionRequested_rejects_near_object s o :
  current_state_ (base s) <> RUNNING ->
  previous_output_ready s ->
  Sorted longitudinal_le (AvoidancePlanningData.target_objects (avoidance_data_ s)) ->
  In o (AvoidancePlanningData.target_objects (avoidance_data_ s)) ->
  longitudinal o < execute_object_longitudinal_margin (parameters_ s) ->
  exists s', isExecutionRequested s = Ok (false, s').
Proof.
  intros Hstate Hr Hsorted Hin Hnear.
  destruct (AvoidancePlanningData.target_objects (avoidance_data_ s))
    as [|o0 v] eqn:E; [destruct Hin|].
  destruct (current_lanes_of_build_ready s Hr) as [current Hcur].
  destruct (getLaneChangeLanes_ok s current (lane_change_lane_length_ s) o0 v E)
    as [lanes Hlanes].
  destruct (getSafePath_ok s lanes (check_distance_ s) LaneChangePath_default Hr)
    as ([[found_valid_path found_safe_path] selected_path] & s' & Hsafe).
  unfold isExecutionRequested. mstep.
  destruct (decide (current_state_ (base s) = RUNNING)); [done|].
  do 3 mstep. cbn [fst snd].
  destruct found_valid_path; cbn [negb]; [|eexists; reflexivity].
  rewrite E.
  destruct (_ <? _)%nat; [eexists; reflexivity|].
  msimpl. cbn [head].
  assert (Qgtb (execute_object_longitudinal_margin (parameters_ s)) (longitudinal o0)
          = true) as ->.
  { apply Qltb_lt. pose proof (Sorted_head_le o o0 v Hsorted Hin). lra. }
  eexists. reflexivity.
Qed.

(** C9: [getLaneChangeLanes] returns the empty sequence when the current
    lanes are empty or there are fewer target objects than
    [execute_object_num]. *)
Theorem getLaneChangeLanes_empty_without_trigger s current_lanes lane_change_lane_length :
  current_lanes = [] \/
  (length (AvoidancePlanningData.target_objects (avoidance_data_ s))
   < execute_object_num (parameters_ s))%nat ->
  getLaneChangeLanes current_lanes lane_change_lane_length s = Ok ([], s).
Proof.
  intros Hc. unfold getLaneChangeLanes. msimpl.
  destruct current_lanes as [|c cl]; [reflexivity|]. destruct Hc as [?|Hc]; [done|].
  cbn [empty]. apply Nat.ltb_lt in Hc. rewrite Hc. reflexivity.
Qed.

(** C10: while the status is [RUNNING], [isExecutionRequested] and
    [isExecutionReady] return true at once; no gate is evaluated and the
    object is left as it was. *)
Theorem running_module_bypasses_gates s :
  current_state_ (base s) = RUNNING ->
  isExecutionRequested s = Ok (true, s) /\ isExecutionReady s = Ok (true, s).
Proof.
  intros E. unfold isExecutionRequested, isExecutionReady. msimpl.
  rewrite E. split; reflexivity.
Qed.

Lemma isValidPath_of_eq p s : isValidPath_of p s = Ok (path_valid s p, s).
Proof.
  unfold isValidPath_of, path_valid. msimpl.
  destruct (forallb _ _); [|reflexivity].
  destruct (util.checkPathRelativeAngle _ _); reflexivity.
Qed.

Lemma path_valid_false s p :
  (exists q, In q (points p) /\
     forall lanelet, In lanelet (drivable_lanelets s) ->
                     lanelet_utils.isInLanelet (pose (point q)) lanelet = false) \/
  util.checkPathRelativeAngle p M_PI = false ->
  path_valid s p = false.
Proof.
  unfold path_valid. intros [(q & Hq & Hout)| ->]; [|apply andb_false_r].
  apply andb_false_intro1, not_true_is_false. intros Hall.
  rewrite forallb_forall in Hall. specialize (Hall q Hq).
  unfold is_in_lanelet in Hall. apply existsb_exists in Hall as (l & Hl & Hin).
  rewrite (Hout l Hl) in Hin. discriminate.
Qed.

Lemma updateState_invalid s :
  is_valid_path (status_ s) = false ->
  updateState s = Ok (SUCCESS, set_base (set_current_state_ SUCCESS (base s)) s).
Proof.
  intros E. unfold updateState. msimpl. rewrite E. reflexivity.
Qed.

(** C7: a committed path with a point outside every drivable lanelet, or
    one that fails the relative angle check, is not valid; [plan] marks the
    status invalid and returns the empty output, and the next [updateState]
    ends the module with [SUCCESS]. *)
Theorem invalid_path_is_rejected s :
  let committed := path (lane_change_path (status_ s)) in
  (exists q, In q (points committed) /\
     forall lanelet, In lanelet (drivable_lanelets s) ->
                     lanelet_utils.isInLanelet (pose (point q)) lanelet = false) \/
  util.checkPathRelativeAngle committed M_PI = false ->
  isValidPath_of committed s = Ok (false, s) /\
  exists s1,
    plan s = Ok (BehaviorModuleOutput.empty, s1) /\
    is_valid_path (status_ s1) = false /\
    forall s1', status_ s1' = status_ s1 ->
      exists s2, updateState s1' = Ok (SUCCESS, s2) /\
                 current_state_ (base s2) = SUCCESS.
Proof.
  intros committed Hbad. apply path_valid_false in Hbad.
  split; [rewrite isValidPath_of_eq, Hbad; reflexivity|].
  unfold plan. do 5 mstep. rewrite bind_ok with (1 := isValidPath_of_eq _ _).
  change (path_valid _ _) with (path_valid s committed). rewrite Hbad. cbn [negb].
  mstep. eexists. split; [reflexivity|]. split; [reflexivity|].
  intros s1' E. eexists. split; [apply updateState_invalid; rewrite E; reflexivity|].
  reflexivity.
Qed.

(** C8, amended: in [updateState] while waiting for approval, with a valid
    path: too few target objects end the module with [SUCCESS]; with enough
    of them, a front object within the margin, or a lane change that does
    not finish before the front object when that is required, ends it with
    [FAILURE]. *)
Theorem updateState_trigger_checks s :
  is_valid_path (status_ s) = true ->
  is_waiting_approval_ (base s) = true ->
  let target_objects := AvoidancePlanningData.target_objects (avoidance_data_ s) in
  let failed status := set_base (set_current_state_ status (base s)) s in
  ((length target_objects < execute_object_num (parameters_ s))%nat ->
   updateState s = Ok (SUCCESS, failed SUCCESS)) /\
  (forall o_front rest,
     target_objects = o_front :: rest ->
     (execute_object_num (parameters_ s) <= length target_objects)%nat ->
     (longitudinal o_front < execute_object_longitudinal_margin (parameters_ s) ->
      updateState s = Ok (FAILURE, failed FAILURE)) /\
     (execute_object_longitudinal_margin (parameters_ s) <= longitudinal o_front ->
      execute_only_when_lane_change_finish_before_object (parameters_ s) = true ->
      longitudinal o_front <=
        motion_utils.calcSignedArcLength
          (points (path (lane_change_path (status_ s))))
          (position (odometry_pose (self_odometry (planner_data_ (base s)))))
          (position (end_ (shift_line (lane_change_path (status_ s))))) ->
      updateState s = Ok (FAILURE, failed FAILURE))).
Proof.
  intros Hvalid Hwait target_objects failed. subst target_objects failed.
  unfold updateState. mstep. cbn beta.
  rewrite Hvalid. cbn [negb]. do 2 mstep. cbn beta zeta.
  rewrite Hwait. split.
  - intros Hnum. apply Nat.ltb_lt in Hnum. rewrite Hnum. reflexivity.
  - intros o_front rest E Hnum. rewrite E in *.
    apply Nat.ltb_ge in Hnum. rewrite Hnum. mstep. split.
    + intros Hnear. apply Qltb_lt in Hnear. unfold Qgtb. rewrite Hnear. reflexivity.
    + intros Hfar Hflag Hend. apply Qltb_ge in Hfar, Hend. unfold Qgtb.
      rewrite Hfar. mstep. cbn beta zeta.
      rewrite Hend, Hflag. reflexivity.
Qed.

Lemma isAbortState_eq s : isAbortState s = Ok (in_abort_state s, s).
Proof.
  unfold isAbortState, in_abort_state. msimpl.
  destruct (enable_abort_lane_change _); [|reflexivity]. cbn [negb andb].
  destruct (bool_decide (current_lane_change_state_ s = Abort)); [|reflexivity].
  cbn [negb andb]. destruct (bool_decide (is_Some (abort_path_ s))); reflexivity.
Qed.

Lemma in_abort_state_true s :
  in_abort_state s = true ->
  enable_abort_lane_change (lane_change (parameters_ s)) = true /\
  current_lane_change_state_ s = Abort /\ is_Some (abort_path_ s).
Proof.
  unfold in_abort_state. rewrite !andb_true_iff, !bool_decide_eq_true. tauto.
Qed.

Lemma abort_step_refl s : abort_step s s.
Proof. unfold abort_step. auto. Qed.

Lemma abort_step_trans s1 s2 s3 : abort_step s1 s2 -> abort_step s2 s3 -> abort_step s1 s3.
Proof.
  unfold abort_step. intros (Hp & Ha & Hi) (Hp' & Ha' & Hi').
  rewrite Hp in *. split; [congruence|]. split; [|tauto].
  intros E. destruct (Ha' E); tauto.
Qed.

Lemma frame_view_eq s s' :
  frame_view s' = frame_view s ->
  abort_path_ s' = abort_path_ s /\
  current_lane_change_state_ s' = current_lane_change_state_ s /\
  is_abort_path_approved_ s' = is_abort_path_approved_ s /\
  is_abort_approval_requested_ s' = is_abort_approval_requested_ s /\
  parameters_ s' = parameters_ s.
Proof.
  unfold frame_view, abort_view. intros E.
  repeat split; [exact (f_equal (fun v => v.1.1.1.1) E)
                |exact (f_equal (fun v => v.1.1.1.2) E)
                |exact (f_equal (fun v => v.1.1.2) E)
                |exact (f_equal (fun v => v.1.2) E)
                |exact (f_equal snd E)].
Qed.

Lemma abort_step_frame s s' : frame_view s' = frame_view s -> abort_step s s'.
Proof.
  intros E. apply frame_view_eq in E as (E1 & E2 & E3 & E4 & E5).
  unfold abort_step, abort_invariant. rewrite E1, E2, E3, E5. auto.
Qed.

Lemma keeps_orderly {A} (c : M A) : keeps c -> orderly c.
Proof.
  intros Hc s. eapply wp_mono; [apply Hc| |auto].
  intros a s'. apply abort_step_frame.
Qed.

Lemma orderly_bind {A B} (c : M A) (k : A -> M B) :
  orderly c -> (forall a, orderly (k a)) -> orderly (bind c k).
Proof.
  intros Hc Hk s. apply wp_bind. eapply wp_mono; [apply Hc| |auto].
  intros a s' E. cbn beta. eapply wp_mono; [apply Hk| |auto].
  intros b s'' E'. cbn beta in *. eapply abort_step_trans; eassumption.
Qed.

Lemma wp_bind_keeps {A B} (c : M A) (k : A -> M B) Q s :
  keeps c ->
  (forall a s', frame_view s' = frame_view s ->
                wp (k a) Q (fun f => f <> abort_path_fault) s') ->
  wp (bind c k) Q (fun f => f <> abort_path_fault) s.
Proof.
  intros Hc Hk. apply wp_bind. eapply wp_mono; [apply Hc| |auto].
  intros a s' E. apply Hk, E.
Qed.

Lemma isAbortConditionSatisfied_spec s :
  wp isAbortConditionSatisfied
     (fun _ s' =>
        parameters_ s' = parameters_ s /\
        (current_lane_change_state_ s' = Abort ->
         enable_abort_lane_change (lane_change (parameters_ s)) = true) /\
        (abort_invariant s -> abort_invariant s'))
     (fun f => f <> abort_path_fault) s.
Proof.
  unfold isAbortConditionSatisfied.
  eapply wp_bind_ok; [reflexivity|]. eapply wp_bind_ok; [reflexivity|].
  eapply wp_bind_ok; [reflexivity|]. cbn beta.
  set (s1 := set_current_lane_change_state_ Normal
               (set_is_abort_condition_satisfied_ false s)).
  assert (Hnormal : forall s', frame_view s' = frame_view s1 ->
            parameters_ s' = parameters_ s /\
            (current_lane_change_state_ s' = Abort ->
             enable_abort_lane_change (lane_change (parameters_ s)) = true) /\
            (abort_invariant s -> abort_invariant s')).
  { intros s' E. apply frame_view_eq in E as (E1 & E2 & E3 & E4 & E5).
    unfold abort_invariant. rewrite E1, E2, E3, E5. cbn.
    repeat split; try tauto; discriminate. }
  change (parameters_ s1) with (parameters_ s).
  change (is_activated_ s1) with (is_activated_ s).
  change (is_abort_path_approved_ s1) with (is_abort_path_approved_ s).
  destruct (enable_cancel_lane_change _); cbn [negb];
    [|apply wp_ret, Hnormal; reflexivity].
  destruct (is_activated_ s); cbn [negb]; [|apply wp_ret, Hnormal; reflexivity].
  apply wp_bind_keeps; [eauto with keeps|]. intros [is_path_safe pose] s2 E2.
  cbn [fst snd]. destruct is_path_safe; cbn [negb]; [apply wp_ret, Hnormal, E2|].
  eapply wp_bind_ok; [reflexivity|]. cbn beta zeta.
  pose proof (frame_view_eq _ _ E2) as (F1 & F2 & F3 & F4 & F5). cbn in F1, F2, F3, F4, F5.
  destruct (util_lane_change.isEgoWithinOriginalLane _ _ _).
  { eapply wp_bind_ok; [reflexivity|]. apply wp_ret.
    unfold abort_invariant. cbn. rewrite F1, F3, F5.
    repeat split; try tauto; discriminate. }
  destruct (enable_abort_lane_change (lane_change (parameters_ s))) eqn:Hflag;
    cbn [negb].
  2:{ eapply wp_bind_ok; [reflexivity|]. apply wp_ret.
      unfold abort_invariant. cbn. rewrite F1, F3, F5.
      repeat split; try tauto; discriminate. }
  destruct (util_lane_change.getAbortPaths _ _ _ _ _) as [found|];
    destruct (is_abort_path_approved_ s) eqn:Happroved; cbn [negb andb].
  - (* found, already approved *)
    eapply wp_bind_ok; [reflexivity|]. eapply wp_bind_ok; [reflexivity|].
    apply wp_ret. unfold abort_invariant. cbn. rewrite F1, F3, F5.
    repeat split; tauto.
  - (* found, not approved: the abort path is stored *)
    eapply wp_bind_ok; [reflexivity|]. eapply wp_bind_ok; [reflexivity|].
    apply wp_ret. unfold abort_invariant. cbn. rewrite F3, F5.
    repeat split; eauto.
  - (* not found, already approved *)
    change (bool_decide (is_Some None)) with false. cbn [negb andb].
    eapply wp_bind_ok; [reflexivity|]. eapply wp_bind_ok; [reflexivity|].
    apply wp_ret. unfold abort_invariant. cbn. rewrite F1, F3, F5.
    repeat split; tauto.
  - (* not found, not approved *)
    change (bool_decide (is_Some None)) with false. cbn [negb andb].
    eapply wp_bind_ok; [reflexivity|]. apply wp_ret.
    unfold abort_invariant. cbn. rewrite F1, F3, F5.
    repeat split; try tauto; discriminate.
Qed.

Lemma orderly_isAbortConditionSatisfied : orderly isAbortConditionSatisfied.
Proof.
  intros s. eapply wp_mono; [apply isAbortConditionSatisfied_spec| |auto].
  intros b s' (Hp & Ha & Hi). unfold abort_step. auto.
Qed.

Lemma orderly_modify (f : AvoidanceByLCModule -> AvoidanceByLCModule) :
  (forall s, abort_step s (f s)) -> orderly (modify f).
Proof. intros Hf s. apply Hf. Qed.

Lemma orderly_leave_abort : orderly (modify (set_current_lane_change_state_ Normal)).
Proof.
  apply orderly_modify. intros s. unfold abort_step, abort_invariant. cbn.
  repeat split; try tauto; discriminate.
Qed.

Lemma orderly_disapprove : orderly (modify (set_is_abort_path_approved_ false)).
Proof.
  apply orderly_modify. intros s. unfold abort_step, abort_invariant. cbn.
  repeat split; try tauto; discriminate.
Qed.

Lemma orderly_resetParameters : orderly resetParameters.
Proof.
  intros s. unfold resetParameters, wp. msimpl.
  unfold abort_step, abort_invariant. cbn.
  repeat split; try tauto; discriminate.
Qed.

Lemma wp_of_keeps {A} (c : M A) s0 s :
  keeps c -> abort_step s0 s ->
  wp c (fun _ s' => abort_step s0 s') (fun f => f <> abort_path_fault) s.
Proof.
  intros Hc Hs. eapply wp_mono; [apply Hc| |auto].
  intros a s' E. eapply abort_step_trans; [exact Hs|]. apply abort_step_frame, E.
Qed.

Lemma resetPathIfAbort_spec s :
  is_Some (abort_path_ s) ->
  wp resetPathIfAbort
     (fun _ s' =>
        abort_path_ s' = abort_path_ s /\
        current_lane_change_state_ s' = current_lane_change_state_ s /\
        parameters_ s' = parameters_ s)
     (fun f => f <> abort_path_fault) s.
Proof.
  intros [abort_path E]. unfold resetPathIfAbort.
  eapply wp_bind_ok; [reflexivity|]. cbn beta.
  destruct (is_abort_approval_requested_ s); cbn [negb].
  - eapply wp_bind_ok; [reflexivity|]. cbn beta.
    destruct (rtc.isActivated _ _); (eapply wp_bind_ok; [reflexivity|]);
      unfold wp; msimpl; cbn; auto.
  - apply wp_bind.
    assert (Hend : forall s', frame_view s' = frame_view s ->
              wp (modify (set_is_abort_approval_requested_ true);;
                  modify (set_is_abort_path_approved_ false))
                 (fun _ s'' =>
                    abort_path_ s'' = abort_path_ s /\
                    current_lane_change_state_ s'' = current_lane_change_state_ s /\
                    parameters_ s'' = parameters_ s)
                 (fun f => f <> abort_path_fault) s').
    { intros s' F. apply frame_view_eq in F as (F1 & F2 & F3 & F4 & F5).
      unfold wp. msimpl. cbn. auto. }
    eapply wp_mono with (Q := fun _ s' => frame_view s' = frame_view s);
      [|intros a s' F; apply Hend, F|intros f Hf; exact Hf].
    destruct USE_OLD_ARCHITECTURE.
    + rewrite E. eapply wp_bind_ok; [reflexivity|]. cbn beta zeta.
      assert (Hside : forall (remove : M unit) key,
                keeps remove ->
                wp (remove;; uuid <- generateUUID;; assign_uuid key uuid)
                   (fun _ s' => frame_view s' = frame_view s)
                   (fun f => f <> abort_path_fault) s).
      { intros remove key Hremove.
        assert (keeps (remove;; uuid <- generateUUID;; assign_uuid key uuid)) as Hk
            by keeps_all.
        apply Hk. }
      destruct (Qgtb _ 0); [apply Hside; unfold removePreviousRTCStatusRight, on_rtc; keeps_all|].
      destruct (Qltb _ 0); [apply Hside; unfold removePreviousRTCStatusLeft, on_rtc; keeps_all|].
      reflexivity.
    + reflexivity.
Qed.

Ltac orderly_step :=
  lazy zeta;
  lazymatch goal with
  | |- orderly (bind _ _) => apply orderly_bind; [|intros ?]
  | |- orderly (if ?b then _ else _) => destruct b
  | |- orderly isAbortConditionSatisfied => apply orderly_isAbortConditionSatisfied
  | |- orderly (modify (set_current_lane_change_state_ Normal)) =>
      apply orderly_leave_abort
  | |- orderly (modify (set_is_abort_path_approved_ false)) =>
      apply orderly_disapprove
  | |- orderly _ => apply keeps_orderly; solve [eauto with keeps | keeps_all]
  end.

Lemma orderly_updateState : orderly updateState.
Proof.
  unfold updateState, set_current_state. repeat orderly_step.
Qed.

Lemma orderly_processOnEntry : orderly processOnEntry.
Proof. unfold processOnEntry, waitApproval. repeat orderly_step. Qed.

Lemma guarded_abort_path_spec s0 s (selected : LaneChangePath) :
  abort_step s0 s ->
  wp (if in_abort_state s then s <- get;; deref "abort_path_" (abort_path_ s)
      else ret selected)
     (fun _ s' => abort_step s0 s') (fun f => f <> abort_path_fault) s.
Proof.
  intros Hs.
  destruct (in_abort_state s) eqn:E; [|apply wp_ret, Hs].
  apply in_abort_state_true in E as (_ & _ & [abort_path E]).
  eapply wp_bind_ok; [reflexivity|]. cbn beta. rewrite E. apply wp_ret, Hs.
Qed.

Lemma orderly_planCandidate : orderly planCandidate.
Proof.
  intros s. unfold planCandidate. lazy zeta.
  apply wp_bind_keeps; [eauto with keeps|]. intros current s1 E1.
  eapply wp_bind_ok; [reflexivity|]. cbn beta.
  apply wp_bind_keeps; [eauto with keeps|]. intros lanes s2 E2.
  assert (abort_step s s2) as Hs2.
  { apply abort_step_frame. congruence. }
  destruct (empty lanes); [apply wp_ret, Hs2|].
  apply wp_bind.
  eapply wp_mono with (Q := fun _ s' => abort_step s s');
    [apply wp_of_keeps; [keeps_all|exact Hs2]| |intros f Hf; exact Hf].
  intros selected s3 Hs3. cbn beta.
  eapply wp_bind_ok; [reflexivity|]. cbn beta zeta.
  eapply wp_bind_ok; [apply isAbortState_eq|].
  apply wp_bind.
  eapply wp_mono; [apply guarded_abort_path_spec, Hs3| |intros f Hf; exact Hf].
  intros selected' s4 Hs4. cbn beta.
  destruct (empty _); [apply wp_ret, Hs4|].
  apply wp_of_keeps; [keeps_all|exact Hs4].
Qed.

Lemma orderly_planWaitingApproval : orderly planWaitingApproval.
Proof.
  unfold planWaitingApproval, updateRTCStatus, on_rtc, waitApproval,
    getPreviousModuleOutput.
  repeat first [apply orderly_planCandidate | orderly_step].
Qed.

Lemma orderly_plan : orderly plan.
Proof.
  intros s. unfold plan.
  do 5 (eapply wp_bind_ok; [reflexivity|]). cbn beta zeta.
  eapply wp_bind_ok; [apply isValidPath_of_eq|].
  destruct (path_valid _ _); cbn [negb].
  2:{ eapply wp_bind_ok; [reflexivity|]. apply wp_ret.
      apply abort_step_frame. reflexivity. }
  eapply wp_bind_ok; [reflexivity|].
  match goal with |- wp _ _ _ ?st => set (s1 := st) end.
  assert (frame_view s1 = frame_view s) as E1 by reflexivity. clearbody s1.
  apply wp_bind_keeps; [eauto with keeps|]. intros near s2 E2.
  apply wp_bind_keeps; [eauto with keeps|]. intros low s3 E3.
  cbn beta zeta.
  eapply wp_bind_ok; [apply isAbortState_eq|].
  assert (abort_step s s3) as Hs3 by (apply abort_step_frame; congruence).
  apply wp_bind.
  match goal with
  | |- wp _ ?Q' _ _ =>
      assert (forall q s', abort_step s s' -> Q' q s') as Hrest
  end.
  { intros q s' Hs'. cbn beta. apply wp_of_keeps; [|exact Hs'].
    unfold getPreviousModuleOutput, clearWaitingApproval. keeps_all. }
  destruct (in_abort_state s3) eqn:E; [|apply wp_ret, Hrest, Hs3].
  apply in_abort_state_true in E as (_ & _ & Hsome).
  apply wp_bind.
  eapply wp_mono; [apply resetPathIfAbort_spec, Hsome| |intros f Hf; exact Hf].
  intros [] s4 (F1 & F2 & F3). cbn beta.
  assert (abort_step s s4) as Hs4.
  { eapply abort_step_trans; [exact Hs3|].
    unfold abort_step, abort_invariant. rewrite F1, F2, F3.
    split; [reflexivity|]. split; [tauto|]. intros _. split; intros _; exact Hsome. }
  eapply wp_bind_ok; [reflexivity|]. cbn beta.
  destruct (is_activated_ s4); [|apply wp_ret, Hrest, Hs4].
  destruct Hsome as [abort_path Hsome]. rewrite F1, Hsome.
  eapply wp_bind_ok; [reflexivity|]. apply wp_ret, Hrest, Hs4.
Qed.

Lemma orderly_perform c : is_reconfigure c = false -> orderly (perform c).
Proof.
  destruct c; cbn [perform is_reconfigure]; intros Hc; try discriminate.
  - apply orderly_processOnEntry.
  - apply orderly_resetParameters.
  - apply keeps_orderly, keeps_updateData.
  - unfold discard. apply orderly_bind; [apply orderly_updateState|].
    intros ?. apply keeps_orderly, keeps_ret.
  - unfold discard. apply orderly_bind; [apply orderly_plan|].
    intros ?. apply keeps_orderly, keeps_ret.
  - unfold discard. apply orderly_bind; [apply orderly_planWaitingApproval|].
    intros ?. apply keeps_orderly, keeps_ret.
  - unfold discard. apply orderly_bind; [apply orderly_planCandidate|].
    intros ?. apply keeps_orderly, keeps_ret.
  - apply keeps_orderly, keeps_discard, keeps_isExecutionRequested.
  - apply keeps_orderly, keeps_discard, keeps_isExecutionReady.
  - apply keeps_orderly, keeps_modify. reflexivity.
Qed.

Lemma perform_abort_disabled c s s' :
  abort_disabled s -> keeps_abort_disabled c ->
  current_lane_change_state_ s <> Abort ->
  perform c s = Ok (tt, s') ->
  abort_disabled s' /\ current_lane_change_state_ s' <> Abort.
Proof.
  intros Hflag Hc Hstate E. destruct (is_reconfigure c) eqn:Hr.
  - destruct c; try discriminate. injection E as <-. split; [exact Hc|exact Hstate].
  - pose proof (wp_ok _ _ _ _ _ _ (orderly_perform c Hr s) E) as (Hp & Ha & _).
    unfold abort_disabled in *. rewrite Hp. split; [exact Hflag|].
    intros Habort. destruct (Ha Habort); [done|congruence].
Qed.

(** C4: with [enable_abort_lane_change] off, [isAbortConditionSatisfied]
    leaves the sub-state [Normal], [Cancel] or [Stop], [isAbortState]
    returns false, and no sequence of calls that keeps the flag off takes
    the sub-state to [Abort]. *)
Theorem abort_disabled_never_enters_abort s :
  abort_disabled s ->
  (forall satisfied s',
     isAbortConditionSatisfied s = Ok (satisfied, s') ->
     current_lane_change_state_ s' = Normal \/
     current_lane_change_state_ s' = Cancel \/
     current_lane_change_state_ s' = Stop) /\
  isAbortState s = Ok (false, s) /\
  (forall calls s',
     Forall keeps_abort_disabled calls ->
     current_lane_change_state_ s <> Abort ->
     run calls s = Ok (tt, s') ->
     current_lane_change_state_ s' <> Abort).
Proof.
  intros Hflag. split; [|split].
  - intros satisfied s' E.
    pose proof (wp_ok _ _ _ _ _ _ (isAbortConditionSatisfied_spec s) E) as (_ & Ha & _).
    destruct (current_lane_change_state_ s'); auto.
    specialize (Ha eq_refl). unfold abort_disabled in Hflag. congruence.
  - rewrite isAbortState_eq. unfold in_abort_state, abort_disabled in *.
    rewrite Hflag. reflexivity.
  - intros calls. revert s Hflag.
    induction calls as [|c calls IH]; intros s Hflag s' Hcalls Hstate E.
    + injection E as <-. exact Hstate.
    + cbn [run] in E. unfold bind in E.
      destruct (perform c s) as [[[] s1]|f] eqn:E1; [|discriminate].
      inversion Hcalls as [|? ? Hc Hrest]; subst.
      destruct (perform_abort_disabled c s s1 Hflag Hc Hstate E1) as [Hflag1 Hstate1].
      exact (IH s1 Hflag1 s' Hrest Hstate1 E).
Qed.

Lemma constructed_invariant s : constructed s -> abort_invariant s.
Proof.
  intros (E1 & E2 & _ & E4). unfold abort_invariant. rewrite E2, E4.
  split; discriminate.
Qed.

Lemma reachable_invariant s : reachable s -> abort_invariant s.
Proof.
  induction 1 as [s Hs|s c s' _ IH E]; [apply constructed_invariant, Hs|].
  destruct (is_reconfigure c) eqn:Hr.
  - destruct c; try discriminate. injection E as <-. exact IH.
  - pose proof (wp_ok _ _ _ _ _ _ (orderly_perform c Hr s) E) as (_ & _ & Hi).
    exact (Hi IH).
Qed.

Lemma reachable_run calls s s' :
  reachable s -> run calls s = Ok (tt, s') -> reachable s'.
Proof.
  revert s. induction calls as [|c calls IH]; intros s Hs E.
  - injection E as <-. exact Hs.
  - cbn [run] in E. unfold bind in E.
    destruct (perform c s) as [[[] s1]|f] eqn:E1; [|discriminate].
    exact (IH s1 (reachable_call s c s1 Hs E1) E).
Qed.

(** C5: in every reachable state the sub-state [Abort] comes with a
    non-null [abort_path_]; [isAbortState] returns true exactly when abort
    is enabled and the sub-state is [Abort]; and no call dereferences a
    null [abort_path_]. *)
Theorem abort_state_has_abort_path s :
  reachable s ->
  (current_lane_change_state_ s = Abort -> is_Some (abort_path_ s)) /\
  isAbortState s =
    Ok (enable_abort_lane_change (lane_change (parameters_ s)) &&
        bool_decide (current_lane_change_state_ s = Abort), s) /\
  (forall s', isAbortState s = Ok (true, s') -> is_Some (abort_path_ s)) /\
  (forall c, perform c s <> Raise abort_path_fault).
Proof.
  intros Hs. pose proof (reachable_invariant s Hs) as [_ Hi].
  split; [exact Hi|]. split; [|split].
  - rewrite isAbortState_eq. unfold in_abort_state. f_equal. f_equal.
    destruct (bool_decide (current_lane_change_state_ s = Abort)) eqn:E;
      [|rewrite andb_false_r; reflexivity].
    apply bool_decide_eq_true in E. rewrite (bool_decide_eq_true_2 _ (Hi E)).
    apply andb_true_r.
  - intros s'. rewrite isAbortState_eq. intros [= E _].
    apply in_abort_state_true in E. tauto.
  - intros c E. destruct (is_reconfigure c) eqn:Hr.
    + destruct c; discriminate.
    + exact (wp_raise_inv _ _ _ _ _ (orderly_perform c Hr s) E eq_refl).
Qed.

Lemma resetPathIfAbort_requested s :
  is_abort_approval_requested_ s = true ->
  exists s1,
    resetPathIfAbort s = Ok (tt, s1) /\
    is_abort_approval_requested_ s1 = true /\
    is_abort_path_approved_ s1 =
      rtc.isActivated (uuid_map_ (base s)) (rtc_interface_ptr_map_ (base s)) /\
    uuid_map_ (base s1) = uuid_map_ (base s) /\
    rtc_interface_ptr_map_ (base s1) = rtc_interface_ptr_map_ (base s) /\
    same_inputs s s1.
Proof.
  intros E. unfold resetPathIfAbort, same_inputs. mstep. rewrite E. cbn [negb].
  mstep. cbn beta.
  destruct (rtc.isActivated _ _); mstep; eexists; (split; [reflexivity|]);
    cbn; rewrite ?E; tauto.
Qed.

Lemma resetPathIfAbort_first s abort_path :
  is_abort_approval_requested_ s = false ->
  abort_path_ s = Some abort_path ->
  (USE_OLD_ARCHITECTURE = true ->
   is_Some (uuid_map_ (base s) !! "left") /\ is_Some (uuid_map_ (base s) !! "right")) ->
  exists s1,
    resetPathIfAbort s = Ok (tt, s1) /\
    is_abort_approval_requested_ s1 = true /\
    is_abort_path_approved_ s1 = false /\
    invalidated abort_path (base s) (base s1) /\
    same_inputs s s1.
Proof.
  intros E Hpath Hkeys. unfold resetPathIfAbort.
  mstep. rewrite E. cbn [negb].
  match goal with
  | |- exists s1, bind ?c _ _ = _ /\ _ =>
      assert (exists b', c s = Ok (tt, set_base b' s) /\
                         invalidated abort_path (base s) b' /\
                         planner_data_ b' = planner_data_ (base s) /\
                         previous_module_output_ b' = previous_module_output_ (base s))
        as (b' & Hc & Hinv & Hdata & Hprev)
  end.
  { unfold invalidated. destruct USE_OLD_ARCHITECTURE.
    - destruct Hkeys as [[l Hl] [r Hr]]; [reflexivity|].
      rewrite Hpath. mstep. lazy zeta.
      destruct (Qgtb (util_lane_change.getLateralShift abort_path) 0);
        [|destruct (Qltb (util_lane_change.getLateralShift abort_path) 0)].
      + unfold removePreviousRTCStatusRight, generateUUID, assign_uuid. msimpl. cbn.
        rewrite Hr. eexists. split; [reflexivity|]. cbn. tauto.
      + unfold removePreviousRTCStatusLeft, generateUUID, assign_uuid. msimpl. cbn.
        rewrite Hl. eexists. split; [reflexivity|]. cbn. tauto.
      + exists (base s). destruct s; cbn. tauto.
    - unfold removeRTCStatus. msimpl. eexists. split; [reflexivity|]. cbn. tauto. }
  do 2 mstep. eexists. split; [reflexivity|]. unfold same_inputs. cbn. tauto.
Qed.

Lemma generateExtendedDrivableArea_inputs p s s' :
  planner_data_ (base s') = planner_data_ (base s) ->
  current_lanes (status_ s') = current_lanes (status_ s) ->
  lane_change_lanes (status_ s') = lane_change_lanes (status_ s) ->
  parameters_ s' = parameters_ s ->
  exists published,
    generateExtendedDrivableArea p s = Ok (published, s) /\
    generateExtendedDrivableArea p s' = Ok (published, s').
Proof.
  intros E1 E2 E3 E4. unfold generateExtendedDrivableArea. msimpl.
  rewrite E1, E2, E3, E4. eexists. split; reflexivity.
Qed.

Lemma isNearEndOfLane_ok s : exists near, isNearEndOfLane s = Ok (near, s).
Proof. unfold isNearEndOfLane. msimpl. eexists. reflexivity. Qed.

Lemma isCurrentVelocityLow_ok s : exists low, isCurrentVelocityLow s = Ok (low, s).
Proof. unfold isCurrentVelocityLow. msimpl. eexists. reflexivity. Qed.

(** A cycle of [plan] in the abort state with a valid path, as the code
    runs it.  [resetPathIfAbort] invalidates the approval registration and
    marks the abort approval as requested if it was not requested since the
    flags were last reset, and otherwise only records whether the abort
    path is approved.  The path published follows [is_activated_], which
    [plan] assigns before it calls [resetPathIfAbort]: the abort path if
    that reading is true, and otherwise the lane change path (with the stop
    point, if one is inserted).  In the cycle that clears the registration
    the reading is therefore the approval of the lane change, not of the
    abort path. *)
Theorem abort_cycle_publishes_on_activation s abort_path :
  let committed := path (lane_change_path (status_ s)) in
  let activated :=
    rtc.isActivated (uuid_map_ (base s)) (rtc_interface_ptr_map_ (base s)) in
  path_valid s committed = true ->
  in_abort_state s = true ->
  abort_path_ s = Some abort_path ->
  plan_ready s ->
  (exists s1,
     resetPathIfAbort s = Ok (tt, s1) /\
     is_abort_approval_requested_ s1 = true /\
     if is_abort_approval_requested_ s then
       is_abort_path_approved_ s1 = activated /\
       uuid_map_ (base s1) = uuid_map_ (base s) /\
       rtc_interface_ptr_map_ (base s1) = rtc_interface_ptr_map_ (base s)
     else
       is_abort_path_approved_ s1 = false /\
       invalidated abort_path (base s) (base s1)) /\
  (exists out s' forward published,
     plan s = Ok (out, s') /\
     (forward = committed \/
      forward = snd (util.insertStopPoint double_0_1 committed)) /\
     generateExtendedDrivableArea
       (if activated then path abort_path else forward) s = Ok (published, s) /\
     BehaviorModuleOutput.path out = Some published /\
     is_abort_approval_requested_ s' = true).
Proof.
  intros committed activated Hvalid Habort Hpath Hready.
  assert (Hkeys : forall s0, uuid_map_ (base s0) = uuid_map_ (base s) ->
            USE_OLD_ARCHITECTURE = true ->
            is_Some (uuid_map_ (base s0) !! "left") /\
            is_Some (uuid_map_ (base s0) !! "right")).
  { intros s0 E Hold. unfold plan_ready in Hready. rewrite Hold in Hready.
    rewrite E. exact Hready. }
  assert (Hreset : forall s0,
            uuid_map_ (base s0) = uuid_map_ (base s) ->
            rtc_interface_ptr_map_ (base s0) = rtc_interface_ptr_map_ (base s) ->
            random_engine_ (base s0) = random_engine_ (base s) ->
            is_abort_approval_requested_ s0 = is_abort_approval_requested_ s ->
            abort_path_ s0 = Some abort_path ->
            exists s1,
              resetPathIfAbort s0 = Ok (tt, s1) /\
              is_abort_approval_requested_ s1 = true /\
              (if is_abort_approval_requested_ s then
                 is_abort_path_approved_ s1 = activated /\
                 uuid_map_ (base s1) = uuid_map_ (base s) /\
                 rtc_interface_ptr_map_ (base s1) = rtc_interface_ptr_map_ (base s)
               else
                 is_abort_path_approved_ s1 = false /\
                 invalidated abort_path (base s) (base s1)) /\
              same_inputs s0 s1).
  { intros s0 E1 E2 E3 E4 E5.
    destruct (is_abort_approval_requested_ s) eqn:Hreq.
    - destruct (resetPathIfAbort_requested s0 E4) as (s1 & R1 & R2 & R3 & R4 & R5 & R6).
      exists s1. subst activated. rewrite <- E1, <- E2. tauto.
    - destruct (resetPathIfAbort_first s0 abort_path E4 E5 (Hkeys s0 E1))
        as (s1 & R1 & R2 & R3 & R4 & R5).
      exists s1. unfold invalidated in *. rewrite E1, E2, E3 in R4. tauto. }
  split.
  { destruct (Hreset s eq_refl eq_refl eq_refl eq_refl Hpath) as (s1 & R1 & R2 & R3 & _).
    exists s1. tauto. }
  unfold plan. do 5 mstep. cbn beta zeta.
  rewrite bind_ok with (1 := isValidPath_of_eq _ _).
  change (path_valid _ _) with (path_valid s committed). rewrite Hvalid. cbn [negb].
  mstep.
  match goal with |- context [bind _ _ ?st] => set (s0 := st) end.
  destruct (isNearEndOfLane_ok s0) as [near Hnear].
  destruct (isCurrentVelocityLow_ok s0) as [low Hlow].
  do 2 mstep. cbn beta zeta.
  rewrite bind_ok with (1 := isAbortState_eq _).
  change (in_abort_state _) with (in_abort_state s). rewrite Habort.
  match goal with
  | |- context [if ?c then snd (util.insertStopPoint _ _) else _] =>
      set (stop := c)
  end.
  set (forward := if stop then snd (util.insertStopPoint double_0_1 committed)
                  else committed).
  destruct (Hreset s0 eq_refl eq_refl eq_refl eq_refl Hpath)
    as (s1 & R1 & R2 & _ & (I1 & I2 & I3 & I4 & I5 & I6)).
  rewrite bind_bind. rewrite bind_ok with (1 := R1).
  rewrite bind_bind. mstep. cbn beta.
  rewrite I6. change (is_activated_ s0) with activated.
  set (chosen := if activated then path abort_path else forward).
  assert ((if activated
           then abort_path0 <- deref "abort_path_" (abort_path_ s1);;
                ret (path abort_path0)
           else ret forward) s1 = Ok (chosen, s1)) as Hchosen.
  { subst chosen. destruct activated; [|reflexivity].
    rewrite I5. change (abort_path_ s0) with (abort_path_ s). rewrite Hpath.
    reflexivity. }
  rewrite bind_ok with (1 := Hchosen).
  destruct (generateExtendedDrivableArea_inputs chosen s s1)
    as (published & G & G1); [rewrite I1; reflexivity|rewrite I3; reflexivity ..
                              |rewrite I4; reflexivity|].
  rewrite bind_ok with (1 := G1). cbn zeta.
  assert (Hforward : forward = committed \/
                     forward = snd (util.insertStopPoint double_0_1 committed)).
  { subst forward. destruct stop; auto. }
  assert (L : lane_change_lanes (status_ s1) = lane_change_lanes (status_ s))
    by (rewrite I3; reflexivity).
  assert (P : previous_module_output_ (base s1) = previous_module_output_ (base s))
    by (rewrite I2; reflexivity).
  clearbody forward stop. clear Hreset Hkeys Hchosen G1.
  unfold plan_ready in Hready.
  unfold updateOutputTurnSignal, updateSteeringFactorPtr, waitApprovalLeft,
    waitApprovalRight.
  destruct USE_OLD_ARCHITECTURE.
  - msimpl. cbn.
    repeat match goal with
           | |- context [decide ?P] => destruct (decide P)
           end;
      msimpl; (do 2 eexists); exists forward, published;
      (split; [reflexivity|]); cbn; auto.
  - destruct Hready as [Hlanes [previous Hprevious]].
    msimpl. rewrite L.
    destruct (lane_change_lanes (status_ s)) as [|root lanes] eqn:E; [done|].
    cbn [head]. msimpl. cbn. rewrite P, Hprevious. msimpl. cbn.
    repeat match goal with
           | |- context [decide ?P] => destruct (decide P)
           end;
      msimpl; (do 2 eexists); exists forward, published;
      (split; [reflexivity|]); cbn; auto.
Qed.
End Claims.

(** ** Further properties of the module *)

Lemma bind_inv {S A B} (c : StateM S A) (k : A -> StateM S B) s b s' :
  bind c k s = Ok (b, s') -> exists a s1, c s = Ok (a, s1) /\ k a s1 = Ok (b, s').
Proof.
  unfold bind. destruct (c s) as [[a s1]|f]; [|discriminate]. eauto.
Qed.

Lemma stable_ret P {A} (a : A) : stable P (ret a).
Proof. intros s a' s' HP [= _ <-]. exact HP. Qed.

Lemma stable_bind P {A B} (c : M A) (k : A -> M B) :
  stable P c -> (forall a, stable P (k a)) -> stable P (bind c k).
Proof.
  intros Hc Hk s b s' HP E. apply bind_inv in E as (a & s1 & E1 & E).
  exact (Hk a s1 b s' (Hc s a s1 HP E1) E).
Qed.

Lemma stable_get P : stable P get.
Proof. intros s a s' HP [= _ <-]. exact HP. Qed.

Lemma stable_gets P {A} (f : AvoidanceByLCModule -> A) : stable P (gets f).
Proof. intros s a s' HP [= _ <-]. exact HP. Qed.

Lemma stable_modify (P : AvoidanceByLCModule -> Prop) f :
  (forall s, P s -> P (f s)) -> stable P (modify f).
Proof. intros Hf s a s' HP E. injection E as _ <-. apply Hf, HP. Qed.

Lemma stable_raise P {A} f : stable P (raise (A:=A) f).
Proof. intros s a s' _ E. discriminate. Qed.

Lemma stable_deref P {A} pointer (p : option A) : stable P (deref pointer p).
Proof. destruct p; [apply stable_ret|apply stable_raise]. Qed.

Lemma stable_front P {A} c (v : list A) : stable P (front c v).
Proof. unfold front. destruct (head v); [apply stable_ret|apply stable_raise]. Qed.

Lemma stable_back P {A} c (v : list A) : stable P (back c v).
Proof. unfold back. destruct (last v); [apply stable_ret|apply stable_raise]. Qed.

Lemma stable_at P {A} c (v : list A) i : stable P (at_ c v i).
Proof. unfold at_. destruct (v !! i); [apply stable_ret|apply stable_raise]. Qed.

Lemma stable_mapM P {A B} (f : A -> M B) v :
  (forall a, stable P (f a)) -> stable P (mapM f v).
Proof.
  intros Hf. induction v as [|a v IH]; cbn [mapM]; [apply stable_ret|].
  apply stable_bind; [apply Hf|]. intros b.
  apply stable_bind; [apply IH|]. intros bs. apply stable_ret.
Qed.

Create HintDb stable.

Ltac head_of t := lazymatch t with ?f _ => head_of f | _ => t end.

(** One step through a computation; [tac] settles the goal [P (f s)] of an
    assignment from the hypothesis [P s].  A member function is entered
    unless a hint settles it. *)
Ltac stable_step tac :=
  lazy zeta;
  lazymatch goal with
  | |- stable _ (bind _ _) => apply stable_bind; [|intros ?]
  | |- stable _ (ret _) => apply stable_ret
  | |- stable _ get => apply stable_get
  | |- stable _ (gets _) => apply stable_gets
  | |- stable _ (modify _) => apply stable_modify; intros ? ?; tac
  | |- stable _ (raise _) => apply stable_raise
  | |- stable _ (deref _ _) => apply stable_deref
  | |- stable _ (front _ _) => apply stable_front
  | |- stable _ (back _ _) => apply stable_back
  | |- stable _ (at_ _ _ _) => apply stable_at
  | |- stable _ (mapM _ _) => apply stable_mapM; intros ?
  | |- stable _ (if ?b then _ else _) => destruct b
  | |- stable _ (match ?x with _ => _ end) => destruct x
  | |- stable _ ?c =>
      first [ solve [auto 1 with stable nocore]
            | let h := head_of c in unfold h ]
  end.
Ltac stable_all tac := repeat stable_step tac.

(** [run] keeps what each call keeps. *)
Lemma stable_run `{Build, util.ops, util_lane_change.ops, lanelet_utils.ops,
                   motion_utils.ops, marker_utils.ops, rtc.ops}
    (P : AvoidanceByLCModule -> Prop) (allowed : Call -> Prop) calls :
  (forall c, allowed c -> stable P (perform c)) ->
  Forall allowed calls -> stable P (run calls).
Proof.
  intros Hc. induction 1 as [|c calls Hallowed _ IH]; cbn [run]; [apply stable_ret|].
  apply stable_bind; [apply Hc, Hallowed|]. intros _. exact IH.
Qed.

Section Checks.
Context `{Build, util.ops, util_lane_change.ops, lanelet_utils.ops,
          motion_utils.ops, marker_utils.ops, rtc.ops}.

Lemma current_lanes_of_build_pure s lanes s' :
  current_lanes_of_build s = Ok (lanes, s') -> s' = s.
Proof.
  unfold current_lanes_of_build. msimpl.
  destruct USE_OLD_ARCHITECTURE; [congruence|].
  destruct (BehaviorModuleOutput.reference_path _); [congruence|discriminate].
Qed.

(** X1: [isValidPath(path)] never faults and leaves the object as it is; it
    returns true exactly for a path whose every point lies in one of the
    drivable lanelets and whose relative angles pass
    [util::checkPathRelativeAngle]. *)
Theorem isValidPath_accepts_exactly p s :
  exists valid,
    isValidPath_of p s = Ok (valid, s) /\
    (valid = true <->
     (forall q, In q (points p) ->
        exists lanelet, In lanelet (drivable_lanelets s) /\
                        lanelet_utils.isInLanelet (pose (point q)) lanelet = true) /\
     util.checkPathRelativeAngle p M_PI = true).
Proof.
  exists (path_valid s p). split; [apply isValidPath_of_eq|].
  unfold path_valid, is_in_lanelet.
  rewrite andb_true_iff, forallb_forall.
  split; intros [Hin Hangle]; (split; [|exact Hangle]); intros q Hq;
    apply existsb_exists; apply Hin, Hq.
Qed.

Lemma getSafePath_inv s lanes check_distance safe_path valid safe selected s' :
  getSafePath lanes check_distance safe_path s = Ok (valid, safe, selected, s') ->
  (safe = true -> valid = true) /\
  (valid = false -> safe = false /\ selected = safe_path) /\
  (valid = true -> In selected (debug_valid_path_ s') /\
                   lanes <> [] /\ target_objects_of s <> []).
Proof.
  unfold getSafePath, target_objects_of. intros E.
  apply bind_inv in E as (current & s1 & E1 & E).
  apply current_lanes_of_build_pure in E1 as ->.
  destruct lanes as [|l lanes]; [injection E as <- <- <- <-; repeat split; try done|].
  cbn [empty] in E. apply bind_inv in E as (s1' & s1'' & [= <- <-] & E).
  destruct (AvoidancePlanningData.target_objects (avoidance_data_ s)) as [|o v] eqn:Et;
    [injection E as <- <- <- <-; repeat split; try done|].
  cbn [empty] in E.
  apply bind_inv in E as ([found_safe_path valid_paths] & s2 & E2 & E).
  cbn [fst snd] in E.
  apply bind_inv in E as ([] & s3 & [= <-] & E).
  apply bind_inv in E as ([] & s4 & E4 & E).
  assert (debug_valid_path_ s4 = valid_paths) as Hdebug.
  { destruct (publish_debug_marker _).
    - destruct (setObjectDebugVisualization_ok (set_debug_valid_path_ valid_paths s2))
        as [m Hm]. rewrite Hm in E4. injection E4 as <-. reflexivity.
    - injection E4 as <-. reflexivity. }
  destruct valid_paths as [|p ps]; [injection E as <- <- <- <-; repeat split; try done|].
  cbn [empty] in E. destruct found_safe_path.
  - unfold back in E. destruct (last (p :: ps)) as [q|] eqn:Hlast; [|discriminate].
    injection E as <- <- <- <-. repeat split; try done.
    rewrite Hdebug. apply last_Some_elem_of in Hlast. apply list_elem_of_In, Hlast.
  - injection E as <- <- <- <-. repeat split; try done.
    rewrite Hdebug. left. reflexivity.
Qed.

(** X2: [getSafePath] reports a safe path only together with a valid one.
    When it reports no valid path it reports no safe one either and leaves
    the reference [safe_path] as it was passed; when it reports a valid
    path, that path is one of the candidates recorded in
    [debug_valid_path_], and neither the lanes passed nor the target objects
    are empty. *)
Theorem getSafePath_safe_only_with_valid
    s lanes check_distance safe_path valid safe selected s' :
  getSafePath lanes check_distance safe_path s = Ok (valid, safe, selected, s') ->
  (safe = true -> valid = true) /\
  (valid = false -> safe = false /\ selected = safe_path) /\
  (valid = true -> In selected (debug_valid_path_ s') /\
                   lanes <> [] /\ target_objects_of s <> []).
Proof. apply getSafePath_inv. Qed.

(** The lanes of [lanes_of_first_neighbour]. *)
Lemma lanes_of_first_neighbour_inv neighbour sequence check :
  lanes_of_first_neighbour neighbour sequence check [] = [] \/
  exists before lanelet after lane,
    check = before ++ lanelet :: after /\
    Forall (fun l => neighbour l = None) before /\
    neighbour lanelet = Some lane /\
    lanes_of_first_neighbour neighbour sequence check [] = sequence lane.
Proof.
  induction check as [|l check IH]; cbn; [left; reflexivity|].
  destruct (neighbour l) as [lane|] eqn:E.
  - right. exists [], l, check, lane. repeat split; [constructor|exact E].
  - destruct IH as [IH|(before & lanelet & after & lane & -> & Hb & Hn & Hr)];
      [left; exact IH|].
    right. exists (l :: before), lanelet, after, lane.
    repeat split; [constructor; assumption|exact Hn|exact Hr].
Qed.

Lemma getLaneChangeLanes_pure s current len lanes s' :
  getLaneChangeLanes current len s = Ok (lanes, s') -> s' = s.
Proof.
  unfold getLaneChangeLanes. msimpl.
  destruct (empty current); [congruence|].
  destruct (_ <? _)%nat; [congruence|].
  destruct (head _); [|discriminate]. msimpl.
  destruct (util.isOnRight _); congruence.
Qed.

(** X3: the only fault of [getLaneChangeLanes] is [front()] of an empty
    [target_objects]; it occurs exactly when the current lanes are not
    empty, there is no target object and [execute_object_num] is 0.  When
    the function returns, the object is as it was. *)
Theorem getLaneChangeLanes_front_of_no_object s current_lanes lane_change_lane_length :
  (forall f,
     getLaneChangeLanes current_lanes lane_change_lane_length s = Raise f <->
     f = empty_vector "target_objects" /\
     current_lanes <> [] /\ target_objects_of s = [] /\
     execute_object_num (parameters_ s) = 0%nat) /\
  (forall lanes s',
     getLaneChangeLanes current_lanes lane_change_lane_length s = Ok (lanes, s') ->
     s' = s).
Proof.
  split; [|intros lanes s'; apply getLaneChangeLanes_pure].
  intros f. unfold getLaneChangeLanes, target_objects_of. msimpl.
  destruct current_lanes as [|c cl]; cbn [empty]; [split; [discriminate|tauto]|].
  destruct (AvoidancePlanningData.target_objects (avoidance_data_ s)) as [|o v];
    cbn [length head].
  - destruct (execute_object_num (parameters_ s)) as [|n]; cbn.
    + split; [intros [= <-]; done|]. intros (-> & _). reflexivity.
    + split; [discriminate|]. intros (_ & _ & _ & ?). discriminate.
  - destruct (_ <? _)%nat; [split; [discriminate|intros (_ & _ & ? & _); discriminate]|].
    destruct (util.isOnRight o);
      (split; [discriminate|intros (_ & _ & ? & _); discriminate]).
Qed.

(** X4: the lanes that [getLaneChangeLanes] returns are empty or the lanelet
    sequence of a neighbour on the side away from the front object: a left
    neighbour when the object is on the right, a right neighbour
    otherwise. *)
Theorem getLaneChangeLanes_away_from_front_object
    s current_lanes lane_change_lane_length o_front rest lanes s' :
  target_objects_of s = o_front :: rest ->
  getLaneChangeLanes current_lanes lane_change_lane_length s = Ok (lanes, s') ->
  let handler := route_handler (planner_data_ (base s)) in
  let neighbour :=
    if util.isOnRight o_front then routing_left handler else routing_right handler in
  lanes = [] \/
  exists lanelet lane,
    neighbour lanelet = Some lane /\
    lanes = getLaneletSequence handler lane (ego_pose_of s)
              lane_change_lane_length lane_change_lane_length.
Proof.
  unfold target_objects_of, ego_pose_of. intros Et E. cbv zeta.
  unfold getLaneChangeLanes in E. msimpl in E. rewrite Et in E. cbn [head] in E.
  destruct (empty current_lanes); [injection E as <- _; left; reflexivity|].
  destruct (_ <? _)%nat; [injection E as <- _; left; reflexivity|].
  msimpl in E.
  destruct (util.isOnRight o_front); injection E as <- _;
    match goal with
    | |- lanes_of_first_neighbour ?n ?q ?c [] = [] \/ _ =>
        destruct (lanes_of_first_neighbour_inv n q c)
          as [E|(before & lanelet & after & lane & _ & _ & Hn & E)]
    end; rewrite E; eauto.
Qed.

Lemma debug_only_getSafePath v lanes d p :
  stable (fun s => without_debug s = v) (getSafePath lanes d p).
Proof. stable_all ltac:(assumption). Qed.

(** X5: [isExecutionRequested] and [isExecutionReady] write no member but the
    three [mutable] debug members [object_debug_], [debug_valid_path_] and
    [debug_marker_]. *)
Theorem execution_checks_write_debug_members_only s :
  (forall requested s',
     isExecutionRequested s = Ok (requested, s') -> without_debug s' = without_debug s) /\
  (forall ready s',
     isExecutionReady s = Ok (ready, s') -> without_debug s' = without_debug s).
Proof.
  split; intros b s' E.
  - assert (stable (fun s0 => without_debug s0 = without_debug s) isExecutionRequested)
      as Hs by stable_all ltac:(assumption).
    exact (Hs s b s' eq_refl E).
  - assert (stable (fun s0 => without_debug s0 = without_debug s) isExecutionReady)
      as Hs by stable_all ltac:(assumption).
    exact (Hs s b s' eq_refl E).
Qed.

Lemma gates_inv s s1 current lanes valid safe selected s' :
  current_lanes_of_build s = Ok (current, s1) ->
  getLaneChangeLanes current (lane_change_lane_length_ s) s1 = Ok (lanes, s1) ->
  getSafePath lanes (check_distance_ s) LaneChangePath_default s1
  = Ok (valid, safe, selected, s') ->
  valid = true ->
  In selected (debug_valid_path_ s') /\
  (execute_object_num (parameters_ s) <= length (target_objects_of s))%nat.
Proof.
  intros E1 E2 E3 ->. apply current_lanes_of_build_pure in E1 as ->.
  apply getSafePath_inv in E3 as (_ & _ & Hv).
  destruct (Hv eq_refl) as (Hin & Hlanes & Htargets). split; [exact Hin|].
  unfold getLaneChangeLanes in E2. msimpl in E2.
  destruct (empty current); [injection E2 as <-; done|].
  unfold target_objects_of.
  destruct (_ <? _)%nat eqn:En; [injection E2 as <-; done|].
  apply Nat.ltb_ge in En. exact En.
Qed.

Lemma isExecutionRequested_inv s s' :
  current_state_ (base s) <> RUNNING ->
  isExecutionRequested s = Ok (true, s') ->
  exists o_front rest selected,
    target_objects_of s = o_front :: rest /\
    (execute_object_num (parameters_ s) <= length (target_objects_of s))%nat /\
    execute_object_longitudinal_margin (parameters_ s) <= longitudinal o_front /\
    In selected (debug_valid_path_ s') /\
    (execute_only_when_lane_change_finish_before_object (parameters_ s) = true ->
     motion_utils.calcSignedArcLength (points (path selected))
       (position (ego_pose_of s)) (position (end_ (shift_line selected)))
     < longitudinal o_front).
Proof.
  intros Hstate E. unfold isExecutionRequested in E.
  apply bind_inv in E as (s0 & s0' & [= <- <-] & E).
  destruct (decide (current_state_ (base s) = RUNNING)); [done|].
  apply bind_inv in E as (current & s1 & E1 & E).
  apply bind_inv in E as (lanes & s2 & E2 & E).
  pose proof (getLaneChangeLanes_pure _ _ _ _ _ E2) as ->.
  apply bind_inv in E as ([[valid safe] selected] & s3 & E3 & E).
  cbn [fst snd] in E.
  destruct valid; cbn [negb] in E; [|discriminate].
  destruct (gates_inv s s1 current lanes true safe selected s3 E1 E2 E3 eq_refl)
    as [Hin Hnum].
  assert (s1 = s) as -> by (eapply current_lanes_of_build_pure; eassumption).
  assert (without_debug s3 = without_debug s) as Hd.
  { exact (debug_only_getSafePath _ _ _ _ s _ s3 eq_refl E3). }
  unfold target_objects_of in *.
  destruct (_ <? _)%nat; [discriminate|].
  destruct (AvoidancePlanningData.target_objects (avoidance_data_ s)) as [|o v];
    [discriminate|].
  msimpl in E. cbn [head] in E.
  destruct (Qgtb _ (longitudinal o)) eqn:Em; [discriminate|].
  apply Qltb_ge in Em.
  match type of E with
  | (if ?c then _ else _) _ = _ => destruct c eqn:Ec; [discriminate|]
  end.
  injection E as <-.
  exists o, v, selected. split; [reflexivity|]. split; [exact Hnum|].
  split; [exact Em|]. split; [exact Hin|].
  intros Hflag. rewrite Hflag, andb_true_r, negb_false_iff in Ec.
  apply Qltb_lt in Ec. rename Ec into Ee.
  unfold ego_pose_of.
  replace (planner_data_ (base s)) with (planner_data_ (base s3)); [exact Ee|].
  exact (f_equal (fun x => planner_data_ (base x)) Hd).
Qed.

(** X6: a module that is not [RUNNING] requests execution only if there are
    at least [execute_object_num] target objects, the front one is not
    closer than [execute_object_longitudinal_margin], a candidate path is
    selected and, when [execute_only_when_lane_change_finish_before_object]
    is set, the selected lane change ends before the front object. *)
Theorem isExecutionRequested_only_if s s' :
  current_state_ (base s) <> RUNNING ->
  isExecutionRequested s = Ok (true, s') ->
  exists o_front rest selected,
    target_objects_of s = o_front :: rest /\
    (execute_object_num (parameters_ s) <= length (target_objects_of s))%nat /\
    execute_object_longitudinal_margin (parameters_ s) <= longitudinal o_front /\
    In selected (debug_valid_path_ s') /\
    (execute_only_when_lane_change_finish_before_object (parameters_ s) = true ->
     motion_utils.calcSignedArcLength (points (path selected))
       (position (ego_pose_of s)) (position (end_ (shift_line selected)))
     < longitudinal o_front).
Proof. apply isExecutionRequested_inv. Qed.

Lemma updateData_sorted s s' :
  updateData s = Ok (tt, s') -> Sorted longitudinal_le (target_objects_of s').
Proof.
  unfold updateData, bind, modify, get.
  destruct (calcAvoidancePlanningData _ _) as [[r s1]|f]; [|discriminate].
  intros E. injection E as <-. cbn. apply std_sort_Sorted.
Qed.

(** X7: after [updateData], a module that is not [RUNNING] requests execution
    only if there is a target object and no target object at all is closer
    than [execute_object_longitudinal_margin]: the front object that
    [isExecutionRequested] checks is the nearest one. *)
Theorem execution_requested_beyond_margin s s1 s2 :
  updateData s = Ok (tt, s1) ->
  current_state_ (base s1) <> RUNNING ->
  isExecutionRequested s1 = Ok (true, s2) ->
  target_objects_of s1 <> [] /\
  Forall (fun o => execute_object_longitudinal_margin (parameters_ s1) <= longitudinal o)
    (target_objects_of s1).
Proof.
  intros Hdata Hstate Hreq.
  apply updateData_sorted in Hdata.
  destruct (isExecutionRequested_inv s1 s2 Hstate Hreq)
    as (o_front & rest & _ & Ht & _ & Hmargin & _).
  rewrite Ht in *. split; [discriminate|].
  apply Forall_forall. intros o Hin. apply list_elem_of_In in Hin.
  pose proof (Sorted_head_le o o_front rest Hdata Hin). lra.
Qed.

(** X8: a module that is not [RUNNING] is ready for execution only if there
    are at least [execute_object_num] target objects, at least one, and the
    search has recorded a candidate path. *)
Theorem isExecutionReady_only_if s s' :
  current_state_ (base s) <> RUNNING ->
  isExecutionReady s = Ok (true, s') ->
  (execute_object_num (parameters_ s) <= length (target_objects_of s))%nat /\
  target_objects_of s <> [] /\
  debug_valid_path_ s' <> [].
Proof.
  intros Hstate E. unfold isExecutionReady in E.
  apply bind_inv in E as (s0 & s0' & [= <- <-] & E).
  destruct (decide (current_state_ (base s) = RUNNING)); [done|].
  apply bind_inv in E as (current & s1 & E1 & E).
  apply bind_inv in E as (lanes & s2 & E2 & E).
  pose proof (getLaneChangeLanes_pure _ _ _ _ _ E2) as ->.
  apply bind_inv in E as ([[valid safe] selected] & s3 & E3 & E).
  cbn [fst snd] in E. injection E as -> <-.
  pose proof (getSafePath_inv _ _ _ _ _ _ _ _ E3) as (Hv & _ & Hvalid).
  specialize (Hv eq_refl) as ->.
  destruct (gates_inv s s1 current lanes true true selected s3 E1 E2 E3 eq_refl)
    as [Hin Hnum].
  assert (s1 = s) as -> by (eapply current_lanes_of_build_pure; eassumption).
  destruct (Hvalid eq_refl) as (_ & _ & Ht).
  split; [exact Hnum|]. split; [exact Ht|].
  intros Hnil. rewrite Hnil in Hin. destruct Hin.
Qed.
End Checks.

Ltac settle :=
  cbn; intuition (try discriminate; try congruence; eauto).

Section StateMachine.
Context `{Build, util.ops, util_lane_change.ops, lanelet_utils.ops,
          motion_utils.ops, marker_utils.ops, rtc.ops}.

Lemma isApprovedPathSafe_inv pose s :
  (target_lanelets (lane_change_path (status_ s)) = [] /\
   isApprovedPathSafe pose s = Raise (empty_vector "target_lanelets")) \/
  (target_lanelets (lane_change_path (status_ s)) <> [] /\
   exists r, isApprovedPathSafe pose s = Ok (r, s)).
Proof.
  unfold isApprovedPathSafe. msimpl.
  destruct (target_lanelets _) as [|t ts]; cbn [head].
  - left. split; reflexivity.
  - right. split; [discriminate|]. eexists. reflexivity.
Qed.

Lemma isAbortConditionSatisfied_inv s satisfied s' :
  isAbortConditionSatisfied s = Ok (satisfied, s') ->
  let within :=
    util_lane_change.isEgoWithinOriginalLane (current_lanes (status_ s))
      (ego_pose_of s) (parameters (planner_data_ (base s))) in
  is_abort_condition_satisfied_ s' = false /\
  match current_lane_change_state_ s' with
  | Normal => satisfied = false
  | Cancel => satisfied = true /\ within = true
  | Stop => satisfied = enable_abort_lane_change (lane_change (parameters_ s)) /\
            within = false
  | Abort => satisfied = true /\ within = false /\
             enable_abort_lane_change (lane_change (parameters_ s)) = true
  end /\
  is_abort_path_approved_ s' = is_abort_path_approved_ s /\
  (current_lane_change_state_ s' = Abort -> is_abort_path_approved_ s = false ->
   is_Some (abort_path_ s')) /\
  (current_lane_change_state_ s' <> Abort \/ is_abort_path_approved_ s = true ->
   abort_path_ s' = abort_path_ s) /\
  base s' = base s /\ status_ s' = status_ s /\ parameters_ s' = parameters_ s.
Proof.
  unfold isAbortConditionSatisfied, ego_pose_of. intros E. cbv zeta.
  apply bind_inv in E as ([] & s1 & [= <-] & E).
  apply bind_inv in E as ([] & s2 & [= <-] & E).
  apply bind_inv in E as (s0 & s3 & [= <- <-] & E).
  cbn [parameters_ set_current_lane_change_state_ set_is_abort_condition_satisfied_
       is_activated_ is_abort_path_approved_ base status_] in E.
  destruct (enable_cancel_lane_change _); cbn [negb] in E;
    [|injection E as <- <-; settle].
  destruct (is_activated_ s); cbn [negb] in E; [|injection E as <- <-; settle].
  apply bind_inv in E as ([is_path_safe pose] & s4 & E4 & E).
  destruct (isApprovedPathSafe_inv Pose_zero
              (set_current_lane_change_state_ Normal
                 (set_is_abort_condition_satisfied_ false s)))
    as [[_ Ef]|[_ [r Er]]]; [congruence|].
  rewrite Er in E4. injection E4 as -> <-. cbn [fst snd] in E.
  destruct is_path_safe; cbn [negb] in E; [injection E as <- <-; settle|].
  apply bind_inv in E as (ego & s5 & [= <- <-] & E). cbv zeta in E.
  cbn [parameters_ set_current_lane_change_state_ set_is_abort_condition_satisfied_
       is_activated_ is_abort_path_approved_ base status_] in E.
  destruct (util_lane_change.isEgoWithinOriginalLane _ _ _).
  { apply bind_inv in E as ([] & s6 & [= <-] & E). injection E as <- <-. settle. }
  destruct (enable_abort_lane_change (lane_change (parameters_ s))) eqn:Hflag;
    cbn [negb] in E.
  2:{ apply bind_inv in E as ([] & s6 & [= <-] & E). injection E as <- <-. settle. }
  destruct (util_lane_change.getAbortPaths _ _ _ _ _) as [found|];
    destruct (is_abort_path_approved_ s) eqn:Happroved; cbn [negb andb] in E.
  - apply bind_inv in E as ([] & s6 & [= <-] & E).
    apply bind_inv in E as ([] & s7 & [= <-] & E). injection E as <- <-. settle.
  - apply bind_inv in E as ([] & s6 & [= <-] & E).
    apply bind_inv in E as ([] & s7 & [= <-] & E). injection E as <- <-. settle.
  - change (bool_decide (is_Some None)) with false in E. cbn [negb andb] in E.
    apply bind_inv in E as ([] & s6 & [= <-] & E).
    apply bind_inv in E as ([] & s7 & [= <-] & E). injection E as <- <-. settle.
  - change (bool_decide (is_Some None)) with false in E. cbn [negb andb] in E.
    apply bind_inv in E as ([] & s6 & [= <-] & E). injection E as <- <-. settle.
Qed.

(** X9: what [isAbortConditionSatisfied] leaves when it returns.  The flag
    [is_abort_condition_satisfied_] is false.  The sub-state tells the
    result: [Normal] comes with false; [Cancel] with true and the ego within
    its original lane; [Abort] with true, the ego outside the lane and abort
    enabled; [Stop] with the ego outside the lane and the result
    [enable_abort_lane_change].  [abort_path_] is assigned only on entering
    [Abort] with no abort path approved, and is then not null; an approved
    abort path is never replaced.  [is_abort_path_approved_], the base
    object, the status and the parameters are not written. *)
Theorem isAbortConditionSatisfied_outcome s satisfied s' :
  isAbortConditionSatisfied s = Ok (satisfied, s') ->
  let within :=
    util_lane_change.isEgoWithinOriginalLane (current_lanes (status_ s))
      (ego_pose_of s) (parameters (planner_data_ (base s))) in
  is_abort_condition_satisfied_ s' = false /\
  match current_lane_change_state_ s' with
  | Normal => satisfied = false
  | Cancel => satisfied = true /\ within = true
  | Stop => satisfied = enable_abort_lane_change (lane_change (parameters_ s)) /\
            within = false
  | Abort => satisfied = true /\ within = false /\
             enable_abort_lane_change (lane_change (parameters_ s)) = true
  end /\
  is_abort_path_approved_ s' = is_abort_path_approved_ s /\
  (current_lane_change_state_ s' = Abort -> is_abort_path_approved_ s = false ->
   is_Some (abort_path_ s')) /\
  (current_lane_change_state_ s' <> Abort \/ is_abort_path_approved_ s = true ->
   abort_path_ s' = abort_path_ s) /\
  base s' = base s /\ status_ s' = status_ s /\ parameters_ s' = parameters_ s.
Proof. apply isAbortConditionSatisfied_inv. Qed.

(** X10: [isAbortConditionSatisfied] faults exactly when cancelling is enabled,
    the module is activated and [target_lanelets] of the committed path is
    empty: [isApprovedPathSafe] then reads [front()] of it.  There is no
    other fault: the optional abort path found is never dereferenced when it
    is empty. *)
Theorem isAbortConditionSatisfied_faults s f :
  isAbortConditionSatisfied s = Raise f <->
  f = empty_vector "target_lanelets" /\
  enable_cancel_lane_change (lane_change (parameters_ s)) = true /\
  is_activated_ s = true /\
  target_lanelets (lane_change_path (status_ s)) = [].
Proof.
  unfold isAbortConditionSatisfied.
  do 3 mstep.
  cbn [parameters_ set_current_lane_change_state_ set_is_abort_condition_satisfied_
       is_activated_ is_abort_path_approved_ base status_].
  destruct (enable_cancel_lane_change _); cbn [negb];
    [|split; [discriminate|intros (_ & ? & _); discriminate]].
  destruct (is_activated_ s); cbn [negb];
    [|split; [discriminate|intros (_ & _ & ? & _); discriminate]].
  destruct (isApprovedPathSafe_inv Pose_zero
              (set_current_lane_change_state_ Normal
                 (set_is_abort_condition_satisfied_ false s)))
    as [[Ht Ef]|[Ht [[is_path_safe pose] Er]]]; cbn [status_] in Ht.
  - rewrite bind_raise with (1 := Ef). split; [intros [= <-]; tauto|].
    intros (-> & _). reflexivity.
  - rewrite bind_ok with (1 := Er). cbn [fst snd].
    assert (forall (r : Result (bool * AvoidanceByLCModule)),
              (exists v, r = Ok v) ->
              r = Raise f <-> f = empty_vector "target_lanelets" /\ true = true /\
                              true = true /\
                              target_lanelets (lane_change_path (status_ s)) = [])
      as Hok.
    { intros r [v ->]. split; [discriminate|]. intros (_ & _ & _ & ?). done. }
    apply Hok.
    destruct is_path_safe; cbn [negb]; [eexists; reflexivity|].
    mstep. cbv zeta.
    destruct (util_lane_change.isEgoWithinOriginalLane _ _ _);
      [eexists; reflexivity|].
    cbn [parameters_ base status_].
    destruct (enable_abort_lane_change _); cbn [negb]; [|eexists; reflexivity].
    destruct (util_lane_change.getAbortPaths _ _ _ _ _) as [found|];
      destruct (is_abort_path_approved_ s); eexists; reflexivity.
Qed.

Lemma wp_any {S A} (c : StateM S A) (Q : A -> S -> Prop) s :
  (forall a s', Q a s') -> wp c Q (fun _ => True) s.
Proof. intros HQ. unfold wp. destruct (c s) as [[a s']|f]; auto. Qed.

Lemma set_current_state_stores v s :
  set_current_state v s = Ok (v, set_base (set_current_state_ v (base s)) s).
Proof. reflexivity. Qed.

(** X11: [updateState] returns the status that it has stored in
    [current_state_], and that status is never [IDLE]. *)
Theorem updateState_returns_stored_status s status s' :
  updateState s = Ok (status, s') ->
  current_state_ (base s') = status /\ status <> IDLE.
Proof.
  intros E.
  assert (forall v, v <> IDLE ->
            forall s0, wp (set_current_state v)
                         (fun status s' => current_state_ (base s') = status /\
                                           status <> IDLE)
                         (fun _ => True) s0) as Hset.
  { intros v Hv s0. unfold wp. rewrite set_current_state_stores. cbn. auto. }
  cut (wp updateState
         (fun status s' => current_state_ (base s') = status /\ status <> IDLE)
         (fun _ => True) s); [intros Hw; exact (wp_ok _ _ _ _ _ _ Hw E)|].
  clear E. unfold updateState.
  repeat first
    [ apply Hset; discriminate
    | apply wp_bind; apply wp_any; intros ? ?
    | match goal with
      | |- wp (if ?b then _ else _) _ _ _ => destruct b
      end
    | progress cbv zeta ].
Qed.

Lemma isAbortConditionSatisfied_without_cancel s :
  enable_cancel_lane_change (lane_change (parameters_ s)) = false ->
  isAbortConditionSatisfied s
  = Ok (false, set_current_lane_change_state_ Normal
                 (set_is_abort_condition_satisfied_ false s)).
Proof.
  intros E. unfold isAbortConditionSatisfied. do 3 mstep.
  cbn [parameters_ set_current_lane_change_state_ set_is_abort_condition_satisfied_].
  rewrite E. reflexivity.
Qed.

(** X12: with a valid path, not waiting for approval and with
    [enable_cancel_lane_change] off, [updateState] never faults and never
    fails the module: it returns [SUCCESS] exactly when the ego is not
    aborting outside its lane and the distance travelled is greater than
    the finish distance, and [RUNNING] otherwise.  Both distances are the
    [double]s that [hasFinishedLaneChange] computes: the arc length less
    [start_distance], and the sum of the two lengths of the committed path
    plus [lane_change_finish_judge_buffer], each operation rounded. *)
Theorem updateState_without_cancel s :
  is_valid_path (status_ s) = true ->
  is_waiting_approval_ (base s) = false ->
  enable_cancel_lane_change (lane_change (parameters_ s)) = false ->
  let within :=
    util_lane_change.isEgoWithinOriginalLane (current_lanes (status_ s))
      (ego_pose_of s) (parameters (planner_data_ (base s))) in
  let travel_distance :=
    double.sub
      (arc_length (lanelet_utils.getArcCoordinates (lane_change_lanes (status_ s))
                     (ego_pose_of s)))
      (start_distance (status_ s)) in
  let finish_distance :=
    double.add
      (double.add (prepare (length_ (lane_change_path (status_ s))))
                  (lane_changing (length_ (lane_change_path (status_ s)))))
      (lane_change_finish_judge_buffer (lane_change (parameters_ s))) in
  exists status s',
    updateState s = Ok (status, s') /\
    (status = SUCCESS \/ status = RUNNING) /\
    (status = SUCCESS <->
     ~ (in_abort_state s = true /\ within = false) /\
     double.gtb travel_distance finish_distance = true).
Proof.
  intros Hvalid Hwait Hcancel. cbv zeta. unfold ego_pose_of.
  unfold updateState. mstep. cbn beta. rewrite Hvalid. cbn [negb].
  do 2 mstep. cbn beta zeta. rewrite Hwait. mstep. cbn beta zeta.
  rewrite bind_ok with (1 := isAbortState_eq _).
  destruct (in_abort_state s) eqn:Ea; cbn [andb].
  - destruct (util_lane_change.isEgoWithinOriginalLane _ _ _) eqn:Ew; cbn [negb].
    + rewrite bind_ok with (1 := isAbortConditionSatisfied_without_cancel s Hcancel).
      unfold hasFinishedLaneChange, sum. msimpl. cbn.
      match goal with
      | |- context [double.gtb ?a ?b] => destruct (double.gtb a b) eqn:Ef
      end.
      * do 2 eexists. split; [reflexivity|]. split; [auto|].
        split; [|reflexivity]. intros _. split; [intros [_ ?]; discriminate|reflexivity].
      * do 2 eexists. split; [reflexivity|]. split; [auto|].
        split; [discriminate|]. intros [_ ?]. discriminate.
    + do 2 eexists. split; [reflexivity|]. split; [auto|].
      split; [discriminate|]. intros [Hn _]. destruct Hn. auto.
  - rewrite bind_ok with (1 := isAbortConditionSatisfied_without_cancel s Hcancel).
    unfold hasFinishedLaneChange, sum. msimpl. cbn.
    match goal with
    | |- context [double.gtb ?a ?b] => destruct (double.gtb a b) eqn:Ef
    end.
    + do 2 eexists. split; [reflexivity|]. split; [auto|].
      split; [|reflexivity]. intros _. split; [intros [? _]; discriminate|reflexivity].
    + do 2 eexists. split; [reflexivity|]. split; [auto|].
      split; [discriminate|]. intros [_ ?]. discriminate.
Qed.

Lemma hasFinishedLaneChange_ok s :
  exists finished, hasFinishedLaneChange s = Ok (finished, s).
Proof. unfold hasFinishedLaneChange. msimpl. eexists. reflexivity. Qed.

(** X13: with a valid path and not waiting for approval, an [updateState] that
    leaves the sub-state [Abort] returns [RUNNING]; it returns [FAILURE]
    only with the sub-state [Cancel], the ego within its original lane. *)
Theorem updateState_aborting_keeps_running s status s' :
  is_valid_path (status_ s) = true ->
  is_waiting_approval_ (base s) = false ->
  updateState s = Ok (status, s') ->
  (current_lane_change_state_ s' = Abort -> status = RUNNING) /\
  (status = FAILURE ->
   current_lane_change_state_ s' = Cancel /\
   util_lane_change.isEgoWithinOriginalLane (current_lanes (status_ s))
     (ego_pose_of s) (parameters (planner_data_ (base s))) = true).
Proof.
  intros Hvalid Hwait. unfold ego_pose_of. unfold updateState. mstep. cbn beta.
  rewrite Hvalid. cbn [negb]. do 2 mstep. cbn beta zeta. rewrite Hwait. mstep.
  cbn beta zeta. rewrite bind_ok with (1 := isAbortState_eq _).
  set (within := util_lane_change.isEgoWithinOriginalLane _ _ _).
  destruct (in_abort_state s && negb within) eqn:Ea.
  { intros [= <- <-]. split; [reflexivity|discriminate]. }
  intros E. apply bind_inv in E as (satisfied & s1 & E1 & E).
  pose proof (isAbortConditionSatisfied_inv s satisfied s1 E1)
    as (_ & Hstate & _ & _ & _ & _ & _ & _).
  cbv zeta in Hstate. unfold ego_pose_of in Hstate. fold within in Hstate.
  destruct satisfied.
  - destruct (isNearEndOfLane_ok s1) as [near Hnear].
    destruct (isCurrentVelocityLow_ok s1) as [low Hlow].
    rewrite bind_ok with (1 := Hnear), bind_ok with (1 := Hlow) in E.
    destruct (near && low || negb within) eqn:Ec; injection E as <- <-; cbn.
    + split; [reflexivity|discriminate].
    + apply orb_false_iff in Ec as [_ Ew]. apply negb_false_iff in Ew.
      destruct (current_lane_change_state_ s1); split; intros; try done;
        intuition congruence.
  - destruct (hasFinishedLaneChange_ok s1) as [finished Hf].
    rewrite bind_ok with (1 := Hf) in E.
    destruct finished; injection E as <- <-; cbn;
      (split; [|discriminate]);
      destruct (current_lane_change_state_ s1); intros; try done;
        intuition congruence.
Qed.

Lemma flag_perform c :
  stable (fun s => is_abort_condition_satisfied_ s = false) (perform c).
Proof.
  destruct c; cbn [perform]; stable_all ltac:(first [assumption|reflexivity]).
Qed.

(** X14: no function of the module sets [is_abort_condition_satisfied_], the
    flag that [plan] reads before it inserts a stop point: once false, it is
    false after every sequence of calls. *)
Theorem abort_condition_flag_is_never_raised calls s s' :
  is_abort_condition_satisfied_ s = false ->
  run calls s = Ok (tt, s') ->
  is_abort_condition_satisfied_ s' = false.
Proof.
  intros Hs E.
  refine (stable_run (fun s0 => is_abort_condition_satisfied_ s0 = false)
            (fun _ => True) calls _ _ s tt s' Hs E).
  - intros c _. apply flag_perform.
  - apply Forall_forall. auto.
Qed.

Lemma valid_path_perform c v :
  c <> call_plan ->
  stable (fun s => is_valid_path (status_ s) = v) (perform c).
Proof.
  destruct c; cbn [perform]; intros Hc; try done;
    stable_all ltac:(assumption).
Qed.

(** X15: [status_.is_valid_path] is assigned by [plan] alone: every other
    call, leaving and entering the module included, keeps it; after a path
    was rejected, [updateState] therefore ends the module with [SUCCESS]
    until [plan] runs again. *)
Theorem only_plan_assigns_is_valid_path calls s s' :
  Forall (fun c => c <> call_plan) calls ->
  run calls s = Ok (tt, s') ->
  is_valid_path (status_ s') = is_valid_path (status_ s) /\
  (is_valid_path (status_ s) = false ->
   updateState s' = Ok (SUCCESS, set_base (set_current_state_ SUCCESS (base s')) s')).
Proof.
  intros Hcalls E.
  assert (is_valid_path (status_ s') = is_valid_path (status_ s)) as Hv.
  { refine (stable_run (fun s0 => is_valid_path (status_ s0) = is_valid_path (status_ s))
              _ calls _ Hcalls s tt s' eq_refl E).
    intros c Hc. apply valid_path_perform, Hc. }
  split; [exact Hv|]. intros Hs. apply updateState_invalid. congruence.
Qed.
End StateMachine.

Section Data.
Context `{Build, util.ops, util_lane_change.ops, lanelet_utils.ops,
          motion_utils.ops, marker_utils.ops, rtc.ops}.

(** X16: [updateData] stores the registered objects that
    [updateRegisteredObject] returns and the other objects that
    [compensateDetectionLost] returns; sorting neither drops nor duplicates
    an object: the target objects stored are a permutation of those that
    [compensateDetectionLost] returns. *)
Theorem updateData_keeps_every_object s s' :
  updateData s = Ok (tt, s') ->
  exists data debug s1,
    calcAvoidancePlanningData DebugData_default (set_debug_data_ DebugData_default s)
    = Ok (data, debug, s1) /\
    let registered :=
      util.updateRegisteredObject (registered_objects_ s1)
        (AvoidancePlanningData.target_objects data) (avoidance (parameters_ s1)) in
    let compensated :=
      util.compensateDetectionLost registered
        (AvoidancePlanningData.target_objects data)
        (AvoidancePlanningData.other_objects data) in
    registered_objects_ s' = registered /\
    Permutation (fst compensated) (target_objects_of s') /\
    AvoidancePlanningData.other_objects (avoidance_data_ s') = snd compensated /\
    debug_data_ s' = debug.
Proof.
  unfold updateData. intros E.
  apply bind_inv in E as ([] & s0 & [= <-] & E).
  apply bind_inv in E as (s0' & s0'' & [= <- <-] & E).
  apply bind_inv in E as ([data debug] & s1 & E1 & E).
  exists data, debug, s1. split; [exact E1|].
  unfold bind, modify in E. injection E as <-. cbn.
  repeat split. apply std_sort_Permutation.
Qed.

Lemma createObjectData_cases data object s :
  let path_points := points (AvoidancePlanningData.reference_path data) in
  match path_points !! motion_utils.findNearestIndex path_points
                         (position (initial_pose object)) with
  | Some _ => exists o stopped, createObjectData data object s
                                = Ok (o, set_stopped_objects_ stopped s)
  | None => createObjectData data object s = Raise (out_of_range "path_points")
  end.
Proof.
  cbv zeta. unfold createObjectData. msimpl.
  destruct (_ !! _); [|reflexivity]. do 2 eexists. reflexivity.
Qed.

Lemma mapM_createObjectData data within s :
  (Forall (fun object => ~ nearest_index_out_of_range data object) within /\
   exists os stopped, mapM (createObjectData data) within s
                      = Ok (os, set_stopped_objects_ stopped s)) \/
  (Exists (nearest_index_out_of_range data) within /\
   mapM (createObjectData data) within s = Raise (out_of_range "path_points")).
Proof.
  revert s. induction within as [|object within IH]; intros s; cbn [mapM].
  - left. split; [constructor|]. exists [], (stopped_objects_ s).
    destruct s; reflexivity.
  - pose proof (createObjectData_cases data object s) as Hc. cbv zeta in Hc.
    destruct (_ !! _) eqn:El.
    + destruct Hc as (o & stopped & Hc). rewrite bind_ok with (1 := Hc).
      assert (~ nearest_index_out_of_range data object) as Hin.
      { unfold nearest_index_out_of_range. apply lookup_lt_Some in El. lia. }
      destruct (IH (set_stopped_objects_ stopped s))
        as [(Hall & os & stopped' & Hm)|(Hex & Hm)].
      * left. split; [constructor; assumption|].
        rewrite bind_ok with (1 := Hm). exists (o :: os), stopped'. reflexivity.
      * right. split; [apply Exists_cons_tl, Hex|].
        rewrite bind_raise with (1 := Hm). reflexivity.
    + right. split.
      * apply Exists_cons_hd. unfold nearest_index_out_of_range.
        apply lookup_ge_None in El. exact El.
      * rewrite bind_raise with (1 := Hc). reflexivity.
Qed.

(** X17: the only fault of [fillAvoidanceTargetObjects] is the [out_of_range]
    of [path_points.at()] in [createObjectData]; it occurs exactly when, for
    an object within the target lanes, the index of the nearest path point
    lies beyond the reference path, as every index does on a path without
    points. *)
Theorem fillAvoidanceTargetObjects_faults s data debug f :
  fillAvoidanceTargetObjects data debug s = Raise f <->
  f = out_of_range "path_points" /\
  Exists (nearest_index_out_of_range data) (objects_within_target_lane data s).
Proof.
  unfold fillAvoidanceTargetObjects, objects_within_target_lane. mstep. cbv zeta.
  match goal with
  | |- context [mapM (createObjectData ?d) ?w] =>
      destruct (mapM_createObjectData d w s) as [(Hall & os & stopped & Hm)|(Hex & Hm)]
  end.
  - rewrite bind_ok with (1 := Hm). split; [discriminate|].
    intros [_ Hex]. apply Exists_exists in Hex as (object & Hin & Hout).
    rewrite Forall_forall in Hall. destruct (Hall object Hin). exact Hout.
  - rewrite bind_raise with (1 := Hm). split; [intros [= <-]|intros [-> _]; reflexivity].
    split; [reflexivity|exact Hex].
Qed.
Lemma fillAvoidanceTargetObjects_keeps_path s data debug data' debug' s' :
  filter_keeps_path ->
  fillAvoidanceTargetObjects data debug s = Ok (data', debug', s') ->
  AvoidancePlanningData.reference_path data' = AvoidancePlanningData.reference_path data /\
  AvoidancePlanningData.ego_closest_path_index data'
  = AvoidancePlanningData.ego_closest_path_index data.
Proof.
  intros Hfilter E. unfold fillAvoidanceTargetObjects in E.
  apply bind_inv in E as (s0 & s0' & [= <- <-] & E). cbv zeta in E.
  apply bind_inv in E as (os & s1 & _ & E).
  injection E as E _.
  match type of E with
  | util.filterTargetObjects ?o ?d ?g ?p ?a = _ =>
      pose proof (Hfilter o d g p a) as [Hp Hi]
  end.
  cbv zeta in Hp, Hi. rewrite E in Hp, Hi. cbn [fst] in Hp, Hi.
  split; [exact Hp|exact Hi].
Qed.

(** X18: [ego_closest_path_index] is the index after the nearest segment,
    capped at the last point: on a reference path with points it is a valid
    index of the path.  On a path without points the unsigned
    [size() - 1] wraps around and nothing is capped: the index is the one
    after the nearest segment, beyond the path.  ([util::filterTargetObjects]
    is taken to leave the path and the index alone.) *)
Theorem calcAvoidancePlanningData_closest_index s debug data debug' s' :
  filter_keeps_path ->
  calcAvoidancePlanningData debug s = Ok (data, debug', s') ->
  let path_points := points (AvoidancePlanningData.reference_path data) in
  let size := Z.of_nat (length path_points) in
  let nearest :=
    motion_utils.findNearestSegmentIndex path_points (position (ego_pose_of s)) in
  let index := AvoidancePlanningData.ego_closest_path_index data in
  (size < size_t_max)%Z ->
  (path_points <> [] ->
   (0 <= index < size)%Z /\
   index = Z.min ((nearest + 1) mod size_t_max) (size - 1)) /\
  (path_points = [] -> index = ((nearest + 1) mod size_t_max)%Z).
Proof.
  intros Hfilter E. unfold calcAvoidancePlanningData in E.
  apply bind_inv in E as (s0 & s0' & [= <- <-] & E). cbv zeta in E.
  apply bind_inv in E as (reference_pose & s1 & [= <- <-] & E).
  apply bind_inv in E as (out & s2 & [= <- <-] & E).
  apply bind_inv in E as (previous_path & s3 & E3 & E).
  assert (s3 = s) as ->.
  { unfold deref in E3. destruct (BehaviorModuleOutput.path _); [|discriminate].
    injection E3 as _ <-. reflexivity. }
  apply bind_inv in E as (ego_position & s4 & [= <- <-] & E).
  apply bind_inv in E as (current_lanelets & s5 & E5 & E).
  apply fillAvoidanceTargetObjects_keeps_path in E as [Hp Hi]; [|exact Hfilter].
  cbn [AvoidancePlanningData.reference_path
       AvoidancePlanningData.ego_closest_path_index] in Hp, Hi.
  cbv zeta. rewrite Hp, Hi. unfold ego_pose_of.
  set (size := Z.of_nat (length (points _))).
  set (nearest := motion_utils.findNearestSegmentIndex _ _).
  assert (0 <= (nearest + 1) mod size_t_max < size_t_max)%Z as Hn.
  { apply Z.mod_pos_bound. reflexivity. }
  set (m := ((nearest + 1) mod size_t_max)%Z) in *. clearbody m.
  unfold size_t_sub. intros Hmax. split.
  - intros Hpoints.
    assert (1 <= size)%Z as Hsize.
    { subst size. destruct (points _); [done|]. cbn [length]. lia. }
    rewrite Z.mod_small by lia. split; [lia|reflexivity].
  - intros Hpoints. subst size. rewrite Hpoints. cbn [length Z.of_nat].
    change ((Z.of_nat 0 - 1) mod size_t_max)%Z with (size_t_max - 1)%Z. lia.
Qed.
End Data.

Section Planning.
Context `{Build, util.ops, util_lane_change.ops, lanelet_utils.ops,
          motion_utils.ops, marker_utils.ops, rtc.ops}.

Lemma base_getSafePath v lanes d p :
  stable (fun s => (base s, status_ s) = v) (getSafePath lanes d p).
Proof. stable_all ltac:(assumption). Qed.

(** X19: the status that [updateLaneChangeStatus] leaves: the lane
    identifiers are those of the lanes stored, the start distance is the arc
    length of the ego pose along the lane change lanes, the committed path
    carries the header of the route and is one of the candidates recorded
    in [debug_valid_path_], or the default-constructed path with
    [is_safe] false; [is_valid_path] is kept, and no member but [status_]
    and the debug members is written. *)
Theorem updateLaneChangeStatus_status s s' :
  updateLaneChangeStatus s = Ok (tt, s') ->
  let status := status_ s' in
  lane_follow_lane_ids status = util.getIds (current_lanes status) /\
  lane_change_lane_ids status = util.getIds (lane_change_lanes status) /\
  start_distance status
  = arc_length (lanelet_utils.getArcCoordinates (lane_change_lanes status)
                  (ego_pose_of s)) /\
  is_valid_path status = is_valid_path (status_ s) /\
  ((exists candidate,
      In candidate (debug_valid_path_ s') /\
      lane_change_path status = with_header (route_header_of s) candidate) \/
   (is_safe status = false /\
    lane_change_path status = with_header (route_header_of s) LaneChangePath_default)) /\
  without_debug s' = set_status_ status (without_debug s).
Proof.
  unfold updateLaneChangeStatus. intros E.
  apply bind_inv in E as (lanes & s1 & E1 & E).
  apply current_lanes_of_build_pure in E1 as ->.
  apply bind_inv in E as ([] & s2 & [= <-] & E).
  apply bind_inv in E as (s2 & s2' & [= <- <-] & E).
  apply bind_inv in E as (change_lanes & s3 & E3 & E).
  apply getLaneChangeLanes_pure in E3 as ->.
  apply bind_inv in E as ([] & s4 & [= <-] & E).
  apply bind_inv in E as (s4 & s4' & [= <- <-] & E).
  apply bind_inv in E as ([[valid safe] selected] & s5 & E5 & E).
  pose proof (getSafePath_inv _ _ _ _ _ _ _ _ E5) as (Hsafe & Hinvalid & Hvalid).
  pose proof (debug_only_getSafePath _ _ _ _ _ _ _ eq_refl E5) as Hd.
  assert (debug_valid_path_ s' = debug_valid_path_ s5) as Hdebug.
  { unfold bind, modify, getEgoPose, gets, get, getRouteHeader in E.
    injection E as <-. reflexivity. }
  assert (s' = set_status_ (status_ s') s5 /\
          status_ s' =
            set_lane_change_path (with_header (route_header_of s5) selected)
              (set_start_distance
                 (arc_length (lanelet_utils.getArcCoordinates
                                (lane_change_lanes (status_ s5)) (ego_pose_of s5)))
                 (set_lane_change_lane_ids (util.getIds (lane_change_lanes (status_ s5)))
                    (set_lane_follow_lane_ids (util.getIds (current_lanes (status_ s5)))
                       (set_is_safe safe (status_ s5)))))) as [Hs' Hstatus].
  { unfold bind, modify, getEgoPose, gets, get, getRouteHeader in E.
    injection E as <-. cbn. split; reflexivity. }
  assert (base s5 = base s /\
          status_ s5 = set_lane_change_lanes change_lanes
                         (set_current_lanes lanes (status_ s))) as [Hb Hst].
  { pose proof (base_getSafePath _ _ _ _ _ _ _ eq_refl E5) as Hbs.
    cbn in Hbs. injection Hbs as -> ->. split; reflexivity. }
  cbv zeta. rewrite Hstatus. unfold route_header_of, ego_pose_of.
  rewrite Hb, Hst. cbn.
  repeat split.
  - destruct valid.
    + left. exists selected. rewrite Hdebug. split; [apply Hvalid; reflexivity|].
      reflexivity.
    + right. destruct (Hinvalid eq_refl) as [-> ->]. split; reflexivity.
  - rewrite Hs' at 1. rewrite Hstatus, Hst.
    change (without_debug (set_status_ ?x s5)) with (set_status_ x (without_debug s5)).
    rewrite Hd. cbn. unfold route_header_of, ego_pose_of. rewrite Hb. reflexivity.
Qed.
Lemma abort_logic_getSafePath v lanes d p :
  stable (fun s => (base s, frame_view s) = v) (getSafePath lanes d p).
Proof. stable_all ltac:(assumption). Qed.

Lemma in_abort_state_frame s s' :
  frame_view s' = frame_view s -> in_abort_state s' = in_abort_state s.
Proof.
  intros E. apply frame_view_eq in E as (E1 & E2 & _ & _ & E5).
  unfold in_abort_state. rewrite E1, E2, E5. reflexivity.
Qed.

(** X20: a candidate without points is the default-constructed output, and the
    base object is then as it was.  A candidate with points is the path
    selected, with its lateral shift and the distances to the start and the
    end of its shift line; the steering factor is updated to [APPROACHING]
    with these distances, to the left exactly when the lateral shift is
    positive.  In the abort state the path selected is the abort path;
    otherwise it carries the header of the route. *)
Theorem planCandidate_output s output s' :
  planCandidate s = Ok (output, s') ->
  (points (path_candidate output) = [] ->
   output = CandidateOutput_default /\ base s' = base s) /\
  (points (path_candidate output) <> [] ->
   exists selected,
     output =
       {| path_candidate := path selected;
          lateral_shift := util_lane_change.getLateralShift selected;
          start_distance_to_path_change :=
            motion_utils.calcSignedArcLength (points (path selected))
              (position (ego_pose_of s)) (position (start (shift_line selected)));
          finish_distance_to_path_change :=
            motion_utils.calcSignedArcLength (points (path selected))
              (position (ego_pose_of s)) (position (end_ (shift_line selected))) |} /\
     steering_factor_interface_ptr_ (base s') =
       Some {| factor_pose := (start (shift_line selected), end_ (shift_line selected));
               factor_distance := (start_distance_to_path_change output,
                                   finish_distance_to_path_change output);
               factor_direction :=
                 if Qgtb (lateral_shift output) 0 then SteeringLEFT else SteeringRIGHT;
               factor_status := APPROACHING |} /\
     (in_abort_state s = true -> abort_path_ s = Some selected) /\
     (in_abort_state s = false -> header (path selected) = route_header_of s)).
Proof.
  unfold planCandidate. intros E. cbv zeta in E.
  apply bind_inv in E as (current & s1 & E1 & E).
  apply current_lanes_of_build_pure in E1 as ->.
  apply bind_inv in E as (s0 & s0' & [= <- <-] & E).
  apply bind_inv in E as (lanes & s2 & E2 & E).
  apply getLaneChangeLanes_pure in E2 as ->.
  destruct (empty lanes).
  { injection E as <- <-. split; [auto|]. intros Hp. destruct Hp. reflexivity. }
  apply bind_inv in E as (selected0 & s3 & E3 & E).
  assert (base s3 = base s /\ frame_view s3 = frame_view s) as [Hb Hf].
  { destruct USE_OLD_ARCHITECTURE.
    - apply bind_inv in E3 as (r & s3' & E3 & [= _ <-]).
      pose proof (abort_logic_getSafePath _ _ _ _ _ _ _ eq_refl E3) as Hv.
      split; [exact (f_equal fst Hv)|exact (f_equal snd Hv)].
    - injection E3 as _ <-. split; reflexivity. }
  apply bind_inv in E as (route_header & s4 & [= <- <-] & E). cbv zeta in E.
  rewrite bind_ok with (1 := isAbortState_eq _) in E.
  rewrite (in_abort_state_frame _ _ Hf) in E.
  apply bind_inv in E as (selected & s5 & E5 & E).
  assert (s5 = s3 /\
          (in_abort_state s = true -> abort_path_ s = Some selected) /\
          (in_abort_state s = false -> header (path selected) = route_header_of s))
    as (-> & Habort & Hnormal).
  { destruct (in_abort_state s).
    - apply bind_inv in E5 as (s6 & s6' & [= <- <-] & E5).
      apply frame_view_eq in Hf as (Hp & _). rewrite Hp in E5.
      destruct (abort_path_ s); [|discriminate]. injection E5 as <- <-.
      split; [reflexivity|]. split; [reflexivity|discriminate].
    - injection E5 as <- <-. split; [reflexivity|]. split; [discriminate|].
      intros _. unfold route_header_of. rewrite Hb. reflexivity. }
  destruct (points (path selected)) as [|q qs] eqn:Ep; cbn [empty] in E.
  { injection E as <- <-. split; [auto|]. intros Hp. destruct Hp. reflexivity. }
  apply bind_inv in E as (ego & s6 & [= <- <-] & E).
  apply bind_inv in E as ([] & s7 & E7 & [= <- <-]).
  cbn [path_candidate]. rewrite Ep. split; [discriminate|]. intros _.
  exists selected. unfold ego_pose_of. rewrite Hb, Ep.
  split; [reflexivity|]. split; [|auto].
  unfold updateSteeringFactorPtr_candidate in E7. msimpl in E7.
  injection E7 as <-. cbn. rewrite Hb. reflexivity.
Qed.
(** X21: outside the abort state, with a valid committed path and
    [is_abort_condition_satisfied_] false, [plan] publishes the committed
    path with its drivable area, marks the status valid, records the
    activation read at the start of the cycle and clears the waiting flag.
    Without [USE_OLD_ARCHITECTURE] the reference path of the output is the
    centre line from the first lane change lane and [prev_approved_path_]
    is the previous module's path; with it the output has no reference
    path and [prev_approved_path_] is the published path. *)
Theorem plan_publishes_committed_path s :
  let committed := path (lane_change_path (status_ s)) in
  let activated :=
    rtc.isActivated (uuid_map_ (base s)) (rtc_interface_ptr_map_ (base s)) in
  path_valid s committed = true ->
  in_abort_state s = false ->
  is_abort_condition_satisfied_ s = false ->
  (USE_OLD_ARCHITECTURE = false ->
   lane_change_lanes (status_ s) <> [] /\
   is_Some (BehaviorModuleOutput.path (previous_module_output_ (base s)))) ->
  exists out s' published,
    plan s = Ok (out, s') /\
    generateExtendedDrivableArea committed s = Ok (published, s) /\
    BehaviorModuleOutput.path out = Some published /\
    is_valid_path (status_ s') = true /\
    is_activated_ s' = activated /\
    is_waiting_approval_ (base s') = false /\
    (if USE_OLD_ARCHITECTURE then
       BehaviorModuleOutput.reference_path out = None /\
       path_reference_ (base s')
       = BehaviorModuleOutput.reference_path (previous_module_output_ (base s)) /\
       prev_approved_path_ s' = published
     else
       exists root,
         head (lane_change_lanes (status_ s)) = Some root /\
         BehaviorModuleOutput.reference_path out
         = Some (util.getCenterLinePathFromRootLanelet root (planner_data_ (base s))) /\
         path_reference_ (base s') = BehaviorModuleOutput.reference_path out /\
         BehaviorModuleOutput.path (previous_module_output_ (base s))
         = Some (prev_approved_path_ s')).
Proof.
  intros committed activated Hvalid Habort Hflag Hready.
  unfold plan. do 5 mstep. cbn beta zeta.
  rewrite bind_ok with (1 := isValidPath_of_eq _ _).
  change (path_valid _ _) with (path_valid s committed). rewrite Hvalid. cbn [negb].
  mstep.
  match goal with |- context [bind _ _ ?st] => set (s0 := st) end.
  destruct (isNearEndOfLane_ok s0) as [near Hnear].
  destruct (isCurrentVelocityLow_ok s0) as [low Hlow].
  do 2 mstep. cbn beta zeta.
  rewrite bind_ok with (1 := isAbortState_eq _).
  change (in_abort_state _) with (in_abort_state s). rewrite Habort.
  change (is_abort_condition_satisfied_ _) with (is_abort_condition_satisfied_ s).
  rewrite Hflag. cbn [andb]. mstep.
  destruct (generateExtendedDrivableArea_inputs
              (path (lane_change_path (status_ s))) s s0)
    as (published & G & G0); [reflexivity ..|].
  change (path (lane_change_path (status_ _))) with committed in G0 |- *.
  rewrite bind_ok with (1 := G0). cbn zeta.
  unfold updateOutputTurnSignal, updateSteeringFactorPtr, waitApprovalLeft,
    waitApprovalRight.
  destruct USE_OLD_ARCHITECTURE.
  - msimpl. cbn.
    repeat match goal with
           | |- context [decide ?P] => destruct (decide P)
           end;
      msimpl; (do 2 eexists); exists published;
      (split; [reflexivity|]); cbn; auto 10.
  - destruct Hready as [Hlanes [previous Hprevious]]; [reflexivity|].
    assert (L : lane_change_lanes (status_ s0) = lane_change_lanes (status_ s))
      by reflexivity.
    msimpl. rewrite L.
    destruct (lane_change_lanes (status_ s)) as [|root lanes] eqn:E; [done|].
    cbn [head]. msimpl. cbn. rewrite Hprevious. msimpl. cbn.
    repeat match goal with
           | |- context [decide ?P] => destruct (decide P)
           end;
      msimpl; (do 2 eexists); exists published;
      (split; [reflexivity|]); cbn; eauto 10.
Qed.
Lemma guarded_reset_ok s0 forward :
  USE_OLD_ARCHITECTURE = false ->
  exists chosen s1,
    (if in_abort_state s0 then
       resetPathIfAbort;;
       s <- get;;
       (if is_activated_ s
        then abort_path <- deref "abort_path_" (abort_path_ s);; ret (path abort_path)
        else ret forward)
     else ret forward) s0 = Ok (chosen, s1) /\
    same_inputs s0 s1.
Proof.
  intros Hnew. destruct (in_abort_state s0) eqn:Ea.
  2:{ exists forward, s0. split; [reflexivity|]. unfold same_inputs. tauto. }
  apply in_abort_state_true in Ea as (_ & _ & [abort_path Hpath]).
  assert (exists s1, resetPathIfAbort s0 = Ok (tt, s1) /\ same_inputs s0 s1)
    as (s1 & R & I).
  { destruct (is_abort_approval_requested_ s0) eqn:Hreq.
    - destruct (resetPathIfAbort_requested s0 Hreq) as (s1 & R & _ & _ & _ & _ & I).
      eauto.
    - destruct (resetPathIfAbort_first s0 abort_path Hreq Hpath)
        as (s1 & R & _ & _ & _ & I); [congruence|]. eauto. }
  rewrite bind_ok with (1 := R). mstep. cbn beta.
  pose proof I as (_ & _ & _ & _ & I5 & _).
  destruct (is_activated_ s1).
  - rewrite I5, Hpath. do 2 eexists. split; [reflexivity|exact I].
  - do 2 eexists. split; [reflexivity|exact I].
Qed.

(** X22: without [USE_OLD_ARCHITECTURE], [plan] validates the committed path
    but not the lanes: when the path is valid and [status_.lane_change_lanes]
    is empty it reads [front()] of the empty vector. *)
Theorem plan_without_lane_change_lanes s :
  USE_OLD_ARCHITECTURE = false ->
  path_valid s (path (lane_change_path (status_ s))) = true ->
  lane_change_lanes (status_ s) = [] ->
  plan s = Raise (empty_vector "lane_change_lanes").
Proof.
  intros Hnew Hvalid Hlanes.
  unfold plan. do 5 mstep. cbn beta zeta.
  rewrite bind_ok with (1 := isValidPath_of_eq _ _).
  change (path_valid _ _) with (path_valid s (path (lane_change_path (status_ s)))).
  rewrite Hvalid. cbn [negb]. mstep.
  match goal with |- context [bind _ _ ?st] => set (s0 := st) end.
  destruct (isNearEndOfLane_ok s0) as [near Hnear].
  destruct (isCurrentVelocityLow_ok s0) as [low Hlow].
  do 2 mstep. cbn beta zeta.
  rewrite bind_ok with (1 := isAbortState_eq _).
  match goal with
  | |- context [if ?c then snd (util.insertStopPoint _ _) else _] =>
      set (forward := if c then _ else _)
  end.
  destruct (guarded_reset_ok s0 forward Hnew) as (chosen & s1 & R & I).
  rewrite bind_ok with (1 := R).
  destruct I as (I1 & I2 & I3 & I4 & I5 & I6).
  destruct (generateExtendedDrivableArea_inputs chosen s0 s1)
    as (published & _ & G); [rewrite I1; reflexivity|rewrite I3; reflexivity ..
                             |rewrite I4; reflexivity|].
  rewrite bind_ok with (1 := G). cbn zeta.
  rewrite Hnew. rewrite bind_bind. mstep. cbn beta. rewrite I3.
  change (lane_change_lanes (status_ s0)) with (lane_change_lanes (status_ s)).
  rewrite Hlanes. reflexivity.
Qed.

(** X23: without [USE_OLD_ARCHITECTURE] [resetPathIfAbort] never faults.  With
    it, it faults exactly when no abort approval was requested yet and
    either [abort_path_] is null, or [uuid_map_] has no key for the side of
    the lateral shift of the abort path: ["right"] for a positive shift,
    ["left"] for a negative one. *)
Theorem resetPathIfAbort_faults s f :
  resetPathIfAbort s = Raise f <->
  USE_OLD_ARCHITECTURE = true /\
  is_abort_approval_requested_ s = false /\
  match abort_path_ s with
  | None => f = null_dereference "abort_path_"
  | Some abort_path =>
      let lateral_shift := util_lane_change.getLateralShift abort_path in
      f = out_of_range "uuid_map_" /\
      ((0 < lateral_shift /\ uuid_map_ (base s) !! "right" = None) \/
       (lateral_shift < 0 /\ uuid_map_ (base s) !! "left" = None))
  end.
Proof.
  unfold resetPathIfAbort. mstep.
  destruct (is_abort_approval_requested_ s); cbn [negb].
  { mstep. cbn beta. destruct (rtc.isActivated _ _);
      (split; [discriminate|intros (_ & ? & _); discriminate]). }
  destruct USE_OLD_ARCHITECTURE.
  2:{ split; [discriminate|intros (? & _); discriminate]. }
  destruct (abort_path_ s) as [abort_path|]; cbn [deref].
  2:{ split; [intros [= <-]; auto|intros (_ & _ & ->); reflexivity]. }
  msimpl. cbv zeta. unfold Qgtb.
  destruct (Qltb 0 (util_lane_change.getLateralShift abort_path)) eqn:Epos.
  - apply Qltb_lt in Epos.
    unfold removePreviousRTCStatusRight, generateUUID, assign_uuid. msimpl. cbn.
    destruct (uuid_map_ (base s) !! "right") eqn:Ek.
    + split; [discriminate|]. intros (_ & _ & _ & [[_ ?]|[? _]]); [discriminate|lra].
    + split; [intros [= <-]; auto 10|intros (_ & _ & -> & _); reflexivity].
  - apply Qltb_ge in Epos.
    destruct (Qltb (util_lane_change.getLateralShift abort_path) 0) eqn:Eneg.
    + apply Qltb_lt in Eneg.
      unfold removePreviousRTCStatusLeft, generateUUID, assign_uuid. msimpl. cbn.
      destruct (uuid_map_ (base s) !! "left") eqn:Ek.
      * split; [discriminate|]. intros (_ & _ & _ & [[? _]|[_ ?]]); [lra|discriminate].
      * split; [intros [= <-]; auto 10|intros (_ & _ & -> & _); reflexivity].
    + apply Qltb_ge in Eneg. msimpl.
      split; [discriminate|]. intros (_ & _ & _ & [[? _]|[? _]]); lra.
Qed.

Lemma getReferencePath_pure s p s' : getReferencePath s = Ok (p, s') -> s' = s.
Proof.
  unfold getReferencePath. intros E.
  apply bind_inv in E as (s0 & s0' & [= <- <-] & E). cbv zeta in E.
  apply bind_inv in E as (pose & s1 & [= <- <-] & E).
  apply bind_inv in E as (h & s1 & [= <- <-] & E).
  apply bind_inv in E as (lanes & s1 & E1 & E).
  apply current_lanes_of_build_pure in E1 as ->.
  destruct (empty lanes); [injection E as _ <-; reflexivity|].
  apply bind_inv in E as (l & s1 & E1 & E).
  unfold back in E1. destruct (last lanes); [|discriminate].
  injection E1 as _ <-. injection E as _ <-. reflexivity.
Qed.

Lemma prev_approved_path_updateLaneChangeStatus v :
  stable (fun s => prev_approved_path_ s = v) updateLaneChangeStatus.
Proof. stable_all ltac:(assumption). Qed.

Lemma prev_approved_path_planCandidate v :
  stable (fun s => prev_approved_path_ s = v) planCandidate.
Proof. stable_all ltac:(assumption). Qed.

(** X24: when [planWaitingApproval] returns, the module waits for approval, no
    abort path is approved, the candidate path is set, and [path_reference_]
    as well as the reference path and the turn signal of the output are the
    previous module's.  The path of the output is [prev_approved_path_],
    with a deceleration point inserted when there is a target object.
    Without [USE_OLD_ARCHITECTURE], [prev_approved_path_] is the previous
    module's path; with it, it is the path of [getReferencePath] while the
    ego is within its original lane, and is kept as it was otherwise. *)
Theorem planWaitingApproval_output s out s' :
  planWaitingApproval s = Ok (out, s') ->
  let previous := previous_module_output_ (base s) in
  is_waiting_approval_ (base s') = true /\
  is_abort_path_approved_ s' = false /\
  is_Some (path_candidate_ (base s')) /\
  path_reference_ (base s') = BehaviorModuleOutput.reference_path previous /\
  BehaviorModuleOutput.reference_path out = BehaviorModuleOutput.reference_path previous /\
  BehaviorModuleOutput.turn_signal_info out
  = BehaviorModuleOutput.turn_signal_info previous /\
  BehaviorModuleOutput.path out =
    Some match target_objects_of s with
         | [] => prev_approved_path_ s'
         | o_front :: _ =>
             fst (util.insertDecelPoint (position (ego_pose_of s))
                    (double.sub (longitudinal o_front)
                       (minimum_lane_changing_length (parameters (planner_data_ (base s)))))
                    0 (prev_approved_path_ s') None)
         end /\
  (if USE_OLD_ARCHITECTURE then
     if util_lane_change.isEgoWithinOriginalLane (current_lanes (status_ s))
          (ego_pose_of s) (parameters (planner_data_ (base s)))
     then getReferencePath s = Ok (prev_approved_path_ s', s)
     else prev_approved_path_ s' = prev_approved_path_ s
   else BehaviorModuleOutput.path previous = Some (prev_approved_path_ s')).
Proof.
  unfold planWaitingApproval. intros E.
  apply bind_inv in E as ([] & s1 & E1 & E).
  assert (base s1 = base s /\ avoidance_data_ s1 = avoidance_data_ s /\
          (if USE_OLD_ARCHITECTURE then
             if util_lane_change.isEgoWithinOriginalLane (current_lanes (status_ s))
                  (ego_pose_of s) (parameters (planner_data_ (base s)))
             then getReferencePath s = Ok (prev_approved_path_ s1, s)
             else prev_approved_path_ s1 = prev_approved_path_ s
           else BehaviorModuleOutput.path (previous_module_output_ (base s))
                = Some (prev_approved_path_ s1))) as (Hb & Ha & Hp).
  { assert (stable (fun s0 => (base s0, avoidance_data_ s0) = (base s, avoidance_data_ s))
              (if USE_OLD_ARCHITECTURE
               then
                 s0 <- get;;
                 ego_pose <- getEgoPose;;
                 (if util_lane_change.isEgoWithinOriginalLane
                       (current_lanes (status_ s0)) ego_pose
                       (parameters (planner_data_ (base s0)))
                  then reference_path <- getReferencePath;;
                       modify (set_prev_approved_path_ reference_path)
                  else ret ())
               else
                 out0 <- getPreviousModuleOutput;;
                 previous_path <- deref "path" (BehaviorModuleOutput.path out0);;
                 modify (set_prev_approved_path_ previous_path)))
      as Hs by stable_all ltac:(assumption).
    pose proof (Hs _ _ _ eq_refl E1) as Hv.
    split; [exact (f_equal fst Hv)|]. split; [exact (f_equal snd Hv)|].
    unfold ego_pose_of. destruct USE_OLD_ARCHITECTURE.
    - msimpl in E1.
      destruct (util_lane_change.isEgoWithinOriginalLane _ _ _).
      + destruct (getReferencePath s) as [[reference_path s0]|f] eqn:Er;
          [|discriminate].
        apply getReferencePath_pure in Er as Hpure. subst s0.
        injection E1 as <-. reflexivity.
      + injection E1 as <-. reflexivity.
    - msimpl in E1.
      destruct (BehaviorModuleOutput.path _); [|discriminate].
      injection E1 as <-. reflexivity. }
  apply bind_inv in E as (s1' & s1'' & [= <- <-] & E).
  apply bind_inv in E as (previous & s1' & [= <- <-] & E). cbv zeta in E.
  apply bind_inv in E as (out_path & s2 & E2 & E).
  assert (s2 = s1 /\
          out_path =
            match target_objects_of s with
            | [] => prev_approved_path_ s1
            | o_front :: _ =>
                fst (util.insertDecelPoint (position (ego_pose_of s))
                       (double.sub (longitudinal o_front)
                          (minimum_lane_changing_length
                             (parameters (planner_data_ (base s)))))
                       0 (prev_approved_path_ s1) None)
            end) as [-> ->].
  { unfold target_objects_of, ego_pose_of. rewrite ?Ha, ?Hb in E2.
    destruct (AvoidancePlanningData.target_objects (avoidance_data_ s)) as [|o v];
      cbn [empty negb] in E2.
    - injection E2 as <- <-. split; reflexivity.
    - msimpl in E2. cbn [head] in E2. rewrite Hb in E2. injection E2 as <- <-.
      split; reflexivity. }
  apply bind_inv in E as ([] & s3 & E3 & E).
  apply bind_inv in E as (candidate & s4 & E4 & E).
  assert (prev_approved_path_ s4 = prev_approved_path_ s1) as Hprev.
  { transitivity (prev_approved_path_ s3).
    - exact (prev_approved_path_planCandidate _ _ _ _ eq_refl E4).
    - destruct USE_OLD_ARCHITECTURE; [injection E3 as <-; reflexivity|].
      exact (prev_approved_path_updateLaneChangeStatus _ _ _ _ eq_refl E3). }
  unfold updateRTCStatus in E. msimpl in E. injection E as <- <-. cbn.
  rewrite Hprev, Hb. repeat split; eauto.
Qed.
Lemma getLaneChangeLanes_too_few s current len :
  (length (AvoidancePlanningData.target_objects (avoidance_data_ s))
   < execute_object_num (parameters_ s))%nat ->
  getLaneChangeLanes current len s = Ok ([], s).
Proof.
  intros Hn. apply Nat.ltb_lt in Hn. unfold getLaneChangeLanes. msimpl.
  destruct (empty current); [reflexivity|]. rewrite Hn. reflexivity.
Qed.

Lemma updateLaneChangeStatus_idle s reference_path :
  USE_OLD_ARCHITECTURE = false ->
  BehaviorModuleOutput.reference_path (previous_module_output_ (base s))
  = Some reference_path ->
  target_objects_of s = [] ->
  (1 <= execute_object_num (parameters_ s))%nat ->
  exists status,
    updateLaneChangeStatus s = Ok (tt, set_status_ status s) /\
    lane_change_lanes status = [] /\ is_safe status = false.
Proof.
  intros Hnew Hr Ht Hn. unfold target_objects_of in Ht.
  assert (forall s0, base s0 = base s ->
            current_lanes_of_build s0
            = Ok (util.getCurrentLanesFromPath reference_path (planner_data_ (base s)),
                  s0)) as Hcur.
  { intros s0 Hb. unfold current_lanes_of_build. rewrite Hnew. msimpl.
    rewrite Hb, Hr. reflexivity. }
  assert (forall s0 current len,
            avoidance_data_ s0 = avoidance_data_ s -> parameters_ s0 = parameters_ s ->
            getLaneChangeLanes current len s0 = Ok ([], s0)) as Hlanes.
  { intros s0 current len Ha Hp. apply getLaneChangeLanes_too_few.
    rewrite Ha, Hp, Ht. exact Hn. }
  unfold updateLaneChangeStatus.
  erewrite bind_ok by (apply Hcur; reflexivity). do 2 mstep.
  erewrite bind_ok by (apply Hlanes; reflexivity). do 2 mstep.
  erewrite bind_ok
    by (eapply getSafePath_without_search; [apply Hcur; reflexivity|left; reflexivity]).
  msimpl. cbn. eexists. split; [reflexivity|]. split; reflexivity.
Qed.

(** X25: without [USE_OLD_ARCHITECTURE] and without target objects
    ([execute_object_num] not 0), [planWaitingApproval] returns the previous
    module's output unchanged; the candidate path is empty, no lane change
    lanes are chosen, and the steering factor is left alone. *)
Theorem planWaitingApproval_without_target_objects s previous_path reference_path :
  USE_OLD_ARCHITECTURE = false ->
  BehaviorModuleOutput.path (previous_module_output_ (base s)) = Some previous_path ->
  BehaviorModuleOutput.reference_path (previous_module_output_ (base s))
  = Some reference_path ->
  target_objects_of s = [] ->
  (1 <= execute_object_num (parameters_ s))%nat ->
  exists s',
    planWaitingApproval s = Ok (previous_module_output_ (base s), s') /\
    path_candidate_ (base s') = Some PathWithLaneId_empty /\
    lane_change_lanes (status_ s') = [] /\
    is_safe (status_ s') = false /\
    steering_factor_interface_ptr_ (base s')
    = steering_factor_interface_ptr_ (base s).
Proof.
  intros Hnew Hp Hr Ht Hn. unfold planWaitingApproval. rewrite Hnew.
  msimpl. rewrite Hp. msimpl. cbn [base set_prev_approved_path_ avoidance_data_].
  pose proof Ht as Ht'. unfold target_objects_of in Ht'. rewrite Ht'. cbn [empty negb].
  msimpl.
  destruct (updateLaneChangeStatus_idle (set_prev_approved_path_ previous_path s)
              reference_path Hnew Hr Ht Hn) as (status & Hu & Hl & Hsafe).
  rewrite Hu.
  match goal with
  | |- context [planCandidate ?st] =>
      assert (planCandidate st = Ok (CandidateOutput_default, st)) as Hc
  end.
  { unfold planCandidate. cbv zeta.
    assert (forall s0, base s0 = base s ->
              current_lanes_of_build s0
              = Ok (util.getCurrentLanesFromPath reference_path (planner_data_ (base s)),
                    s0)) as Hcur.
    { intros s0 Hb. unfold current_lanes_of_build. rewrite Hnew. msimpl.
      rewrite Hb, Hr. reflexivity. }
    erewrite bind_ok by (apply Hcur; reflexivity). mstep.
    erewrite bind_ok
      by (apply getLaneChangeLanes_too_few; cbn; rewrite Ht'; exact Hn).
    reflexivity. }
  rewrite Hc. cbn.
  eexists. split.
  { f_equal. apply pair_equal_spec. split; [|reflexivity].
    destruct (previous_module_output_ (base s)) as [p r t']. cbn in *.
    rewrite Hp. reflexivity. }
  cbn. auto.
Qed.
End Planning.

Section Invariants.
Context `{Build, util.ops, util_lane_change.ops, lanelet_utils.ops,
          motion_utils.ops, marker_utils.ops, rtc.ops}.

Lemma inputs_perform c v :
  is_member_call c -> stable (fun s => inputs_of s = v) (perform c).
Proof.
  destruct c; cbn [perform is_member_call]; intros Hc; try done;
    stable_all ltac:(assumption).
Qed.

Lemma identifiers_perform c v :
  USE_OLD_ARCHITECTURE = false -> is_member_call c ->
  stable (fun s => identifiers_of s = v) (perform c).
Proof.
  intros Hnew.
  assert (forall A (a b : M A),
            stable (fun s => identifiers_of s = v) b ->
            stable (fun s => identifiers_of s = v)
              (if USE_OLD_ARCHITECTURE then a else b)) as Hif.
  { intros A a b Hb. rewrite Hnew. exact Hb. }
  destruct c; cbn [perform is_member_call]; intros Hc; try done;
    repeat first [apply Hif | stable_step ltac:(assumption)].
Qed.

(** X26: no member function writes what the module is given: the planner
    data, the previous module's output, the parameters,
    [lane_change_lane_length_] and [check_distance_] are the same after
    every sequence of calls of member functions.  Without
    [USE_OLD_ARCHITECTURE] the identifiers of the approval requests are
    never renewed either. *)
Theorem member_functions_keep_inputs calls s s' :
  Forall is_member_call calls ->
  run calls s = Ok (tt, s') ->
  planner_data_ (base s') = planner_data_ (base s) /\
  previous_module_output_ (base s') = previous_module_output_ (base s) /\
  parameters_ s' = parameters_ s /\
  lane_change_lane_length_ s' = lane_change_lane_length_ s /\
  check_distance_ s' = check_distance_ s /\
  (USE_OLD_ARCHITECTURE = false ->
   uuid_map_ (base s') = uuid_map_ (base s) /\
   random_engine_ (base s') = random_engine_ (base s)).
Proof.
  intros Hcalls E.
  assert (inputs_of s' = inputs_of s) as Hi.
  { refine (stable_run (fun s0 => inputs_of s0 = inputs_of s) _ calls _ Hcalls
              s tt s' eq_refl E).
    intros c Hc. apply inputs_perform, Hc. }
  unfold inputs_of in Hi. injection Hi as -> -> -> -> ->.
  repeat split. 
  - assert (identifiers_of s' = identifiers_of s) as Hu.
    { refine (stable_run (fun s0 => identifiers_of s0 = identifiers_of s) _ calls _
                Hcalls s tt s' eq_refl E).
      intros c Hc. apply identifiers_perform; assumption. }
    injection Hu as -> _. reflexivity.
  - assert (identifiers_of s' = identifiers_of s) as Hu.
    { refine (stable_run (fun s0 => identifiers_of s0 = identifiers_of s) _ calls _
                Hcalls s tt s' eq_refl E).
      intros c Hc. apply identifiers_perform; assumption. }
    injection Hu as _ ->. reflexivity.
Qed.

Lemma resetPathIfAbort_requests s a s' :
  resetPathIfAbort s = Ok (a, s') -> is_abort_approval_requested_ s' = true.
Proof.
  unfold resetPathIfAbort. intros E.
  apply bind_inv in E as (s0 & s0' & [= <- <-] & E).
  destruct (is_abort_approval_requested_ s) eqn:Hreq; cbn [negb] in E.
  - assert (stable (fun s0 => is_abort_approval_requested_ s0 = true)
              (activated <- isActivated;;
               (if activated
                then modify (set_is_abort_path_approved_ true);; clearWaitingApproval
                else modify (set_is_abort_path_approved_ false);; waitApproval)))
      as Hs by stable_all ltac:(assumption).
    exact (Hs _ _ _ Hreq E).
  - apply bind_inv in E as ([] & s1 & _ & E).
    unfold bind, modify in E. injection E as _ <-. reflexivity.
Qed.

Lemma approval_resetPathIfAbort : stable approval_follows_request resetPathIfAbort.
Proof.
  intros s a s' _ E _. exact (resetPathIfAbort_requests s a s' E).
Qed.

Lemma approval_resetParameters : stable approval_follows_request resetParameters.
Proof.
  intros s a s' _ E. unfold resetParameters in E. msimpl in E. injection E as _ <-.
  unfold approval_follows_request. cbn. discriminate.
Qed.

#[local] Hint Resolve approval_resetPathIfAbort approval_resetParameters : stable.

Lemma approval_perform c : stable approval_follows_request (perform c).
Proof.
  destruct c; cbn [perform];
    stable_all ltac:(first [assumption
                           | unfold approval_follows_request; cbn; discriminate]).
Qed.

(** X27: in every reachable state, an abort path is marked approved only if
    its approval has been requested. *)
Theorem abort_approval_follows_request s :
  reachable s ->
  is_abort_path_approved_ s = true -> is_abort_approval_requested_ s = true.
Proof.
  induction 1 as [s (_ & Ha & _)|s c s' _ IH E].
  - intros E. congruence.
  - exact (approval_perform c s tt s' IH E).
Qed.
End Invariants.

Section DebugMessages.
Context `{util.ops}.

(** X28: [get_debug_msg_array] never faults and leaves the module as it is; the
    array it returns, and stores in [lane_change_debug_msg_array_], is
    stamped with the clock and holds one message for each entry of
    [object_debug_], under the key of the entry and with its fields: as
    many messages as entries, no identifier twice. *)
Theorem get_debug_msg_array_reports_every_object s :
  exists msgs s',
    get_debug_msg_array s = Ok (msgs, s') /\
    module_ s' = module_ s /\
    lane_change_debug_msg_array_ s' = msgs /\
    stamp (LaneChangeDebugMsgArray.header msgs) = clock_ s /\
    length (LaneChangeDebugMsgArray.lane_change_info msgs)
    = size (object_debug_ (module_ s)) /\
    NoDup (map LaneChangeDebugMsg.object_id
             (LaneChangeDebugMsgArray.lane_change_info msgs)) /\
    forall msg,
      In msg (LaneChangeDebugMsgArray.lane_change_info msgs) <->
      exists uuid debug_data,
        object_debug_ (module_ s) !! uuid = Some debug_data /\
        msg = debug_msg_of (uuid, debug_data).
Proof.
  unfold get_debug_msg_array. msimpl. do 2 eexists. split; [reflexivity|]. cbn.
  split; [reflexivity|]. split; [reflexivity|]. split; [reflexivity|].
  split; [|split].
  - rewrite length_map. apply length_map_to_list.
  - rewrite map_map. cbn.
    pose proof (NoDup_fst_map_to_list (object_debug_ (module_ s))) as Hn.
    replace (map (fun x => x.1) (map_to_list (object_debug_ (module_ s))))
      with ((map_to_list (object_debug_ (module_ s))).*1) by reflexivity.
    exact Hn.
  - intros msg. rewrite in_map_iff. split.
    + intros ([uuid debug_data] & <- & Hin).
      exists uuid, debug_data. split; [|reflexivity].
      apply elem_of_map_to_list, list_elem_of_In, Hin.
    + intros (uuid & debug_data & Hl & ->). exists (uuid, debug_data).
      split; [reflexivity|]. apply list_elem_of_In, elem_of_map_to_list, Hl.
Qed.
End DebugMessages.

(** * The claims in the scenario *)

Module Examples.
Import Scenario.

(** A conjunction of facts that evaluation settles. *)
Ltac evaluate :=
  repeat (apply conj; [vm_compute; reflexivity|]); vm_compute; reflexivity.

Lemma reachable_running : reachable (running true).
Proof.
  apply reachable_run with (s := waiting true)
    (calls := [manager RUNNING (scene 1 0 10 [obstacle]) true (waiting true);
               call_updateData; call_updateState; call_plan]);
    [|vm_compute; reflexivity].
  apply reachable_run with (s := approaching true)
    (calls := [call_updateData; call_isExecutionRequested; call_isExecutionReady;
               call_processOnEntry; call_planWaitingApproval]);
    [|vm_compute; reflexivity].
  apply reachable_constructed. repeat split.
Qed.

Lemma reachable_aborting : reachable aborting.
Proof.
  apply reachable_run with (s := endangered true) (calls := [call_updateState]);
    [|vm_compute; reflexivity].
  apply reachable_run with (s := running true)
    (calls := [manager RUNNING (scene 10 3 10 [obstacle; intruder]) true (running true);
               call_updateData]);
    [|vm_compute; reflexivity].
  exact reachable_running.
Qed.

(** Both candidates are safe: the module selects the last one. *)
Lemma getSafePath_in_scenario :
  exists valid safe selected s',
    getSafePath [lane_2] 100 LaneChangePath_default searching
    = Ok (valid, safe, selected, s') /\
    debug_valid_path_ s' = snd candidates /\
    (snd candidates = [] -> valid = false) /\
    (snd candidates <> [] ->
     valid = true /\ safe = fst candidates /\
     (safe = true -> last (snd candidates) = Some selected) /\
     (safe = false -> head (snd candidates) = Some selected)).
Proof.
  assert (current_lanes_of_build searching = Ok ([lane_1], searching)) as Hcur
    by (vm_compute; reflexivity).
  apply (proj2 (getSafePath_selects_last_or_first searching [lane_2] 100
                  LaneChangePath_default [lane_1] Hcur)
           candidates (set_object_debug_ ∅ searching)).
  - discriminate.
  - vm_compute. discriminate.
  - vm_compute. reflexivity.
Defined.

(** The three vehicles come out in the order 15 m, 25 m, 40 m. *)
Lemma updateData_in_scenario :
  Sorted longitudinal_le
    (AvoidancePlanningData.target_objects
       (avoidance_data_ (after [call_updateData] crowded))).
Proof.
  apply (updateData_sorts_target_objects crowded (after [call_updateData] crowded)).
  vm_compute. reflexivity.
Defined.

(** Scenario A of the design document: one target object 3 m ahead and a
    margin of 5 m, the module idle. *)
Lemma isExecutionRequested_object_at_3m :
  exists s', isExecutionRequested (object_at_3m IDLE) = Ok (false, s').
Proof.
  assert (exists o,
            AvoidancePlanningData.target_objects (avoidance_data_ (object_at_3m IDLE))
            = [o] /\ longitudinal o == 3) as (o & Htargets & Hdistance).
  { eexists. split; [vm_compute; reflexivity|reflexivity]. }
  apply (isExecutionRequested_rejects_near_object (object_at_3m IDLE) o).
  - vm_compute. discriminate.
  - right. split; eexists; vm_compute; reflexivity.
  - rewrite Htargets. repeat constructor.
  - rewrite Htargets. left. reflexivity.
  - rewrite Hdistance. vm_compute. reflexivity.
Defined.

(** The same object and margin while the module is [RUNNING]: execution
    is requested. *)
Lemma isExecutionRequested_running_object_at_3m :
  (exists o,
     AvoidancePlanningData.target_objects (avoidance_data_ (object_at_3m RUNNING))
     = [o] /\ longitudinal o == 3) /\
  execute_object_longitudinal_margin (parameters_ (object_at_3m RUNNING)) == 5 /\
  isExecutionRequested (object_at_3m RUNNING) = Ok (true, object_at_3m RUNNING).
Proof.
  split; [eexists; split; [vm_compute; reflexivity|reflexivity]|].
  split; [reflexivity|]. vm_compute. reflexivity.
Qed.

(** Abort is disabled: out of its lane with the path unsafe, the module
    stops instead. *)
Lemma abort_disabled_in_scenario :
  (forall satisfied s',
     isAbortConditionSatisfied (endangered false) = Ok (satisfied, s') ->
     current_lane_change_state_ s' = Normal \/
     current_lane_change_state_ s' = Cancel \/
     current_lane_change_state_ s' = Stop) /\
  isAbortState (endangered false) = Ok (false, endangered false) /\
  (forall calls s',
     Forall keeps_abort_disabled calls ->
     current_lane_change_state_ (endangered false) <> Abort ->
     run calls (endangered false) = Ok (tt, s') ->
     current_lane_change_state_ s' <> Abort).
Proof.
  apply (abort_disabled_never_enters_abort (endangered false)).
  vm_compute. reflexivity.
Defined.

Lemma stop_in_scenario :
  current_lane_change_state_ (after [call_updateState] (endangered false)) = Stop.
Proof. vm_compute. reflexivity. Qed.

(** The first abort of the scenario. *)
Lemma abort_path_in_scenario :
  current_lane_change_state_ aborting = Abort /\
  is_Some (abort_path_ aborting) /\
  isAbortState aborting = Ok (true, aborting) /\
  (forall c, perform c aborting <> Raise abort_path_fault).
Proof.
  destruct (abort_state_has_abort_path aborting reachable_aborting)
    as (Hpath & Hstate & _ & Hfault).
  assert (current_lane_change_state_ aborting = Abort) as E
    by (vm_compute; reflexivity).
  split; [exact E|]. split; [exact (Hpath E)|]. split; [|exact Hfault].
  rewrite Hstate. vm_compute. reflexivity.
Defined.

(** The first cycle of the first abort, by the lemma on [plan]: the
    registration is cleared, and the abort path is published at once, on
    the activation of the lane change. *)
Lemma first_abort_cycle_in_scenario :
  (exists s1,
     resetPathIfAbort aborting = Ok (tt, s1) /\
     is_abort_approval_requested_ s1 = true /\
     is_abort_path_approved_ s1 = false /\
     rtc_interface_ptr_map_ (base s1)
     = rtc.removeRTCStatus (rtc_interface_ptr_map_ (base aborting))) /\
  (exists out s',
     plan aborting = Ok (out, s') /\
     BehaviorModuleOutput.path out = Some (path return_path) /\
     is_abort_approval_requested_ s' = true).
Proof.
  destruct (abort_cycle_publishes_on_activation aborting return_path)
    as [(s1 & Hreset & Hrequested & Hfirst)
        (out & s' & forward & published & Hplan & _ & Hpublished & Hout & Hreq)].
  - vm_compute. reflexivity.
  - vm_compute. reflexivity.
  - vm_compute. reflexivity.
  - split; [vm_compute; discriminate|]. eexists. vm_compute. reflexivity.
  - split.
    + exists s1. change (is_abort_approval_requested_ aborting) with false in Hfirst.
      destruct Hfirst as [Happroved [Hrtc _]]. auto.
    + exists out, s'. split; [exact Hplan|]. split; [|exact Hreq].
      rewrite Hout. vm_compute in Hpublished. injection Hpublished as <-.
      vm_compute. reflexivity.
Defined.

(** Entering the abort state a second time: the lane change has resumed
    in between and the operator has approved the request registered for
    it.  [resetPathIfAbort] finds the abort approval requested already:
    no registration is removed, the identifiers stay, and the new abort
    path is published on the approval at hand. *)
Lemma second_abort_keeps_registration :
  current_lane_change_state_ endangered_again = Normal /\
  updateState endangered_again = Ok (RUNNING, aborting_again) /\
  current_lane_change_state_ aborting_again = Abort /\
  is_abort_approval_requested_ aborting_again = true /\
  run [call_plan] aborting_again = Ok (tt, republished) /\
  uuid_map_ (base republished) = uuid_map_ (base aborting_again) /\
  map request_uuid
    (registered (uuid_map_ (base republished))
       (rtc_interface_ptr_map_ (base republished)) "left")
  = map request_uuid
      (registered (uuid_map_ (base aborting_again))
         (rtc_interface_ptr_map_ (base aborting_again)) "left") /\
  map command_activate
    (registered (uuid_map_ (base aborting_again))
       (rtc_interface_ptr_map_ (base aborting_again)) "left") = [true] /\
  map command_activate
    (registered (uuid_map_ (base republished))
       (rtc_interface_ptr_map_ (base republished)) "left") = [true] /\
  published (plan aborting_again) = path <$> abort_path_ aborting_again /\
  published (plan aborting_again)
  = Some (path (shift_path (at_xy 14 3) 15 0 [lane_1])).
Proof. evaluate. Qed.

(** C6: the first cycle of [plan] after [updateState] has entered the abort
    state, the lane change to the left being approved and under way.
    [resetPathIfAbort] clears the registration of the lane change and
    requests the approval of the abort path: after the cycle no request is
    activated and the abort path is not approved.  The same cycle has
    nevertheless published the abort path, because [plan] tests the value
    of [isActivated] that it read before the registration was cleared,
    which is the approval of the lane change.  In the next cycle nothing is
    activated and the lane change path is published again. *)
Lemma abort_path_published_on_stale_approval :
  current_lane_change_state_ aborting = Abort /\
  isAbortState aborting = Ok (true, aborting) /\
  is_abort_approval_requested_ aborting = false /\
  abort_path_ aborting = Some return_path /\
  map command_activate
    (registered (uuid_map_ (base aborting))
       (rtc_interface_ptr_map_ (base aborting)) "left") = [true] /\
  isActivated aborting = Ok (true, aborting) /\
  resetPathIfAbort aborting
  = Ok (tt, set_is_abort_approval_requested_ true
              (set_base
                 (set_rtc_interface_ptr_map_
                    (rtc.removeRTCStatus (rtc_interface_ptr_map_ (base aborting)))
                    (base aborting))
                 aborting)) /\
  run [call_plan] aborting = Ok (tt, abort_requested) /\
  published (plan aborting) = Some (path return_path) /\
  is_activated_ abort_requested = true /\
  is_abort_approval_requested_ abort_requested = true /\
  is_abort_path_approved_ abort_requested = false /\
  isActivated abort_requested = Ok (false, abort_requested) /\
  current_lane_change_state_ abort_requested = Abort /\
  published (plan abort_requested)
  = Some (path (lane_change_path (status_ abort_requested))) /\
  points (path (lane_change_path (status_ abort_requested)))
  = points (path_through [(0, 0); (30, 4)]) /\
  points (path return_path) = points (path_through [(10, 3); (25, 0)]).
Proof.
  repeat (apply conj; [vm_compute; reflexivity|]). vm_compute. reflexivity.
Qed.

(** A committed path that leaves the road. *)
Lemma invalid_path_in_scenario :
  isValidPath_of (path (lane_change_path (status_ off_road))) off_road
  = Ok (false, off_road) /\
  exists s1,
    plan off_road = Ok (BehaviorModuleOutput.empty, s1) /\
    is_valid_path (status_ s1) = false /\
    forall s1', status_ s1' = status_ s1 ->
      exists s2, updateState s1' = Ok (SUCCESS, s2) /\
                 current_state_ (base s2) = SUCCESS.
Proof.
  apply (invalid_path_is_rejected off_road).
  left. exists (path_point 30 100). split.
  - right. left. reflexivity.
  - intros lanelet Hin. vm_compute in Hin.
    destruct Hin as [<-|[<-|[]]]; vm_compute; reflexivity.
Defined.

(** Waiting for approval with the object within the margin. *)
Lemma updateState_target_near :
  updateState target_near
  = Ok (FAILURE, set_base (set_current_state_ FAILURE (base target_near)) target_near).
Proof.
  assert (exists o,
            AvoidancePlanningData.target_objects (avoidance_data_ target_near) = [o] /\
            longitudinal o == 4) as (o & Htargets & Hdistance).
  { eexists. split; [vm_compute; reflexivity|reflexivity]. }
  refine (proj1 (proj2 (updateState_trigger_checks target_near _ _) o [] Htargets _) _).
  - vm_compute. reflexivity.
  - vm_compute. reflexivity.
  - rewrite Htargets. vm_compute. reflexivity.
  - rewrite Hdistance. vm_compute. reflexivity.
Defined.

(** Waiting for approval when the object is gone: the module ends with
    [SUCCESS], not with [FAILURE]. *)
Lemma updateState_target_lost :
  is_valid_path (status_ target_lost) = true /\
  is_waiting_approval_ (base target_lost) = true /\
  length (AvoidancePlanningData.target_objects (avoidance_data_ target_lost)) = 0%nat /\
  execute_object_num (parameters_ target_lost) = 1%nat /\
  updateState target_lost
  = Ok (SUCCESS, set_base (set_current_state_ SUCCESS (base target_lost)) target_lost).
Proof. evaluate. Qed.

(** Before the objects are classified there is no trigger. *)
Lemma getLaneChangeLanes_in_scenario :
  getLaneChangeLanes [lane_1] 200 (approaching true) = Ok ([], approaching true).
Proof.
  apply (getLaneChangeLanes_empty_without_trigger (approaching true) [lane_1] 200).
  right. vm_compute. reflexivity.
Defined.

(** The running lane change. *)
Lemma running_in_scenario :
  isExecutionRequested (running true) = Ok (true, running true) /\
  isExecutionReady (running true) = Ok (true, running true).
Proof.
  apply (running_module_bypasses_gates (running true)).
  vm_compute. reflexivity.
Defined.
(** *** Rounding

    [hasFinishedLaneChange], [isCurrentVelocityLow] and [createObjectData]
    at numbers that the arithmetic of [double] rounds. *)

(** 0.1 + 0.2 is 0.30000000000000004 in [double]: having travelled exactly
    that far the lane change has not finished, one step further it has. *)
Lemma hasFinishedLaneChange_rounds :
  sum (mkLaneChangePhaseInfo (decimal 1 1) (decimal 2 1))
  = double.finite (decimal 30000000000000004 17) /\
  decimal 1 1 + decimal 2 1 < decimal 30000000000000004 17 /\
  hasFinishedLaneChange (travelled (decimal 30000000000000004 17))
  = Ok (false, travelled (decimal 30000000000000004 17)) /\
  hasFinishedLaneChange (travelled (decimal 3000000000000001 16))
  = Ok (true, travelled (decimal 3000000000000001 16)) /\
  (let s := travelled (decimal 30000000000000004 17) in
   updateState s = Ok (RUNNING, set_base (set_current_state_ RUNNING (base s)) s)) /\
  (let s := travelled (decimal 3000000000000001 16) in
   updateState s = Ok (SUCCESS, set_base (set_current_state_ SUCCESS (base s)) s)).
Proof.
  repeat (apply conj; [vm_compute; reflexivity|]); vm_compute; reflexivity.
Qed.

(** The threshold of 10 km/h is the [double] 2.7777777777777777, below
    25/9: at that speed the vehicle is not slow. *)
Lemma isCurrentVelocityLow_rounds :
  threshold_ms = double.finite (decimal 27777777777777777 16) /\
  decimal 27777777777777777 16 < 25 # 9 /\
  (let s := constructed_module true (scene 0 0 (decimal 27777777777777777 16) []) in
   isCurrentVelocityLow s = Ok (false, s)) /\
  (let s := constructed_module true (scene 0 0 (decimal 27777777777777772 16) []) in
   isCurrentVelocityLow s = Ok (true, s)).
Proof.
  repeat (apply conj; [vm_compute; reflexivity|]); vm_compute; reflexivity.
Qed.

(** A vehicle 0.2 m wide and a buffer of 0.7 m: the margin is the [double]
    0.7999999999999999, and an object overhanging by as much on the left
    need not be avoided. *)
Lemma createObjectData_rounds :
  double.add (double.mul (1 # 2) (decimal 2 1)) (decimal 7 1)
  = double.finite (decimal 7999999999999999 16) /\
  decimal 7999999999999999 16 < (1 # 2) * decimal 2 1 + decimal 7 1 /\
  (exists o s',
     createObjectData on_straight_path (vehicle 40 (decimal 7999999999999999 16))
       (narrow empty_road) = Ok (o, s') /\
     overhang_dist o = decimal 7999999999999999 16 /\
     avoid_required o = false) /\
  (exists o s',
     createObjectData on_straight_path (vehicle 40 (decimal 7999999999999998 16))
       (narrow empty_road) = Ok (o, s') /\
     avoid_required o = true).
Proof.
  split; [vm_compute; reflexivity|]. split; [vm_compute; reflexivity|].
  split.
  - destruct (createObjectData _ _ _) as [[o s']|f] eqn:E;
      [|vm_compute in E; discriminate E].
    exists o, s'. split; [reflexivity|].
    vm_compute in E. injection E as <- _. split; vm_compute; reflexivity.
  - destruct (createObjectData _ _ _) as [[o s']|f] eqn:E;
      [|vm_compute in E; discriminate E].
    exists o, s'. split; [reflexivity|].
    vm_compute in E. injection E as <- _. vm_compute; reflexivity.
Qed.
End Examples.

(** * The further properties in the scenario *)

Module Instances.
Import Scenario.

(** The flags and the value of a computation that evaluation settles. *)
Ltac evaluated E :=
  vm_compute in E;
  first [ discriminate E
        | injection E; intros; subst; vm_compute; first [reflexivity | congruence] ].

(** The search of the scenario finds a path that is valid and safe. *)
Lemma getSafePath_flags_in_scenario :
  exists selected s',
    getSafePath [lane_2] 100 LaneChangePath_default searching
    = Ok (true, true, selected, s') /\
    In selected (debug_valid_path_ s') /\
    target_objects_of searching <> [].
Proof.
  destruct (getSafePath [lane_2] 100 LaneChangePath_default searching)
    as [[[[valid safe] selected] s']|f] eqn:E; [|evaluated E].
  assert (valid = true) as -> by evaluated E.
  assert (safe = true) as -> by evaluated E.
  exists selected, s'. split; [reflexivity|].
  destruct (getSafePath_safe_only_with_valid _ _ _ _ _ _ _ _ E) as (_ & _ & Hv).
  destruct (Hv eq_refl) as (Hin & _ & Ht). split; assumption.
Defined.

(** The obstacle is on the right of the path: the lanes are those of the
    left neighbour, lanelet 2. *)
Lemma getLaneChangeLanes_left_in_scenario :
  exists lanes,
    getLaneChangeLanes [lane_1] 200 searching = Ok (lanes, searching) /\
    (lanes = [] \/
     exists lanelet lane,
       routing_left route lanelet = Some lane /\
       lanes = getLaneletSequence route lane (at_xy 0 0) 200 200).
Proof.
  destruct (getLaneChangeLanes [lane_1] 200 searching) as [[lanes s']|f] eqn:E;
    [|evaluated E].
  assert (s' = searching) as -> by evaluated E.
  exists lanes. split; [reflexivity|].
  assert (exists o rest, target_objects_of searching = o :: rest /\
                         util.isOnRight o = true) as (o & rest & Ht & Hright).
  { do 2 eexists. split; vm_compute; reflexivity. }
  pose proof (getLaneChangeLanes_away_from_front_object
                searching [lane_1] 200 o rest lanes searching Ht E) as Hl.
  cbv zeta in Hl. rewrite Hright in Hl. exact Hl.
Defined.

(** The obstacle 40 m ahead, beyond the margin of 5 m: execution is
    requested. *)
Lemma isExecutionRequested_in_scenario :
  exists o_front rest selected s',
    isExecutionRequested searching = Ok (true, s') /\
    target_objects_of searching = o_front :: rest /\
    execute_object_longitudinal_margin (parameters_ searching) <= longitudinal o_front /\
    In selected (debug_valid_path_ s') /\
    motion_utils.calcSignedArcLength (points (path selected))
      (position (ego_pose_of searching)) (position (end_ (shift_line selected)))
    < longitudinal o_front.
Proof.
  destruct (isExecutionRequested searching) as [[requested s']|f] eqn:E;
    [|evaluated E].
  assert (requested = true) as -> by evaluated E.
  destruct (isExecutionRequested_only_if searching s') as
    (o_front & rest & selected & Ht & _ & Hm & Hin & Hend);
    [vm_compute; discriminate|exact E|].
  exists o_front, rest, selected, s'. repeat split; try assumption.
  apply Hend. vm_compute. reflexivity.
Defined.

Lemma execution_requested_in_scenario :
  exists s2,
    isExecutionRequested searching = Ok (true, s2) /\
    target_objects_of searching <> [] /\
    Forall (fun o => execute_object_longitudinal_margin (parameters_ searching)
                     <= longitudinal o)
      (target_objects_of searching).
Proof.
  destruct (isExecutionRequested searching) as [[requested s2]|f] eqn:E;
    [|evaluated E].
  assert (requested = true) as -> by evaluated E.
  exists s2. split; [reflexivity|].
  apply (execution_requested_beyond_margin (approaching true) searching s2);
    [vm_compute; reflexivity|vm_compute; discriminate|exact E].
Defined.

Lemma isExecutionReady_in_scenario :
  exists s',
    isExecutionReady searching = Ok (true, s') /\
    (execute_object_num (parameters_ searching)
     <= length (target_objects_of searching))%nat /\
    target_objects_of searching <> [] /\
    debug_valid_path_ s' <> [].
Proof.
  destruct (isExecutionReady searching) as [[ready s']|f] eqn:E; [|evaluated E].
  assert (ready = true) as -> by evaluated E.
  exists s'. split; [reflexivity|].
  apply (isExecutionReady_only_if searching s'); [vm_compute; discriminate|exact E].
Defined.

(** Out of its lane with the left lane taken: the abort path is found and
    stored. *)
Lemma isAbortConditionSatisfied_in_scenario :
  exists s',
    isAbortConditionSatisfied (endangered true) = Ok (true, s') /\
    current_lane_change_state_ s' = Abort /\
    is_abort_condition_satisfied_ s' = false /\
    is_Some (abort_path_ s').
Proof.
  destruct (isAbortConditionSatisfied (endangered true)) as [[satisfied s']|f] eqn:E;
    [|evaluated E].
  assert (satisfied = true) as -> by evaluated E.
  assert (current_lane_change_state_ s' = Abort) as Hs by evaluated E.
  exists s'. split; [reflexivity|]. split; [exact Hs|].
  destruct (isAbortConditionSatisfied_outcome (endangered true) true s' E)
    as (Hflag & _ & _ & Hpath & _).
  split; [exact Hflag|]. apply Hpath; [exact Hs|]. vm_compute. reflexivity.
Defined.

(** The update that enters the abort state reports [RUNNING]. *)
Lemma updateState_aborting_in_scenario :
  exists status s',
    updateState (endangered true) = Ok (status, s') /\
    current_lane_change_state_ s' = Abort /\ status = RUNNING.
Proof.
  destruct (updateState (endangered true)) as [[status s']|f] eqn:E; [|evaluated E].
  assert (current_lane_change_state_ s' = Abort) as Hs by evaluated E.
  exists status, s'. split; [reflexivity|]. split; [exact Hs|].
  refine (proj1 (updateState_aborting_keeps_running (endangered true) status s' _ _ E) Hs);
    vm_compute; reflexivity.
Defined.

Lemma updateState_status_in_scenario :
  exists s',
    updateState (endangered true) = Ok (RUNNING, s') /\
    current_state_ (base s') = RUNNING /\ RUNNING <> IDLE.
Proof.
  destruct (updateState (endangered true)) as [[status s']|f] eqn:E; [|evaluated E].
  assert (status = RUNNING) as -> by evaluated E.
  exists s'. split; [reflexivity|].
  exact (updateState_returns_stored_status (endangered true) RUNNING s' E).
Defined.

(** With cancelling off the lane change runs on: phases of 0.1 m and 0.2 m
    and 0.30000000000000004 m travelled, which is their sum in [double]. *)
Lemma updateState_without_cancel_in_scenario :
  exists status s',
    updateState at_the_sum = Ok (status, s') /\
    (status = SUCCESS \/ status = RUNNING) /\
    (status = SUCCESS <->
     ~ (in_abort_state at_the_sum = true /\
        util_lane_change.isEgoWithinOriginalLane (current_lanes (status_ at_the_sum))
          (ego_pose_of at_the_sum) (parameters (planner_data_ (base at_the_sum)))
        = false) /\
     double.gtb
       (double.sub
          (arc_length (lanelet_utils.getArcCoordinates
                         (lane_change_lanes (status_ at_the_sum)) (ego_pose_of at_the_sum)))
          (start_distance (status_ at_the_sum)))
       (double.add
          (double.add (prepare (length_ (lane_change_path (status_ at_the_sum))))
                      (lane_changing (length_ (lane_change_path (status_ at_the_sum)))))
          (lane_change_finish_judge_buffer (lane_change (parameters_ at_the_sum))))
     = true).
Proof.
  apply (updateState_without_cancel at_the_sum);
    vm_compute; reflexivity.
Defined.

Lemma abort_condition_flag_in_scenario :
  is_abort_condition_satisfied_ (running true) = false.
Proof.
  apply (abort_condition_flag_is_never_raised
           [call_updateData; call_isExecutionRequested; call_isExecutionReady;
            call_processOnEntry; call_planWaitingApproval;
            manager RUNNING (scene 1 0 10 [obstacle]) true (waiting true);
            call_updateData; call_updateState; call_plan]
           (approaching true) (running true));
    vm_compute; reflexivity.
Defined.

(** The path that leaves the road is rejected by [plan]; the module is then
    left and entered again, and [updateState] still ends it. *)
Lemma rejected_path_in_scenario :
  let rejected := after [call_plan] off_road in
  let entered_again :=
    after [call_processOnExit; call_updateData; call_processOnEntry] rejected in
  is_valid_path (status_ entered_again) = is_valid_path (status_ rejected) /\
  (is_valid_path (status_ rejected) = false ->
   updateState entered_again
   = Ok (SUCCESS, set_base (set_current_state_ SUCCESS (base entered_again))
                    entered_again)).
Proof.
  apply (only_plan_assigns_is_valid_path
           [call_processOnExit; call_updateData; call_processOnEntry]
           (after [call_plan] off_road)
           (after [call_processOnExit; call_updateData; call_processOnEntry]
              (after [call_plan] off_road))).
  - repeat constructor; discriminate.
  - vm_compute. reflexivity.
Defined.

Lemma updateData_objects_in_scenario :
  exists data debug s1,
    calcAvoidancePlanningData DebugData_default (set_debug_data_ DebugData_default crowded)
    = Ok (data, debug, s1) /\
    let registered :=
      util.updateRegisteredObject (registered_objects_ s1)
        (AvoidancePlanningData.target_objects data) (avoidance (parameters_ s1)) in
    let compensated :=
      util.compensateDetectionLost registered
        (AvoidancePlanningData.target_objects data)
        (AvoidancePlanningData.other_objects data) in
    registered_objects_ (after [call_updateData] crowded) = registered /\
    Permutation (fst compensated) (target_objects_of (after [call_updateData] crowded)) /\
    AvoidancePlanningData.other_objects (avoidance_data_ (after [call_updateData] crowded))
    = snd compensated /\
    debug_data_ (after [call_updateData] crowded) = debug.
Proof.
  apply (updateData_keeps_every_object crowded (after [call_updateData] crowded)).
  vm_compute. reflexivity.
Defined.

Lemma filter_keeps_path_in_scenario : filter_keeps_path.
Proof. intros objects data debug planner_data parameters. split; reflexivity. Qed.

Lemma closest_index_in_scenario :
  exists data debug s',
    calcAvoidancePlanningData DebugData_default crowded = Ok (data, debug, s') /\
    AvoidancePlanningData.ego_closest_path_index data = 1%Z /\
    length (points (AvoidancePlanningData.reference_path data)) = 2%nat.
Proof.
  destruct (calcAvoidancePlanningData DebugData_default crowded)
    as [[[data debug] s']|f] eqn:E; [|evaluated E].
  exists data, debug, s'. split; [reflexivity|].
  assert (length (points (AvoidancePlanningData.reference_path data)) = 2%nat) as Hl
    by evaluated E.
  split; [|exact Hl].
  destruct (calcAvoidancePlanningData_closest_index crowded DebugData_default
              data debug s' filter_keeps_path_in_scenario E) as [Hin _].
  { rewrite Hl. reflexivity. }
  destruct Hin as [_ ->].
  { intros Hnil. rewrite Hnil in Hl. discriminate. }
  rewrite Hl. reflexivity.
Defined.

Lemma updateLaneChangeStatus_in_scenario :
  exists s' candidate,
    updateLaneChangeStatus searching = Ok (tt, s') /\
    In candidate (debug_valid_path_ s') /\
    lane_change_path (status_ s') = with_header (mkHeader "map" 0) candidate /\
    lane_change_lane_ids (status_ s') = [2%Z].
Proof.
  destruct (updateLaneChangeStatus searching) as [[[] s']|f] eqn:E; [|evaluated E].
  destruct (updateLaneChangeStatus_status searching s' E)
    as (_ & Hids & _ & _ & [(candidate & Hin & Hpath)|[Hsafe _]] & _).
  - exists s', candidate. split; [reflexivity|]. split; [exact Hin|].
    split; [exact Hpath|]. evaluated E.
  - assert (is_safe (status_ s') = true) by evaluated E. congruence.
Defined.

Lemma planCandidate_in_scenario :
  exists output s',
    planCandidate entered = Ok (output, s') /\
    lateral_shift output == 4 /\
    (factor_direction <$> steering_factor_interface_ptr_ (base s')) = Some SteeringLEFT /\
    (factor_status <$> steering_factor_interface_ptr_ (base s')) = Some APPROACHING.
Proof.
  destruct (planCandidate entered) as [[output s']|f] eqn:E; [|evaluated E].
  assert (lateral_shift output = 4) as Hshift by evaluated E.
  exists output, s'. split; [reflexivity|]. split; [rewrite Hshift; reflexivity|].
  destruct (planCandidate_output entered output s' E) as [_ Hpoints].
  destruct Hpoints as (selected & _ & -> & _).
  { assert (length (points (path_candidate output)) = 2%nat) as Hl by evaluated E.
    intros Hnil. rewrite Hnil in Hl. discriminate. }
  cbn. rewrite Hshift. split; reflexivity.
Defined.

(** The approved lane change: [plan] publishes the committed path. *)
Lemma plan_in_scenario :
  exists out s',
    plan approved = Ok (out, s') /\
    BehaviorModuleOutput.path out = Some (path (lane_change_path (status_ approved))) /\
    is_valid_path (status_ s') = true /\
    is_activated_ s' = true /\
    is_waiting_approval_ (base s') = false.
Proof.
  destruct (plan_publishes_committed_path approved)
    as (out & s' & published & Hplan & Hpublished & Hout & Hvalid & Hactivated
        & Hwait & _).
  - vm_compute. reflexivity.
  - vm_compute. reflexivity.
  - vm_compute. reflexivity.
  - intros _. split; [vm_compute; discriminate|]. eexists. vm_compute. reflexivity.
  - exists out, s'. split; [exact Hplan|].
    split; [|split; [exact Hvalid|split; [|exact Hwait]]].
    + rewrite Hout. vm_compute in Hpublished. injection Hpublished as <-.
      vm_compute. reflexivity.
    + rewrite Hactivated. vm_compute. reflexivity.
Defined.

(** Before any lane is chosen the empty committed path passes the checks;
    [plan] then reads the front of no lane. *)
Lemma plan_without_lanes_in_scenario :
  plan (approaching true) = Raise (empty_vector "lane_change_lanes").
Proof.
  apply (plan_without_lane_change_lanes (approaching true)); vm_compute; reflexivity.
Defined.

Lemma planWaitingApproval_in_scenario :
  exists out s',
    planWaitingApproval entered = Ok (out, s') /\
    is_waiting_approval_ (base s') = true /\
    is_abort_path_approved_ s' = false /\
    BehaviorModuleOutput.path out = BehaviorModuleOutput.path upstream_output /\
    BehaviorModuleOutput.reference_path out
    = BehaviorModuleOutput.reference_path upstream_output.
Proof.
  destruct (planWaitingApproval entered) as [[out s']|f] eqn:E; [|evaluated E].
  exists out, s'. split; [reflexivity|].
  destruct (planWaitingApproval_output entered out s' E)
    as (Hwait & Happroved & _ & _ & Href & _ & Hpath & _).
  split; [exact Hwait|]. split; [exact Happroved|]. split; [|exact Href].
  evaluated E.
Defined.

Lemma planWaitingApproval_on_empty_road :
  exists s',
    planWaitingApproval empty_road = Ok (upstream_output, s') /\
    path_candidate_ (base s') = Some PathWithLaneId_empty /\
    lane_change_lanes (status_ s') = [] /\
    is_safe (status_ s') = false /\
    steering_factor_interface_ptr_ (base s') = None.
Proof.
  apply (planWaitingApproval_without_target_objects empty_road
           (path_through [(0, 0); (100, 0)]) (path_through [(0, 0); (100, 0)]));
    vm_compute; first [reflexivity | lia].
Defined.

Lemma inputs_kept_in_scenario :
  planner_data_ (base (waiting true)) = scene 0 0 10 [obstacle] /\
  previous_module_output_ (base (waiting true)) = upstream_output /\
  parameters_ (waiting true) = module_parameters true /\
  uuid_map_ (base (waiting true)) = uuid_map_ (constructed_base (scene 0 0 10 [obstacle])).
Proof.
  destruct (member_functions_keep_inputs
              [call_updateData; call_isExecutionRequested; call_isExecutionReady;
               call_processOnEntry; call_planWaitingApproval]
              (approaching true) (waiting true))
    as (H1 & H2 & H3 & _ & _ & H6).
  - repeat constructor.
  - vm_compute. reflexivity.
  - destruct H6 as [H6 _]; [reflexivity|]. auto.
Defined.

Lemma reachable_republished : reachable republished.
Proof.
  apply reachable_run with (s := aborting)
    (calls := [call_plan;
               manager RUNNING (scene 12 (1 # 2) 10 [obstacle]) true abort_requested;
               call_updateData; call_updateState; call_plan;
               manager RUNNING (scene 14 3 10 [obstacle; intruder]) true resumed;
               call_updateData; call_updateState; call_plan]);
    [exact Examples.reachable_aborting|vm_compute; reflexivity].
Qed.

(** The second abort of the scenario is approved on the request of the
    first. *)
Lemma abort_approval_in_scenario :
  is_abort_path_approved_ republished = true /\
  is_abort_approval_requested_ republished = true.
Proof.
  assert (is_abort_path_approved_ republished = true) as Ha by (vm_compute; reflexivity).
  split; [exact Ha|].
  exact (abort_approval_follows_request republished reachable_republished Ha).
Defined.
End Instances.
